(** * License plate tracker: the sighting service, the listing filter, the
    exports and the bulk image importer of [app.py], the loader of
    [seed_data_demo.py], and what holds of them.

    The program is a Flask application over one table ([Sighting]) and one
    directory of uploaded images.  It is embedded here as functions over an
    explicit [world]: the rows of the table, the files of the upload
    directory, the messages flashed to the user and the list of storage
    effects performed so far. *)

From Stdlib Require Import ZArith Strings.String Strings.Ascii List Bool Lia.
From stdpp Require Import gmap strings list fin_maps sorting pretty.

Open Scope string_scope.
Open Scope Z_scope.

(** ** Python strings

    A [str] is modelled as a [string] of 8-bit characters.  The case
    conversions act on the ASCII letters and leave every other character
    alone, which is what [str.upper] and [str.lower] do on ASCII text. *)

Module Py.

Definition is_upper (c : ascii) : bool :=
  let n := N_of_ascii c in ((65 <=? n) && (n <=? 90))%N.

Definition is_lower (c : ascii) : bool :=
  let n := N_of_ascii c in ((97 <=? n) && (n <=? 122))%N.

Definition upper_char (c : ascii) : ascii :=
  if is_lower c then ascii_of_N (N_of_ascii c - 32) else c.

Definition lower_char (c : ascii) : ascii :=
  if is_upper c then ascii_of_N (N_of_ascii c + 32) else c.

(** [s.upper()] on ASCII text: the letters [a] to [z] are capitalised and
    every other character is kept.  On other text [str.upper] follows
    Unicode, which is not modelled: what is stated of it is stated for
    ASCII text. *)
Fixpoint upper (s : string) : string :=
  match s with
  | EmptyString => EmptyString
  | String c r => String (upper_char c) (upper r)
  end.

(** [s.lower()] on ASCII text *)
Fixpoint lower (s : string) : string :=
  match s with
  | EmptyString => EmptyString
  | String c r => String (lower_char c) (lower r)
  end.

(** [s.endswith(suffix)] *)
Fixpoint endswith (s suffix : string) : bool :=
  String.eqb s suffix ||
  match s with
  | EmptyString => false
  | String _ r => endswith r suffix
  end.

(** [s.rsplit(sep, 1)] for a one-character separator: the text before and
    after the last occurrence of [sep], or [None] when [sep] does not occur
    (Python then returns the one-element list [[s]]). *)
Fixpoint rsplit1 (sep : ascii) (s : string) : option (string * string) :=
  match s with
  | EmptyString => None
  | String c r =>
      match rsplit1 sep r with
      | Some (before, after) => Some (String c before, after)
      | None => if Ascii.eqb c sep then Some (EmptyString, r) else None
      end
  end.

(** [sep in s] for a one-character [sep] *)
Fixpoint contains (sep : ascii) (s : string) : bool :=
  match s with
  | EmptyString => false
  | String c r => Ascii.eqb c sep || contains sep r
  end.

(** [sep.join(parts)] *)
Fixpoint join (sep : string) (parts : list string) : string :=
  match parts with
  | [] => EmptyString
  | [p] => p
  | p :: rest => p ++ sep ++ join sep rest
  end.

(** Truthiness of a string: [bool(s)] *)
Definition truthy (s : string) : bool := negb (String.eqb s EmptyString).

(** Truthiness of a value that may be [None] *)
Definition truthy_opt (o : option string) : bool :=
  match o with Some s => truthy s | None => false end.

(** [x or ''] for a string or [None]: the empty string is the only falsy
    string, so a string is returned as it is. *)
Definition or_empty (o : option string) : string :=
  match o with Some s => s | None => EmptyString end.

(** [str(n)] for an integer *)
Definition str (n : Z) : string := pretty n.

End Py.

(** ** Dates and times

    A [datetime] carries the seven fields of Python's [datetime.datetime];
    comparison is the comparison of the field tuples. *)

Module DateTime.

Record datetime := mk_datetime {
  year : Z; month : Z; day : Z;
  hour : Z; minute : Z; second : Z; microsecond : Z
}.

#[global] Instance datetime_eq_dec : EqDecision datetime.
Proof. solve_decision. Defined.

Definition is_leap (y : Z) : bool :=
  (y mod 4 =? 0) && (negb (y mod 100 =? 0) || (y mod 400 =? 0)).

Definition days_in_month (y m : Z) : Z :=
  if m =? 2 then (if is_leap y then 29 else 28)
  else if (m =? 4) || (m =? 6) || (m =? 9) || (m =? 11) then 30
  else 31.

(** The values the [datetime] constructor accepts; anything else raises
    [ValueError]. *)
Definition valid_date (y m d : Z) : bool :=
  (1 <=? y) && (y <=? 9999) && (1 <=? m) && (m <=? 12) &&
  (1 <=? d) && (d <=? days_in_month y m).

Definition valid_time (h mi s us : Z) : bool :=
  (0 <=? h) && (h <=? 23) && (0 <=? mi) && (mi <=? 59) &&
  (0 <=? s) && (s <=? 59) && (0 <=? us) && (us <=? 999999).

Definition valid (t : datetime) : bool :=
  valid_date (year t) (month t) (day t) &&
  valid_time (hour t) (minute t) (second t) (microsecond t).

Definition fields (t : datetime) : list Z :=
  [year t; month t; day t; hour t; minute t; second t; microsecond t].

(** Lexicographic [<] on tuples of integers *)
Fixpoint lex_ltb (a b : list Z) : bool :=
  match a, b with
  | x :: a', y :: b' => (x <? y) || ((x =? y) && lex_ltb a' b')
  | [], _ :: _ => true
  | _, [] => false
  end.

Definition ltb (a b : datetime) : bool := lex_ltb (fields a) (fields b).
Definition leb (a b : datetime) : bool := negb (ltb b a).




(** [t + timedelta(days=1)]: the same time on the next calendar day;
    [None] stands for the [OverflowError] raised past 9999-12-31. *)
Definition add_one_day (t : datetime) : option datetime :=
  let with_date y m d :=
    mk_datetime y m d (hour t) (minute t) (second t) (microsecond t) in
  if day t <? days_in_month (year t) (month t)
  then Some (with_date (year t) (month t) (day t + 1))
  else if month t <? 12 then Some (with_date (year t) (month t + 1) 1)
  else if year t <? 9999 then Some (with_date (year t + 1) 1 1)
  else None.

(** *** Formatting *)

Definition digit (n : Z) : ascii := ascii_of_N (48 + Z.to_N n).

Definition pad2 (n : Z) : string :=
  String (digit (n / 10)) (String (digit (n mod 10)) EmptyString).

Definition pad4 (n : Z) : string :=
  String (digit (n / 1000)) (String (digit (n / 100 mod 10))
    (String (digit (n / 10 mod 10)) (String (digit (n mod 10)) EmptyString))).

(** [t.strftime('%Y-%m-%d %H:%M:%S')].  The year is written with four
    digits; C libraries agree on that from the year 1000 on. *)
Definition strftime (t : datetime) : string :=
  pad4 (year t) ++ "-" ++ pad2 (month t) ++ "-" ++ pad2 (day t) ++ " " ++
  pad2 (hour t) ++ ":" ++ pad2 (minute t) ++ ":" ++ pad2 (second t).

(** A calendar day written [YYYY-MM-DD], as a date input sends it *)
Definition iso_date (y m d : Z) : string :=
  pad4 y ++ "-" ++ pad2 m ++ "-" ++ pad2 d.

(** *** Parsing

    [datetime.strptime] turns the format into a regular expression, one
    group per directive, and matches it against the whole text, ignoring the
    case of letters:
      %Y  \d\d\d\d
      %m  1[0-2]|0[1-9]|[1-9]
      %d  3[01]|[12]\d|0[1-9]|[1-9]| [1-9]
      %H  2[0-3]|[0-1]\d|\d
      %M  [0-5]\d|\d
      %S  6[0-1]|[0-5]\d|\d
    and a blank of the format matches one or more white-space characters.
    In the three formats of the program every numeric group is followed by a
    character that is no digit or by the end of the text, so the first
    alternative that matches is the one the match keeps. *)

Inductive directive :=
  | dY | dm | dd | dH | dM | dS
  | Lit (c : ascii)
  | Blank.

Definition digit_val (c : ascii) : option Z :=
  let n := Z.of_N (N_of_ascii c) in
  if (48 <=? n) && (n <=? 57) then Some (n - 48) else None.

Definition is_space (c : ascii) : bool :=
  let n := N_of_ascii c in
  (((9 <=? n) && (n <=? 13)) || ((28 <=? n) && (n <=? 32)))%N.

(** A group whose alternatives are two-digit patterns, tried first, and one
    one-digit pattern. *)
Definition two_or_one (ok2 : Z -> Z -> bool) (ok1 : Z -> bool) (s : string)
  : option (Z * string) :=
  match s with
  | String a r =>
      match digit_val a with
      | Some x =>
          let one := if ok1 x then Some (x, r) else None in
          match r with
          | String b r' =>
              match digit_val b with
              | Some y => if ok2 x y then Some (10 * x + y, r') else one
              | None => one
              end
          | EmptyString => one
          end
      | None => None
      end
  | EmptyString => None
  end.

Definition parse_Y (s : string) : option (Z * string) :=
  match s with
  | String a (String b (String c (String d r))) =>
      match digit_val a, digit_val b, digit_val c, digit_val d with
      | Some x3, Some x2, Some x1, Some x0 =>
          Some (1000 * x3 + 100 * x2 + 10 * x1 + x0, r)
      | _, _, _, _ => None
      end
  | _ => None
  end.

Definition parse_m : string -> option (Z * string) :=
  two_or_one (fun x y => ((x =? 1) && (y <=? 2)) || ((x =? 0) && (1 <=? y)))
             (fun x => 1 <=? x).

Definition parse_d (s : string) : option (Z * string) :=
  match
    two_or_one (fun x y => ((x =? 3) && (y <=? 1)) || (x =? 1) || (x =? 2)
                           || ((x =? 0) && (1 <=? y)))
               (fun x => 1 <=? x) s
  with
  | Some res => Some res
  | None =>
      match s with
      | String " " (String b r) =>
          match digit_val b with
          | Some y => if 1 <=? y then Some (y, r) else None
          | None => None
          end
      | _ => None
      end
  end.

Definition parse_H : string -> option (Z * string) :=
  two_or_one (fun x y => ((x =? 2) && (y <=? 3)) || (x <=? 1)) (fun _ => true).

Definition parse_M : string -> option (Z * string) :=
  two_or_one (fun x _ => x <=? 5) (fun _ => true).

Definition parse_S : string -> option (Z * string) :=
  two_or_one (fun x y => ((x =? 6) && (y <=? 1)) || (x <=? 5)) (fun _ => true).

Fixpoint skip_spaces (s : string) : string :=
  match s with
  | String c r => if is_space c then skip_spaces r else s
  | EmptyString => s
  end.

(** One or more white-space characters *)
Definition parse_blank (s : string) : option string :=
  match s with
  | String c r => if is_space c then Some (skip_spaces r) else None
  | EmptyString => None
  end.

Definition parse_lit (c : ascii) (s : string) : option string :=
  match s with
  | String a r =>
      if Ascii.eqb (Py.lower_char a) (Py.lower_char c) then Some r else None
  | EmptyString => None
  end.

(** Fields not named by the format keep the defaults 1900-01-01 00:00:00. *)
Definition epoch : datetime := mk_datetime 1900 1 1 0 0 0 0.

Definition set_field (dir : directive) (v : Z) (t : datetime) : datetime :=
  match dir with
  | dY => mk_datetime v (month t) (day t) (hour t) (minute t) (second t) (microsecond t)
  | dm => mk_datetime (year t) v (day t) (hour t) (minute t) (second t) (microsecond t)
  | dd => mk_datetime (year t) (month t) v (hour t) (minute t) (second t) (microsecond t)
  | dH => mk_datetime (year t) (month t) (day t) v (minute t) (second t) (microsecond t)
  | dM => mk_datetime (year t) (month t) (day t) (hour t) v (second t) (microsecond t)
  | dS => mk_datetime (year t) (month t) (day t) (hour t) (minute t) v (microsecond t)
  | _ => t
  end.

Definition parse_num (dir : directive) : string -> option (Z * string) :=
  match dir with
  | dY => parse_Y | dm => parse_m | dd => parse_d
  | dH => parse_H | dM => parse_M | dS => parse_S
  | _ => fun _ => None
  end.

(** The match of the whole text against the format; text left over is
    "unconverted data remains". *)
Fixpoint match_format (fmt : list directive) (s : string) (t : datetime)
  : option datetime :=
  match fmt with
  | [] => if String.eqb s EmptyString then Some t else None
  | Lit c :: fmt' =>
      match parse_lit c s with
      | Some r => match_format fmt' r t
      | None => None
      end
  | Blank :: fmt' =>
      match parse_blank s with
      | Some r => match_format fmt' r t
      | None => None
      end
  | dir :: fmt' =>
      match parse_num dir s with
      | Some (v, r) => match_format fmt' r (set_field dir v t)
      | None => None
      end
  end.

(** [datetime.strptime(s, fmt)]; [None] stands for [ValueError]. *)
Definition strptime (s : string) (fmt : list directive) : option datetime :=
  match match_format fmt s epoch with
  | Some t => if valid t then Some t else None
  | None => None
  end.

(** '%Y-%m-%d' *)
Definition fmt_date : list directive :=
  [dY; Lit "-"; dm; Lit "-"; dd].

(** '%Y-%m-%dT%H:%M' *)
Definition fmt_form : list directive :=
  [dY; Lit "-"; dm; Lit "-"; dd; Lit "T"; dH; Lit ":"; dM].

(** '%Y-%m-%d %H:%M:%S' *)
Definition fmt_seed : list directive :=
  [dY; Lit "-"; dm; Lit "-"; dd; Blank; dH; Lit ":"; dM; Lit ":"; dS].

End DateTime.

(** ** More of Python's text methods

    White space is the ASCII white space of [str.isspace]. *)

Module PyText.

(** [s.lstrip()] *)
Fixpoint lstrip (s : string) : string :=
  match s with
  | String c r => if DateTime.is_space c then lstrip r else s
  | EmptyString => s
  end.

(** [s.rstrip()] *)
Fixpoint rstrip (s : string) : string :=
  match s with
  | String c r =>
      let r' := rstrip r in
      if String.eqb r' EmptyString && DateTime.is_space c then EmptyString
      else String c r'
  | EmptyString => s
  end.

(** [s.strip()] on ASCII text, whose white space is the characters 9 to 13
    and 28 to 32.  [str.strip] also removes the white space of Unicode,
    which is not modelled. *)
Definition strip (s : string) : string := rstrip (lstrip s).

(** [s.startswith(prefix)] *)
Fixpoint startswith (s prefix : string) {struct prefix} : bool :=
  match prefix with
  | EmptyString => true
  | String c p =>
      match s with
      | String d r => Ascii.eqb c d && startswith r p
      | EmptyString => false
      end
  end.

(** [s[n:]] *)
Fixpoint drop_chars (n : nat) (s : string) : string :=
  match n, s with
  | S n', String _ r => drop_chars n' r
  | _, _ => s
  end.

(** [s.replace(old, new, 1)]: the first occurrence of [old], scanning from
    the left, is replaced. *)
Fixpoint replace_first (old new s : string) : string :=
  if startswith s old then new ++ drop_chars (String.length old) s
  else
    match s with
    | String c r => String c (replace_first old new r)
    | EmptyString => s
    end.

End PyText.

(** ** The application

    [app.py]: the table, the upload directory and the request handlers. *)

Module App.
Import DateTime.

Abbreviation bytes := (list Byte.byte).

(** The model class [Sighting]: one row of the table.  The first five text
    columns are declared [nullable=False]. *)
Record Sighting := mk_sighting {
  id : Z;
  state : string;
  license_plate : string;
  car_make : string;
  car_model : string;
  color : string;
  location : option string;
  timestamp : option datetime;
  notes : option string;
  image_filename : option string
}.

#[global] Instance Sighting_eq_dec : EqDecision Sighting.
Proof. solve_decision. Defined.

(** An uploaded file of a request (werkzeug's [FileStorage]) *)
Record upload := mk_upload {
  filename : string;
  content : bytes
}.

(** Exceptions the handlers meet: a missing form or dictionary key, a text
    that is no date, a date past the last representable day. *)
Inductive exn :=
  | KeyError (key : string)
  | ValueError
  | OverflowError.

Inductive result (A : Type) :=
  | Ok (a : A)
  | Raise (e : exn).
Arguments Ok {A} a.
Arguments Raise {A} e.

Definition bind {A B} (c : result A) (k : A -> result B) : result B :=
  match c with
  | Ok a => k a
  | Raise e => Raise e
  end.

Notation "'let*' x := c 'in' k" := (bind c (fun x => k))
  (at level 10, x name, c at level 100, k at level 200).

(** A flashed message: plain text, or the text built around an exception. *)
Inductive message :=
  | Text (s : string)
  | ErrorAdding (e : exn)
  | ErrorUpdating (e : exn).

(** What a handler did to the upload directory and to the table, one entry
    per file written or removed and per row statement sent. *)
Inductive effect :=
  | FileSave (name : string)
  | FileRemove (name : string)
  | RowInsert (i : Z)
  | RowUpdate (i : Z)
  | RowDelete (i : Z).

Inductive method := GET | POST.

Inductive response :=
  | Redirect (endpoint : string)
  | Render (template : string).

(** The table in row order, the upload directory as a map from file names
    to contents, the flashed messages (with their category) and the effects,
    oldest first. *)
Record world := mk_world {
  db : list Sighting;
  uploads : gmap string bytes;
  flashes : list (message * string);
  trace : list effect
}.

Definition set_db (rows : list Sighting) (w : world) : world :=
  mk_world rows (uploads w) (flashes w) (trace w).

Definition set_uploads (u : gmap string bytes) (w : world) : world :=
  mk_world (db w) u (flashes w) (trace w).

Definition flash (m : message) (category : string) (w : world) : world :=
  mk_world (db w) (uploads w) (flashes w ++ [(m, category)]) (trace w).

Definition log (e : effect) (w : world) : world :=
  mk_world (db w) (uploads w) (flashes w) (trace w ++ [e]).

Definition ALLOWED_EXTENSIONS : gset string :=
  {[ "png"; "jpg"; "jpeg"; "gif"; "webp" ]}.

(** [allowed_file] *)
Definition allowed_file (name : string) : bool :=
  Py.contains "." name &&
  match Py.rsplit1 "." name with
  | Some (_, ext) => bool_decide (Py.lower ext ∈ ALLOWED_EXTENSIONS)
  | None => false
  end.

(** *** The table *)

(** The key of a new row: one more than the largest key in the table, as
    SQLite assigns it to an integer primary key. *)
Definition next_id (rows : list Sighting) : Z :=
  1 + fold_right (fun r m => Z.max (id r) m) 0 rows.

(** [db.session.get(Sighting, sighting_id)] *)
Fixpoint get_sighting (i : Z) (rows : list Sighting) : option Sighting :=
  match rows with
  | [] => None
  | r :: rest => if id r =? i then Some r else get_sighting i rest
  end.

(** The UPDATE of the row of an object *)
Definition update_row (r : Sighting) (rows : list Sighting) : list Sighting :=
  map (fun x => if id x =? id r then r else x) rows.

(** The DELETE of the row of an object *)
Definition delete_row (i : Z) (rows : list Sighting) : list Sighting :=
  List.filter (fun x => negb (id x =? i)) rows.

(** [db.session.commit()] for an object loaded as [old] and now [new]: an
    UPDATE is sent when an attribute has changed. *)
Definition commit_row (old new : Sighting) (w : world) : world :=
  if decide (old = new) then w
  else log (RowUpdate (id new)) (set_db (update_row new (db w)) w).

Definition set_image (r : Sighting) (f : option string) : Sighting :=
  mk_sighting (id r) (state r) (license_plate r) (car_make r) (car_model r)
    (color r) (location r) (timestamp r) (notes r) f.

(** [request.form[key]] *)
Definition form_item (form : gmap string string) (key : string) : result string :=
  match form !! key with
  | Some v => Ok v
  | None => Raise (KeyError key)
  end.

(** [datetime.strptime(text, fmt)] as a computation that may raise *)
Definition parse_time (text : string) (fmt : list directive) : result datetime :=
  match strptime text fmt with
  | Some t => Ok t
  | None => Raise ValueError
  end.

Section Handlers.

(** werkzeug's [secure_filename], which the program imports. *)
Variable secure_filename : string -> string.

(** [save_image] *)
Definition save_image (file : upload) (sighting_id : Z) (w : world)
  : option string * world :=
  if Py.truthy (filename file) && allowed_file (filename file) then
    let original_filename := secure_filename (filename file) in
    let name := "sighting_" ++ Py.str sighting_id ++ "_" ++ original_filename in
    (Some name,
     log (FileSave name) (set_uploads (<[name := content file]> (uploads w)) w))
  else (None, w).

(** [delete_image] *)
Definition delete_image (name : option string) (w : world) : bool * world :=
  if Py.truthy_opt name then
    let f := Py.or_empty name in
    match uploads w !! f with
    | Some _ => (true, log (FileRemove f) (set_uploads (delete f (uploads w)) w))
    | None => (false, w)
    end
  else (false, w).

Definition invalid_type_warning : message :=
  Text "Invalid file type. Allowed types: png, jpg, jpeg, gif, webp".

(** The body of the [try] of [add_sighting] *)
Definition add_sighting_try (form : gmap string string)
    (files : gmap string upload) (now : datetime) (w : world) : result world :=
  let sighting_time_str := form !! "sighting_time" in
  let* timestamp :=
    (if Py.truthy_opt sighting_time_str
     then parse_time (Py.or_empty sighting_time_str) fmt_form
     else Ok now) in
  let* st := form_item form "state" in
  let* plate := form_item form "license_plate" in
  let* make := form_item form "car_make" in
  let* model := form_item form "car_model" in
  let* col := form_item form "color" in
  let sighting :=
    mk_sighting (next_id (db w)) (Py.upper st) (Py.upper plate) make model col
      (form !! "location") (Some timestamp) (form !! "notes") None in
  (* db.session.add(sighting); db.session.flush() *)
  let w1 := log (RowInsert (id sighting)) (set_db (db w ++ [sighting]) w) in
  let '(sighting', w2) :=
    match files !! "image" with
    | Some file =>
        if Py.truthy (filename file) then
          if allowed_file (filename file) then
            let '(name, w') := save_image file (id sighting) w1 in
            if Py.truthy_opt name then (set_image sighting name, w')
            else (sighting, w')
          else (sighting, flash invalid_type_warning "warning" w1)
        else (sighting, w1)
    | None => (sighting, w1)
    end in
  Ok (flash (Text "Sighting added successfully!") "success"
        (commit_row sighting sighting' w2)).

(** [add_sighting]: an exception rolls the transaction back, so the table
    is the one before the request. *)
Definition add_sighting (m : method) (form : gmap string string)
    (files : gmap string upload) (now : datetime) (w : world)
  : response * world :=
  match m with
  | POST =>
      match add_sighting_try form files now w with
      | Ok w' => (Redirect "index", w')
      | Raise e => (Render "add_sighting.html", flash (ErrorAdding e) "error" w)
      end
  | GET => (Render "add_sighting.html", w)
  end.

(** The body of the [try] of [edit_sighting] *)
Definition edit_sighting_try (sighting : Sighting) (form : gmap string string)
    (files : gmap string upload) (w : world) : result world :=
  let sighting_time_str := form !! "sighting_time" in
  let* ts :=
    (if Py.truthy_opt sighting_time_str
     then bind (parse_time (Py.or_empty sighting_time_str) fmt_form)
               (fun t => Ok (Some t))
     else Ok (timestamp sighting)) in
  let* st := form_item form "state" in
  let* plate := form_item form "license_plate" in
  let* make := form_item form "car_make" in
  let* model := form_item form "car_model" in
  let* col := form_item form "color" in
  let s1 :=
    mk_sighting (id sighting) (Py.upper st) (Py.upper plate) make model col
      (form !! "location") ts (form !! "notes") (image_filename sighting) in
  (* image removal *)
  let '(s2, w1) :=
    if bool_decide (form !! "remove_image" = Some "true") then
      if Py.truthy_opt (image_filename s1)
      then (set_image s1 None, snd (delete_image (image_filename s1) w))
      else (s1, w)
    else (s1, w) in
  (* new image *)
  let '(s3, w2) :=
    match files !! "image" with
    | Some file =>
        if Py.truthy (filename file) then
          if allowed_file (filename file) then
            let w' :=
              if Py.truthy_opt (image_filename s2)
              then snd (delete_image (image_filename s2) w1)
              else w1 in
            let '(name, w'') := save_image file (id s2) w' in
            if Py.truthy_opt name then (set_image s2 name, w'')
            else (s2, w'')
          else (s2, flash invalid_type_warning "warning" w1)
        else (s2, w1)
    | None => (s2, w1)
    end in
  Ok (flash (Text "Sighting updated successfully!") "success"
        (commit_row sighting s3 w2)).

(** [edit_sighting] *)
Definition edit_sighting (m : method) (sighting_id : Z)
    (form : gmap string string) (files : gmap string upload) (w : world)
  : response * world :=
  match get_sighting sighting_id (db w) with
  | None => (Redirect "index", flash (Text "Sighting not found.") "error" w)
  | Some sighting =>
      match m with
      | POST =>
          match edit_sighting_try sighting form files w with
          | Ok w' => (Redirect "index", w')
          | Raise e =>
              (Render "edit_sighting.html", flash (ErrorUpdating e) "error" w)
          end
      | GET => (Render "edit_sighting.html", w)
      end
  end.

(** [delete_sighting] *)
Definition delete_sighting (sighting_id : Z) (w : world) : response * world :=
  match get_sighting sighting_id (db w) with
  | Some sighting =>
      let w1 :=
        if Py.truthy_opt (image_filename sighting)
        then snd (delete_image (image_filename sighting) w)
        else w in
      let w2 :=
        log (RowDelete (id sighting))
            (set_db (delete_row (id sighting) (db w1)) w1) in
      (Redirect "index",
       flash (Text "Sighting deleted successfully.") "success" w2)
  | None => (Redirect "index", flash (Text "Sighting not found.") "error" w)
  end.

End Handlers.

(** *** Bulk image import *)

(** The counters and the error list of [bulk_upload] *)
Record tally := mk_tally {
  success_count : Z;
  error_count : Z;
  errors : list string
}.

(** [Sighting.query.filter_by(image_filename=name).first()] *)
Fixpoint first_with_image (name : string) (rows : list Sighting)
  : option Sighting :=
  match rows with
  | [] => None
  | r :: rest =>
      if decide (image_filename r = Some name) then Some r
      else first_with_image name rest
  end.

(** [Sighting.query.filter(Sighting.image_filename.isnot(None)).all()]: the
    rows that have a file name, each with that name. *)
Fixpoint with_image (rows : list Sighting) : list (Sighting * string) :=
  match rows with
  | [] => []
  | r :: rest =>
      match image_filename r with
      | Some f => (r, f) :: with_image rest
      | None => with_image rest
      end
  end.

(** The [for s in all_sightings] loop, left at the first row whose file name
    ends with ["_" + uploaded_filename]. *)
Fixpoint scan_suffix (uploaded_filename : string)
    (all_sightings : list (Sighting * string)) : option (Sighting * string) :=
  match all_sightings with
  | [] => None
  | (s, f) :: rest =>
      if Py.endswith f ("_" ++ uploaded_filename) then Some (s, f)
      else scan_suffix uploaded_filename rest
  end.

Definition count_error (msg : string) (t : tally) : tally :=
  mk_tally (success_count t) (error_count t + 1) (errors t ++ [msg]).

Definition count_success (t : tally) : tally :=
  mk_tally (success_count t + 1) (error_count t) (errors t).

(** [file.save(filepath)] under the upload directory *)
Definition save_as (name : string) (file : upload) (w : world) : world :=
  log (FileSave name) (set_uploads (<[name := content file]> (uploads w)) w).

(** One turn of the [for file in files] loop *)
Definition bulk_file (file : upload) (st : tally * world) : tally * world :=
  let '(t, w) := st in
  if String.eqb (filename file) "" then st
  else if negb (allowed_file (filename file)) then
    (count_error (filename file ++ ": Invalid file type") t, w)
  else
    let uploaded_filename := filename file in
    let found :=
      match first_with_image uploaded_filename (db w) with
      | Some s => Some (s, uploaded_filename)
      | None => scan_suffix uploaded_filename (with_image (db w))
      end in
    match found with
    | None =>
        (count_error
           (uploaded_filename ++ ": No matching sighting found in database") t,
         w)
    | Some (_, target_filename) =>
        (count_success t, save_as target_filename file w)
    end.

Definition bulk_loop (files : list upload) (st : tally * world) : tally * world :=
  fold_left (fun st file => bulk_file file st) files st.

Definition flash_all (msgs : list string) (category : string) (w : world) : world :=
  fold_left (fun w m => flash (Text m) category w) msgs w.

(** The messages that report the counters; at most ten errors are shown. *)
Definition bulk_report (t : tally) (w : world) : world :=
  let w1 :=
    if 0 <? success_count t
    then flash (Text ("Successfully uploaded " ++ Py.str (success_count t)
                      ++ " image(s)")) "success" w
    else w in
  if 0 <? error_count t
  then flash_all (take 10 (errors t)) "error"
         (flash (Text (Py.str (error_count t) ++ " file(s) failed to upload"))
                "warning" w1)
  else w1.

(** [bulk_upload]; [files] is [request.files.getlist('images')], empty when
    the request has no such field. *)
Definition bulk_upload (m : method) (files : list upload) (w : world)
  : response * world :=
  match m with
  | POST =>
      if bool_decide (files = []) ||
         forallb (fun f => String.eqb (filename f) "") files
      then (Redirect "bulk_upload", flash (Text "No files selected") "error" w)
      else
        let '(t, w') := bulk_loop files (mk_tally 0 0 [], w) in
        (Redirect "index", bulk_report t w')
  | GET => (Render "bulk_upload.html", w)
  end.

(** *** Listing *)

(** Comparison of a nullable timestamp column: NULL sorts below every value
    (SQLite), and no comparison with NULL holds in a filter. *)
Definition opt_time_leb (a b : option datetime) : bool :=
  match a, b with
  | None, _ => true
  | Some _, None => false
  | Some x, Some y => DateTime.leb x y
  end.

(** [Sighting.timestamp >= bound] *)
Definition timestamp_ge (bound : datetime) (r : Sighting) : bool :=
  match timestamp r with
  | Some t => DateTime.leb bound t
  | None => false
  end.

(** [Sighting.timestamp < bound] *)
Definition timestamp_lt (bound : datetime) (r : Sighting) : bool :=
  match timestamp r with
  | Some t => DateTime.ltb t bound
  | None => false
  end.

(** Two text columns compared as a pair, character by character *)
Definition pair_leb (a1 a2 b1 b2 : string) : bool :=
  String.ltb a1 b1 || (String.eqb a1 b1 && String.leb a2 b2).

(** [query.order_by(...)] with the order given as a boolean [<=] *)
Definition order_by (le : Sighting -> Sighting -> bool) (rows : list Sighting)
  : list Sighting :=
  @merge_sort _ (fun x y => le x y = true)
    (fun x y => decide (le x y = true)) rows.

Definition newest_first (x y : Sighting) : bool :=
  opt_time_leb (timestamp y) (timestamp x).

(** The order chosen by [sort_by] *)
Definition sort_order (sort_by : string) (x y : Sighting) : bool :=
  if String.eqb sort_by "date_asc" then opt_time_leb (timestamp x) (timestamp y)
  else if String.eqb sort_by "plate_asc"
  then pair_leb (state x) (license_plate x) (state y) (license_plate y)
  else if String.eqb sort_by "plate_desc"
  then pair_leb (state y) (license_plate y) (state x) (license_plate x)
  else if String.eqb sort_by "make_asc"
  then pair_leb (car_make x) (car_model x) (car_make y) (car_model y)
  else if String.eqb sort_by "make_desc"
  then pair_leb (car_make y) (car_model y) (car_make x) (car_model x)
  else newest_first x y.

(** [index]: the rows handed to the template and the world with the
    messages flashed.  The two date filters catch [ValueError] and
    [TypeError] only. *)
Definition index (args : gmap string string) (w : world)
  : result (list Sighting * world) :=
  let sort_by := default "date_desc" (args !! "sort_by") in
  let start_date_str := default "" (args !! "start_date") in
  let end_date_str := default "" (args !! "end_date") in
  let query := db w in
  let '(query, w) :=
    if Py.truthy start_date_str then
      match strptime start_date_str fmt_date with
      | Some start_date => (List.filter (timestamp_ge start_date) query, w)
      | None =>
          (query,
           flash (Text "Invalid start date format. Please use YYYY-MM-DD.")
                 "error" w)
      end
    else (query, w) in
  let* filtered :=
    (if Py.truthy end_date_str then
       match strptime end_date_str fmt_date with
       | Some day_start =>
           match add_one_day day_start with
           | Some end_date => Ok (List.filter (timestamp_lt end_date) query, w)
           | None => Raise OverflowError
           end
       | None =>
           Ok (query,
               flash (Text "Invalid end date format. Please use YYYY-MM-DD.")
                     "error" w)
       end
     else Ok (query, w)) in
  let '(query, w) := filtered in
  Ok (order_by (sort_order sort_by) query, w).

(** *** Exports *)

(** [request.args.get('include_notes', 'true').lower() == 'true'] *)
Definition include_notes_of (args : gmap string string) : bool :=
  String.eqb (Py.lower (default "true" (args !! "include_notes"))) "true".

(** [Sighting.query.order_by(Sighting.timestamp.desc()).all()] *)
Definition all_newest_first (w : world) : list Sighting :=
  order_by newest_first (db w).

Definition format_timestamp (t : option datetime) : string :=
  match t with
  | Some t => strftime t
  | None => ""
  end.

Definition csv_fieldnames (include_notes : bool) : list string :=
  if include_notes
  then ["state"; "license_plate"; "car_make"; "car_model"; "color";
        "location"; "timestamp"; "notes"; "image_filename"]
  else ["state"; "license_plate"; "car_make"; "car_model"; "color";
        "location"; "timestamp"; "image_filename"].

(** The dictionary [row] built for one sighting *)
Definition csv_row (include_notes : bool) (s : Sighting) : gmap string string :=
  let row : gmap string string :=
    <["image_filename" := Py.or_empty (image_filename s)]>
    (<["timestamp" := format_timestamp (timestamp s)]>
    (<["location" := Py.or_empty (location s)]>
    (<["color" := Py.or_empty (Some (color s))]>
    (<["car_model" := Py.or_empty (Some (car_model s))]>
    (<["car_make" := Py.or_empty (Some (car_make s))]>
    (<["license_plate" := Py.or_empty (Some (license_plate s))]>
    (<["state" := Py.or_empty (Some (state s))]> ∅))))))) in
  if include_notes then <["notes" := Py.or_empty (notes s)]> row else row.

(** [csv.DictWriter.writerow]: the cells of a row in the order of the field
    names.  Every key of the rows above is a field name, so the writer never
    meets an extra key. *)
Definition writerow (fieldnames : list string) (row : gmap string string)
  : list string :=
  map (fun k => default "" (row !! k)) fieldnames.

(** A CSV document as its records: the header, then one list of cells per
    row written. *)
Definition csv_document (include_notes : bool) (sightings : list Sighting)
  : list (list string) :=
  csv_fieldnames include_notes ::
  map (fun s => writerow (csv_fieldnames include_notes) (csv_row include_notes s))
      sightings.

(** [export_csv] *)
Definition export_csv (args : gmap string string) (w : world)
  : list (list string) :=
  csv_document (include_notes_of args) (all_newest_first w).

(** A member of the archive *)
Inductive member :=
  | CsvFile (doc : list (list string))
  | ImageFile (data : bytes).

(** The copies made into the staging directory [temp_export/images]: a file
    is copied when the row names one and the upload directory has it. *)
Fixpoint stage_images (sightings : list Sighting) (store : gmap string bytes)
    (images_dir : gmap string bytes) : gmap string bytes :=
  match sightings with
  | [] => images_dir
  | s :: rest =>
      let images_dir' :=
        if Py.truthy_opt (image_filename s) then
          let f := Py.or_empty (image_filename s) in
          match store !! f with
          | Some data => <[f := data]> images_dir
          | None => images_dir
          end
        else images_dir in
      stage_images rest store images_dir'
  end.

(** [export_zip]: the members of the archive sent, by name.  The staging
    directory and the archive file are removed again before the handler
    returns. *)
Definition export_zip (args : gmap string string) (w : world)
  : list (string * member) :=
  let include_notes := include_notes_of args in
  let sightings := all_newest_first w in
  let images_dir := stage_images sightings (uploads w) ∅ in
  ("license_plates_export.csv", CsvFile (csv_document include_notes sightings)) ::
  map (fun '(f, data) => ("images/" ++ f, ImageFile data))
      (map_to_list images_dir).

(** The double quote character *)
Definition dquote : string := String (ascii_of_N 34) EmptyString.

(** The character that ends a line *)
Definition newline : string := String (ascii_of_N 10) EmptyString.

(** The dictionary [data_dict] of one sighting, in insertion order *)
Definition data_dict (include_notes : bool) (s : Sighting)
  : list (string * string) :=
  [("state", Py.or_empty (Some (state s)));
   ("plate", Py.or_empty (Some (license_plate s)));
   ("make", Py.or_empty (Some (car_make s)));
   ("model", Py.or_empty (Some (car_model s)));
   ("color", Py.or_empty (Some (color s)));
   ("location", Py.or_empty (location s));
   ("timestamp", format_timestamp (timestamp s));
   ("image_filename", Py.or_empty (image_filename s))]
  ++ (if include_notes then [("notes", Py.or_empty (notes s))] else []).

(** One entry of the literal: the key and the value between double quotes,
    as they are *)
Definition format_item (kv : string * string) : string :=
  dquote ++ fst kv ++ dquote ++ ": " ++ dquote ++ snd kv ++ dquote.

Definition format_dict (items : list (string * string)) : string :=
  "    {" ++ Py.join ", " (map format_item items) ++ "},".

(** [export_python]: the text of the response *)
Definition export_python (args : gmap string string) (w : world) : string :=
  let include_notes := include_notes_of args in
  let sightings := all_newest_first w in
  let lines :=
    (["# Generated export from License Plate Tracker";
      "# Copy the plates_data list into your seed_data.py file";
      "";
      "plates_data = ["]
     ++ map (fun s => format_dict (data_dict include_notes s)) sightings
     ++ ["]"])%list in
  Py.join newline lines.

(** *** Search *)

(** The comparison of one character by [LIKE]: SQLite, the database of the
    default configuration, ignores the case of ASCII letters. *)
Definition like_char (c d : ascii) : bool :=
  Ascii.eqb (Py.lower_char c) (Py.lower_char d).

(** [text LIKE pattern]: a percent sign of the pattern stands for any run of
    characters, an underscore for any one character. *)
Fixpoint like (pattern : string) : string -> bool :=
  match pattern with
  | EmptyString => fun text => String.eqb text EmptyString
  | String p pattern' =>
      if Ascii.eqb p "%" then
        fix any_run (text : string) : bool :=
          like pattern' text ||
          match text with
          | String _ text' => any_run text'
          | EmptyString => false
          end
      else
        fun text =>
          match text with
          | String c text' =>
              (Ascii.eqb p "_" || like_char p c) && like pattern' text'
          | EmptyString => false
          end
  end.

(** What [search] answers: the redirect to the listing, or the page with
    the normalised terms and the sightings found. *)
Inductive search_response :=
  | SearchRedirect (endpoint : string)
  | SearchPage (state_term plate_term : string) (sightings : list Sighting).

(** [search] *)
Definition search (args : gmap string string) : world -> search_response :=
  fun w =>
  let state_term := PyText.strip (Py.upper (default "" (args !! "state"))) in
  let plate_term := PyText.strip (Py.upper (default "" (args !! "plate"))) in
  if negb (Py.truthy state_term) && negb (Py.truthy plate_term)
  then SearchRedirect "index"
  else
    let query := db w in
    let query :=
      if Py.truthy state_term
      then List.filter (fun r => String.eqb (state r) state_term) query
      else query in
    let query :=
      if Py.truthy plate_term
      then List.filter (fun r => like ("%" ++ plate_term ++ "%") (license_plate r))
                       query
      else query in
    SearchPage state_term plate_term (order_by newest_first query).

(** *** The other routes *)

(** [serve_image]: the content of the file, or [None] for the 404 answer
    of [send_from_directory]. *)
Definition serve_image (name : string) (w : world) : option bytes :=
  uploads w !! name.

(** A value of the dictionary that [get_car_info] returns *)
Inductive json :=
  | JBool (b : bool)
  | JString (s : string).

(** [get_car_info] *)
Definition get_car_info (plate : string) (w : world) : list (string * json) :=
  let matching :=
    List.filter (fun r => String.eqb (license_plate r) (Py.upper plate)) (db w) in
  match order_by newest_first matching with
  | sighting :: _ =>
      [("found", JBool true);
       ("car_make", JString (car_make sighting));
       ("car_model", JString (car_model sighting));
       ("color", JString (color sighting))]
  | [] => [("found", JBool false)]
  end.

(** *** Configuration *)

(** The value of [SQLALCHEMY_DATABASE_URI] for a value of the environment
    variable [DATABASE_URL] *)
Definition database_uri (database_url : option string) : string :=
  if Py.truthy_opt database_url then
    let url := Py.or_empty database_url in
    if PyText.startswith url "postgres://"
    then PyText.replace_first "postgres://" "postgresql://" url
    else url
  else "sqlite:///license_plates.db".

End App.

(** ** Reading the exported literal back

    The text of [export_python] is meant to be pasted into the seed script,
    where Python reads it.  [read_plates_data] reads the part of Python's
    syntax that such a text uses: comments, one assignment to a name, a list
    display of dictionary displays whose keys and values are string literals
    between double quotes (adjacent literals are joined, the last of equal
    keys wins).  [None] is a text that Python rejects or that is outside
    this part of the syntax. *)

Module PyLiteral.

Inductive token :=
  | TName (s : string)
  | TAssign | TLBracket | TRBracket | TLBrace | TRBrace | TColon | TComma
  | TString (s : string).

Inductive lex_state :=
  | Code
  | Name (acc : string)
  | Comment
  | Str (acc : string)
  | StrEscape (acc : string).

Definition code_of (c : ascii) : N := N_of_ascii c.

Definition is_name_start (c : ascii) : bool :=
  Py.is_upper c || Py.is_lower c || (code_of c =? 95)%N.

Definition is_name_char (c : ascii) : bool :=
  is_name_start c || ((48 <=? code_of c) && (code_of c <=? 57))%N.

(** Blank, tab, line feed, form feed, carriage return *)
Definition is_blank (c : ascii) : bool :=
  ((code_of c =? 32) || (code_of c =? 9) || (code_of c =? 10)
   || (code_of c =? 12) || (code_of c =? 13))%N.

Definition snoc (acc : string) (c : ascii) : string :=
  acc ++ String c EmptyString.

(** A character met outside names, comments and literals *)
Definition code_step (c : ascii) : option (lex_state * list token) :=
  let n := code_of c in
  if (n =? 35)%N then Some (Comment, [])
  else if (n =? 34)%N then Some (Str EmptyString, [])
  else if is_blank c then Some (Code, [])
  else if (n =? 61)%N then Some (Code, [TAssign])
  else if (n =? 91)%N then Some (Code, [TLBracket])
  else if (n =? 93)%N then Some (Code, [TRBracket])
  else if (n =? 123)%N then Some (Code, [TLBrace])
  else if (n =? 125)%N then Some (Code, [TRBrace])
  else if (n =? 58)%N then Some (Code, [TColon])
  else if (n =? 44)%N then Some (Code, [TComma])
  else if is_name_start c then Some (Name (String c EmptyString), [])
  else None.

(** The character an escape sequence of one letter stands for; the escapes
    that take digits or a name, and the escaped line break, are not read. *)
Definition escape (c : ascii) : option (option ascii) :=
  let n := code_of c in
  if ((n =? 92) || (n =? 39) || (n =? 34))%N then Some (Some c)
  else if (n =? 110)%N then Some (Some (ascii_of_N 10))
  else if (n =? 114)%N then Some (Some (ascii_of_N 13))
  else if (n =? 116)%N then Some (Some (ascii_of_N 9))
  else if (n =? 97)%N then Some (Some (ascii_of_N 7))
  else if (n =? 98)%N then Some (Some (ascii_of_N 8))
  else if (n =? 102)%N then Some (Some (ascii_of_N 12))
  else if (n =? 118)%N then Some (Some (ascii_of_N 11))
  else if ((n =? 10) || (n =? 13) || (n =? 120) || (n =? 78) || (n =? 117)
           || (n =? 85) || ((48 <=? n) && (n <=? 55)))%N then None
  else Some None.

(** Characters that a literal between double quotes holds as they are *)
Definition plain_char (c : ascii) : bool :=
  let n := code_of c in
  negb ((n =? 34) || (n =? 92) || (n =? 10) || (n =? 13) || (n =? 0))%N.

Definition step (st : lex_state) (c : ascii) : option (lex_state * list token) :=
  match st with
  | Code => code_step c
  | Name acc =>
      if is_name_char c then Some (Name (snoc acc c), [])
      else
        match code_step c with
        | Some (st', toks) => Some (st', TName acc :: toks)
        | None => None
        end
  | Comment =>
      if ((code_of c =? 10) || (code_of c =? 13))%N then Some (Code, [])
      else Some (Comment, [])
  | Str acc =>
      if (code_of c =? 34)%N then Some (Code, [TString acc])
      else if (code_of c =? 92)%N then Some (StrEscape acc, [])
      else if plain_char c then Some (Str (snoc acc c), [])
      else None
  | StrEscape acc =>
      match escape c with
      | Some (Some d) => Some (Str (snoc acc d), [])
      | Some None => Some (Str (snoc (snoc acc (ascii_of_N 92)) c), [])
      | None => None
      end
  end.

(** The tokens of a piece of text read from a state, and the state reached *)
Fixpoint run (st : lex_state) (s : string) : option (lex_state * list token) :=
  match s with
  | EmptyString => Some (st, [])
  | String c r =>
      match step st c with
      | Some (st', toks) =>
          match run st' r with
          | Some (st'', toks') => Some (st'', (toks ++ toks')%list)
          | None => None
          end
      | None => None
      end
  end.

(** The end of the text: a literal must be closed *)
Definition finish (st : lex_state) : option (list token) :=
  match st with
  | Code | Comment => Some []
  | Name acc => Some [TName acc]
  | Str _ | StrEscape _ => None
  end.

Definition lex (s : string) : option (list token) :=
  match run Code s with
  | Some (st, toks) =>
      match finish st with
      | Some last => Some (toks ++ last)%list
      | None => None
      end
  | None => None
  end.

Inductive parse_state :=
  | Start
  | AfterName
  | AfterAssign
  | InList (done : list (gmap string string))
  | InDict (done : list (gmap string string)) (cur : gmap string string)
  | AfterKey (done : list (gmap string string)) (cur : gmap string string)
      (k : string)
  | AfterColon (done : list (gmap string string)) (cur : gmap string string)
      (k : string)
  | AfterValue (done : list (gmap string string)) (cur : gmap string string)
      (k v : string)
  | AfterDict (done : list (gmap string string))
  | Closed (done : list (gmap string string)).

Definition parse_step (st : parse_state) (t : token) : option parse_state :=
  match st, t with
  | Start, TName n =>
      if String.eqb n "plates_data" then Some AfterName else None
  | AfterName, TAssign => Some AfterAssign
  | AfterAssign, TLBracket => Some (InList [])
  | InList done, TLBrace => Some (InDict done ∅)
  | InList done, TRBracket => Some (Closed done)
  | InDict done cur, TString k => Some (AfterKey done cur k)
  | InDict done cur, TRBrace => Some (AfterDict (done ++ [cur]))
  | AfterKey done cur k, TString k' => Some (AfterKey done cur (k ++ k'))
  | AfterKey done cur k, TColon => Some (AfterColon done cur k)
  | AfterColon done cur k, TString v => Some (AfterValue done cur k v)
  | AfterValue done cur k v, TString v' => Some (AfterValue done cur k (v ++ v'))
  | AfterValue done cur k v, TComma => Some (InDict done (<[k := v]> cur))
  | AfterValue done cur k v, TRBrace =>
      Some (AfterDict (done ++ [<[k := v]> cur]))
  | AfterDict done, TComma => Some (InList done)
  | AfterDict done, TRBracket => Some (Closed done)
  | _, _ => None
  end.

Fixpoint parse_run (st : parse_state) (ts : list token) : option parse_state :=
  match ts with
  | [] => Some st
  | t :: rest =>
      match parse_step st t with
      | Some st' => parse_run st' rest
      | None => None
      end
  end.

Definition parse (ts : list token) : option (list (gmap string string)) :=
  match parse_run Start ts with
  | Some (Closed done) => Some done
  | _ => None
  end.

(** The value of [plates_data] after Python has read the text *)
Definition read_plates_data (text : string) : option (list (gmap string string)) :=
  match lex text with
  | Some ts => parse ts
  | None => None
  end.

End PyLiteral.

(** ** The seed loader

    [seed_data_demo.py]: the table is emptied and one row is added per
    dictionary of [plates_data]. *)

Module Seed.
Import DateTime App.

(** A dictionary display: later entries replace earlier ones of the same key *)
Definition py_dict (items : list (string * string)) : gmap string string :=
  fold_left (fun m kv => <[fst kv := snd kv]> m) items ∅.

(** The list [plates_data] of the script *)
Definition plates_data : list (gmap string string) :=
  map py_dict
  [ [("state", "CA"); ("plate", "ABC1234"); ("make", "Honda"); ("model", "Civic"); ("color", "Blue"); ("location", "Downtown LA"); ("timestamp", "2025-10-10 09:15:00"); ("notes", "Seen near coffee shop")];
    [("state", "NY"); ("plate", "XYZ9876"); ("make", "Toyota"); ("model", "Camry"); ("color", "Silver"); ("location", "Times Square"); ("timestamp", "2025-10-09 22:30:00"); ("notes", "")];
    [("state", "TX"); ("plate", "DEF5678"); ("make", "Ford"); ("model", "F-150"); ("color", "Red"); ("location", "Austin"); ("timestamp", "2025-10-09 14:00:00"); ("notes", "Pickup truck with toolbox")];
    [("state", "FL"); ("plate", "GHI2345"); ("make", "Chevrolet"); ("model", "Silverado"); ("color", "Black"); ("location", "Miami Beach"); ("timestamp", "2025-10-08 18:45:00"); ("notes", "")];
    [("state", "CA"); ("plate", "JKL6789"); ("make", "Tesla"); ("model", "Model 3"); ("color", "White"); ("location", "Palo Alto"); ("timestamp", "2025-10-08 11:20:00"); ("notes", "Electric vehicle")];
    [("state", "NY"); ("plate", "MNO1234"); ("make", "BMW"); ("model", "X5"); ("color", "Grey"); ("location", "Brooklyn"); ("timestamp", "2025-10-07 08:05:00"); ("notes", "Luxury SUV")];
    [("state", "TX"); ("plate", "PQR5678"); ("make", "Mazda"); ("model", "CX-5"); ("color", "Blue"); ("location", "Dallas"); ("timestamp", "2025-10-06 17:55:00"); ("notes", "")];
    [("state", "FL"); ("plate", "STU9012"); ("make", "Nissan"); ("model", "Altima"); ("color", "Green"); ("location", "Orlando"); ("timestamp", "2025-10-05 12:10:00"); ("notes", "Rental car sticker visible")];
    [("state", "CA"); ("plate", "VWX3456"); ("make", "Hyundai"); ("model", "Tucson"); ("color", "Orange"); ("location", "San Diego"); ("timestamp", "2025-10-04 16:00:00"); ("notes", "")] ].

(** The [Sighting(...)] built from one dictionary; [data[key]] raises
    [KeyError] on a missing key, [data.get(key)] gives [None]. *)
Definition seed_sighting (data : gmap string string) (i : Z) : result Sighting :=
  let* st := form_item data "state" in
  let* plate := form_item data "plate" in
  let* make := form_item data "make" in
  let* model := form_item data "model" in
  let* col := form_item data "color" in
  let loc := data !! "location" in
  let* text := form_item data "timestamp" in
  let* ts := parse_time text fmt_seed in
  Ok (mk_sighting i st plate make model col loc (Some ts) (data !! "notes") None).

(** The [for data in plates_data] loop over the rows added so far *)
Fixpoint seed_rows (data_list : list (gmap string string)) (rows : list Sighting)
  : result (list Sighting) :=
  match data_list with
  | [] => Ok rows
  | data :: rest =>
      let* s := seed_sighting data (next_id rows) in
      seed_rows rest (rows ++ [s])
  end.

(** [seed_database] run with the given list in the place of [plates_data]:
    the rows committed, or the exception that ends the script before the
    commit. *)
Definition seed_database (data_list : list (gmap string string)) (w : world)
  : result world :=
  (* db.session.query(Sighting).delete() *)
  let* rows := seed_rows data_list [] in
  Ok (set_db rows w).

End Seed.

(** ** Vocabulary of the statements *)

Module Spec.
Import DateTime App.

(** The fields a create or update form has to carry *)
Definition required_fields : list string :=
  ["state"; "license_plate"; "car_make"; "car_model"; "color"].

Definition has_field (form : gmap string string) (key : string) : bool :=
  match form !! key with Some _ => true | None => false end.

Definition has_required (form : gmap string string) : bool :=
  forallb (has_field form) required_fields.

(** The date-time field is absent or empty *)
Definition time_missing (form : gmap string string) : bool :=
  match form !! "sighting_time" with
  | Some s => String.eqb s ""
  | None => true
  end.

(** The date-time field holds a text in the format of the form *)
Definition time_parses (form : gmap string string) : bool :=
  match form !! "sighting_time" with
  | Some s =>
      match strptime s fmt_form with Some _ => true | None => false end
  | None => false
  end.

(** The date-time field holds a text that is not in the format *)
Definition time_unparseable (form : gmap string string) : bool :=
  match form !! "sighting_time" with
  | Some s =>
      negb (String.eqb s "") &&
      match strptime s fmt_form with Some _ => false | None => true end
  | None => false
  end.

(** A form the create and update operations accept *)
Definition valid_form (form : gmap string string) : bool :=
  has_required form && (time_missing form || time_parses form).

Definition is_file_save (e : effect) : bool :=
  match e with FileSave _ => true | _ => false end.

Definition is_file_remove (e : effect) : bool :=
  match e with FileRemove _ => true | _ => false end.

Definition is_row_effect (e : effect) : bool :=
  match e with RowInsert _ | RowUpdate _ | RowDelete _ => true | _ => false end.

Definition count (p : effect -> bool) (tr : list effect) : nat :=
  length (List.filter p tr).

(** Files written and removed, and row statements, among some effects *)
Definition file_saves : list effect -> nat := count is_file_save.
Definition file_removes : list effect -> nat := count is_file_remove.
Definition file_effects (tr : list effect) : nat := file_saves tr + file_removes tr.
Definition row_effects : list effect -> nat := count is_row_effect.

(** The row names exactly this file *)
Definition names_file (name : string) (r : Sighting) : bool :=
  bool_decide (image_filename r = Some name).

(** The row names a file whose name ends with an underscore and this name *)
Definition names_file_ending (name : string) (r : Sighting) : bool :=
  match image_filename r with
  | Some f => Py.endswith f ("_" ++ name)
  | None => false
  end.

(** The outcome of a file of the batch that was stored under [target] *)
Definition stored (target : string) (file : upload) (st : tally * world)
  : tally * world :=
  (mk_tally (success_count (fst st) + 1) (error_count (fst st)) (errors (fst st)),
   mk_world (db (snd st)) (<[target := content file]> (uploads (snd st)))
     (flashes (snd st)) (trace (snd st) ++ [FileSave target])).

(** The outcome of a file of the batch that was refused with a reason *)
Definition refused (reason : string) (file : upload) (st : tally * world)
  : tally * world :=
  (mk_tally (success_count (fst st)) (error_count (fst st) + 1)
     (errors (fst st) ++ [filename file ++ ": " ++ reason]),
   snd st).

Definition nonempty_name (file : upload) : bool :=
  negb (String.eqb (filename file) "").

(** The cells of the CSV row of a sighting, the notes among them or not *)
Definition csv_cells (include_notes : bool) (s : Sighting) : list string :=
  ([state s; license_plate s; car_make s; car_model s; color s;
    Py.or_empty (location s); format_timestamp (timestamp s)]
   ++ (if include_notes then [Py.or_empty (notes s)] else [])
   ++ [Py.or_empty (image_filename s)])%list.

(** The lines of the literal export before the first entry *)
Definition python_head : list string :=
  ["# Generated export from License Plate Tracker";
   "# Copy the plates_data list into your seed_data.py file";
   "";
   "plates_data = ["].


(** A text that a literal between double quotes holds as it is: no double
    quote, backslash, line break or null character *)
Fixpoint plain (s : string) : bool :=
  match s with
  | EmptyString => true
  | String c r => PyLiteral.plain_char c && plain r
  end.

(** A timestamp as the export writes it: cut to the second *)
Definition to_second (t : datetime) : datetime :=
  mk_datetime (year t) (month t) (day t) (hour t) (minute t) (second t) 0.

(** A row whose export reads back: it has a timestamp from the year 1000
    on, and the texts written into the literal are plain. *)
Definition exportable (include_notes : bool) (r : Sighting) : bool :=
  match timestamp r with
  | Some t => valid t && (1000 <=? year t)
  | None => false
  end &&
  plain (state r) && plain (license_plate r) && plain (car_make r) &&
  plain (car_model r) && plain (color r) && plain (Py.or_empty (location r)) &&
  plain (Py.or_empty (image_filename r)) &&
  (if include_notes then plain (Py.or_empty (notes r)) else true).

(** The row the loader builds from the exported entry of a row *)
Definition reloaded (include_notes : bool) (i : Z) (r : Sighting) : Sighting :=
  mk_sighting i (state r) (license_plate r) (car_make r) (car_model r) (color r)
    (Some (Py.or_empty (location r)))
    (option_map to_second (timestamp r))
    (if include_notes then Some (Py.or_empty (notes r)) else None)
    None.

(** The rows the loader commits for the exported entries of [rows], added
    one by one to the rows [acc] committed before them *)
Fixpoint reload_rows (include_notes : bool) (rows acc : list Sighting)
  : list Sighting :=
  match rows with
  | [] => acc
  | r :: rest =>
      reload_rows include_notes rest
        (acc ++ [reloaded include_notes (next_id acc) r])%list
  end.

(** The five fields the round trip is about *)
Definition vehicle (r : Sighting) : string * string * string * string * string :=
  (state r, license_plate r, car_make r, car_model r, color r).


(** The timestamp a form gives to a new sighting *)
Definition form_time (form : gmap string string) (now : datetime)
  : result datetime :=
  if Py.truthy_opt (form !! "sighting_time")
  then parse_time (Py.or_empty (form !! "sighting_time")) fmt_form
  else Ok now.

(** The timestamp a form gives to a sighting that is edited *)
Definition form_time_edit (form : gmap string string) (old : Sighting)
  : result (option datetime) :=
  if Py.truthy_opt (form !! "sighting_time")
  then bind (parse_time (Py.or_empty (form !! "sighting_time")) fmt_form)
            (fun t => Ok (Some t))
  else Ok (timestamp old).

(** The row a create request adds, up to its image *)
Definition created_row (form : gmap string string) (rows : list Sighting)
    (st plate make model col : string) (t : datetime) (img : option string)
  : Sighting :=
  mk_sighting (next_id rows) (Py.upper st) (Py.upper plate) make model col
    (form !! "location") (Some t) (form !! "notes") img.

(** What a request added to the effects of a world *)
Definition added_effects (w w' : world) (added : list effect) : Prop :=
  trace w' = (trace w ++ added)%list.

(** The export pasted into the seed script and the script run: the text
    of [export_python] is read back as the list [plates_data] and given to
    the loader.  [None] is a text that is not read back. *)
Definition reload (args : gmap string string) (w : world)
  : option (result world) :=
  match PyLiteral.read_plates_data (export_python args w) with
  | Some plates => Some (Seed.seed_database plates w)
  | None => None
  end.

(** Every row that names an image names a file of the upload directory *)
Definition images_present (w : world) : Prop :=
  forall r f, r ∈ db w -> image_filename r = Some f ->
              is_Some (uploads w !! f).

(** No other row names the image that the row under the key [i] names *)
Definition image_unshared (i : Z) (w : world) : Prop :=
  forall old r f,
    get_sighting i (db w) = Some old -> r ∈ db w -> id r <> i ->
    image_filename r = Some f -> image_filename old <> Some f.

(** Effects that are file writes and nothing else *)
Definition only_saves (added : list effect) : Prop :=
  Forall (fun e => is_file_save e = true) added.

(** The messages that report the counters of a batch: the successes, if
    any, then the failures, if any, with the first ten error texts *)
Definition report_messages (t : tally) : list (message * string) :=
  ((if 0 <? success_count t
    then [(Text ("Successfully uploaded " ++ Py.str (success_count t)
                 ++ " image(s)"), "success")]
    else []) ++
   (if 0 <? error_count t
    then (Text (Py.str (error_count t) ++ " file(s) failed to upload"), "warning")
         :: map (fun m => (Text m, "error")) (take 10 (errors t))
    else []))%list.

(** The text a date-time input sends: [YYYY-MM-DDTHH:MM] *)
Definition form_time_text (y m d h mi : Z) : string :=
  iso_date y m d ++ "T" ++ pad2 h ++ ":" ++ pad2 mi.

(** The file name [save_image] gives the image of the sighting [i] *)
Definition stored_name (secure_filename : string -> string) (i : Z)
    (file : upload) : string :=
  "sighting_" ++ Py.str i ++ "_" ++ secure_filename (filename file).

(** Text of ASCII characters only: the text on which the string methods are
    modelled *)
Definition ascii_text (s : string) : bool :=
  forallb (fun c => (N_of_ascii c <? 128)%N) (list_ascii_of_string s).

(** A small letter, [a] to [z] *)
Definition small_letter (c : ascii) : bool :=
  ((97 <=? N_of_ascii c) && (N_of_ascii c <=? 122))%N.

(** [d] is the capital of [c]: for a small letter the letter 32 places
    before it, and for any other character the character itself *)
Definition capital_of (c d : ascii) : Prop :=
  if small_letter c then N_of_ascii d = (N_of_ascii c - 32)%N else d = c.

(** [t] is [s] in upper case: character by character its capital *)
Definition upper_cased (s t : string) : Prop :=
  Forall2 capital_of (list_ascii_of_string s) (list_ascii_of_string t).

(** A text with a small letter in it *)
Definition has_small_letter (s : string) : bool :=
  existsb small_letter (list_ascii_of_string s).

(** An ASCII white space character: tab, line feed, vertical tab, form
    feed, carriage return, the four separators and the space *)
Definition white_space (c : ascii) : bool :=
  existsb (N.eqb (N_of_ascii c)) [9; 10; 11; 12; 13; 28; 29; 30; 31; 32]%N.

Definition white_spaces (s : string) : bool :=
  forallb white_space (list_ascii_of_string s).

(** [t] is [s] without the white space around it *)
Definition trimmed (s t : string) : Prop :=
  exists before after,
    s = before ++ t ++ after /\
    white_spaces before = true /\ white_spaces after = true /\
    (forall c rest, t = String c rest -> white_space c = false) /\
    (forall rest c, t = rest ++ String c EmptyString -> white_space c = false).

(** [term] is the text [raw] of a query in upper case and without the
    white space around it *)
Definition normalised (raw term : string) : Prop :=
  exists capitals, upper_cased raw capitals /\ trimmed capitals term.

(** Two text columns in dictionary order, text compared character code by
    character code as the BINARY collation does *)
Definition columns_le (a1 a2 b1 b2 : string) : Prop :=
  String.compare a1 b1 = Lt \/ (a1 = b1 /\ String.compare a2 b2 <> Gt).

(** The sort orders of the listing by name, in the words of the sort
    menu: oldest first, state and plate A-Z and Z-A, make and model A-Z and
    Z-A.  A row without timestamp counts as the oldest. *)
Definition oldest_first (x y : Sighting) : Prop :=
  opt_time_leb (timestamp x) (timestamp y) = true.

Definition plate_a_to_z (x y : Sighting) : Prop :=
  columns_le (state x) (license_plate x) (state y) (license_plate y).

Definition make_a_to_z (x y : Sighting) : Prop :=
  columns_le (car_make x) (car_model x) (car_make y) (car_model y).

(** A date of the query that is given and is no [YYYY-MM-DD] date *)
Definition malformed (date : option string) : bool :=
  match date with
  | Some s =>
      Py.truthy s &&
      match strptime s fmt_date with Some _ => false | None => true end
  | None => false
  end.

(** A date of the query that is absent or empty *)
Definition blank (date : option string) : bool :=
  negb (Py.truthy_opt date).

(** The messages of the listing for the dates that are malformed, the
    start date first *)
Definition date_warnings (args : gmap string string)
  : list (message * string) :=
  ((if malformed (args !! "start_date")
    then [(Text "Invalid start date format. Please use YYYY-MM-DD.", "error")]
    else []) ++
   (if malformed (args !! "end_date")
    then [(Text "Invalid end date format. Please use YYYY-MM-DD.", "error")]
    else []))%list.

(** Rows from the most recent to the oldest: no row is older than a row
    after it, and the rows without timestamp come last *)
Definition newest_to_oldest (rows : list Sighting) : Prop :=
  StronglySorted
    (fun x y => opt_time_leb (timestamp y) (timestamp x) = true) rows.

(** The term of a search as [search] normalises it *)
Definition search_term (args : gmap string string) (key : string) : string :=
  PyText.strip (Py.upper (default "" (args !! key))).

(** A text without the two wildcards of [LIKE] *)
Definition no_wildcard (s : string) : bool :=
  negb (Py.contains "%" s) && negb (Py.contains "_" s).

(** [term] occurs in [text], the case of ASCII letters set aside *)
Definition occurs_in (term text : string) : Prop :=
  exists before found after,
    text = before ++ found ++ after /\ Py.lower found = Py.lower term.

(** A row stamped before [t], or not stamped at all *)
Definition older_than (t : datetime) (r : Sighting) : bool :=
  negb (opt_time_leb (Some t) (timestamp r)).

(** A dictionary the seed loader accepts: the six keys it indexes are
    there and the timestamp is in the format of the script *)
Definition loadable (data : gmap string string) : bool :=
  forallb (has_field data) ["state"; "plate"; "make"; "model"; "color"] &&
  match data !! "timestamp" with
  | Some text =>
      match strptime text fmt_seed with Some _ => true | None => false end
  | None => false
  end.

(** The row the seed loader makes of a dictionary under a key *)
Definition seeded (data : gmap string string) (r : Sighting) : Prop :=
  data !! "state" = Some (state r) /\
  data !! "plate" = Some (license_plate r) /\
  data !! "make" = Some (car_make r) /\
  data !! "model" = Some (car_model r) /\
  data !! "color" = Some (color r) /\
  location r = data !! "location" /\
  (exists text, data !! "timestamp" = Some text /\
                strptime text fmt_seed = timestamp r) /\
  notes r = data !! "notes" /\
  image_filename r = None.

(** *** Reading the literal export, piece by piece *)

Section Pieces.
Import PyLiteral.
Open Scope list_scope.

(** Reading the text [a] from the state [st] gives the tokens [toks] and
    leaves the reader in the state [st'], whatever follows [a]. *)
Definition reads (st : lex_state) (a : string) (st' : lex_state)
    (toks : list token) : Prop :=
  forall rest,
    run st (a +:+ rest) =
    match run st' rest with
    | Some (st'', toks') => Some (st'', toks ++ toks')
    | None => None
    end.

(** The key and the value of an entry are plain *)
Definition plain_item (kv : string * string) : bool :=
  plain (fst kv) && plain (snd kv).

(** The tokens of the entries of a dictionary display *)
Fixpoint items_tokens (items : list (string * string)) : list token :=
  match items with
  | [] => []
  | [kv] => [TString (fst kv); TColon; TString (snd kv)]
  | kv :: rest =>
      [TString (fst kv); TColon; TString (snd kv); TComma] ++ items_tokens rest
  end.

(** The tokens of one line of the literal: a dictionary display and the
    comma after it *)
Definition dict_tokens (items : list (string * string)) : list token :=
  [TLBrace] ++ items_tokens items ++ [TRBrace; TComma].

(** The lines of a text, each closed by a line break *)
Fixpoint lines_text (lines : list string) : string :=
  match lines with
  | [] => ""
  | l :: rest => l +:+ newline +:+ lines_text rest
  end.

(** The text before the first entry: the comments and the opening of the
    list *)
Definition head_text : string :=
  Eval vm_compute in Py.join newline python_head +:+ newline.

End Pieces.

End Spec.

(** ** Sample data *)

Module Samples.
Import DateTime App.

(** A stand-in for werkzeug's [secure_filename] on names that are already
    safe *)
Definition keep_name (s : string) : string := s.

Definition noon : datetime := mk_datetime 2025 10 12 12 0 0 0.

Definition form_ca : gmap string string :=
  <["state" := "ca"]> (<["license_plate" := "abc1234"]>
  (<["car_make" := "Honda"]> (<["car_model" := "Civic"]>
  (<["color" := "Blue"]> ∅)))).

(** The same form with a date-time that is not in the format *)
Definition form_bad_time : gmap string string :=
  <["sighting_time" := "tomorrow"]> form_ca.

Definition photo : upload := mk_upload "photo.jpg" [Byte.x01; Byte.x02].

Definition unrelated : upload := mk_upload "unrelated.png" [Byte.x03].

Definition with_photo : gmap string upload := {["image" := photo]}.

Definition new_photo : upload := mk_upload "new.png" [Byte.x04].

Definition with_new_photo : gmap string upload := {["image" := new_photo]}.

(** A file of a type that is not allowed *)
Definition notes_file : upload := mk_upload "notes.txt" [Byte.x05].

Definition with_notes_file : gmap string upload := {["image" := notes_file]}.

(** A form without the make of the car *)
Definition form_no_make : gmap string string := delete "car_make" form_ca.

(** The form that asks to remove the image *)
Definition form_remove : gmap string string :=
  <["remove_image" := "true"]> form_ca.

(** The form with a date and time in the format of the date-time input *)
Definition form_evening : gmap string string :=
  <["sighting_time" := "2025-10-09T22:30"]> form_ca.

Definition row5 : Sighting :=
  mk_sighting 5 "CA" "ABC1234" "Honda" "Civic" "Blue" (Some "Downtown LA")
    (Some (mk_datetime 2025 10 5 23 59 0 0)) None (Some "sighting_5_photo.jpg").

Definition row6 : Sighting :=
  mk_sighting 6 "NY" "XYZ9876" "Toyota" "Camry" "Silver" None
    (Some (mk_datetime 2025 10 6 0 0 1 0)) (Some "") None.

Definition empty_world : world := mk_world [] ∅ [] [].

(** A row without a timestamp, which the column allows *)
Definition row_no_time : Sighting :=
  mk_sighting 7 "TX" "DEF5678" "Ford" "F-150" "Red" None None None None.

Definition world_no_time : world := mk_world [row_no_time] ∅ [] [].

(** A row stamped by the server clock, microseconds included *)
Definition row_micro : Sighting :=
  mk_sighting 8 "FL" "GHI2345" "Chevrolet" "Silverado" "Black" None
    (Some (mk_datetime 2025 10 8 18 45 0 250000)) None None.

Definition world_micro : world := mk_world [row_micro] ∅ [] [].

(** A row whose colour holds a double quote *)
Definition row_quote : Sighting :=
  mk_sighting 9 "CA" "VWX3456" "Hyundai" "Tucson"
    ("Burnt " ++ dquote ++ "orange" ++ dquote) None
    (Some (mk_datetime 2025 10 4 16 0 0 0)) None None.

Definition world_quote : world := mk_world [row_quote] ∅ [] [].


(** The listing asked by state and plate, Z to A *)
Definition args_plate_desc : gmap string string :=
  {["sort_by" := "plate_desc"]}.

(** A listing asked with a start date that is no date *)
Definition args_bad_start : gmap string string :=
  {["start_date" := "05/10/2025"]}.

(** A search as typed: a state and a part of a plate *)
Definition args_search : gmap string string :=
  <["state" := " ca "]> {["plate" := "abc"]}.

(** Two rows; the image of the first is in the upload directory *)
Definition world56 : world :=
  mk_world [row5; row6] {["sighting_5_photo.jpg" := [Byte.x00]]} [] [].

(** The same rows, the image file missing *)
Definition world56_no_file : world := mk_world [row5; row6] ∅ [] [].

End Samples.

(** * What holds of the program *)

Open Scope list_scope.
Import DateTime App Spec Samples.

(** ** The table *)

Section Table.

Lemma next_id_above (rows : list Sighting) :
  Forall (fun r => id r < next_id rows) rows.
Proof.
  unfold next_id. induction rows as [|r rows IH]; simpl; constructor.
  - lia.
  - eapply Forall_impl; [exact IH|]. simpl. intros x Hx. lia.
Qed.

Lemma update_row_other (r : Sighting) (rows : list Sighting) :
  Forall (fun x => id x <> id r) rows -> update_row r rows = rows.
Proof.
  unfold update_row. induction 1 as [|x rows Hx _ IH]; simpl; [done|].
  rewrite IH. destruct (Z.eqb_spec (id x) (id r)); congruence.
Qed.

Lemma update_row_new (r r' : Sighting) (rows : list Sighting) :
  id r = next_id rows -> id r' = id r ->
  update_row r' (rows ++ [r]) = rows ++ [r'].
Proof.
  intros Hr Hr'. unfold update_row. rewrite map_app. f_equal.
  - apply (update_row_other r').
    eapply Forall_impl; [apply next_id_above|]. simpl. intros x Hx. lia.
  - simpl. by rewrite Hr', Z.eqb_refl.
Qed.

Lemma get_sighting_id i rows r :
  get_sighting i rows = Some r -> id r = i.
Proof.
  induction rows as [|x rows IH]; simpl; [done|].
  destruct (Z.eqb_spec (id x) i); [|exact IH]. by intros [= ->].
Qed.

Lemma get_sighting_update i rows old new :
  get_sighting i rows = Some old -> id new = i ->
  get_sighting i (update_row new rows) = Some new.
Proof.
  intros Hget Hid. induction rows as [|x rows IH]; simpl in *; [done|].
  destruct (Z.eqb_spec (id x) i) as [Hx|Hx].
  - rewrite Hid. destruct (Z.eqb_spec (id x) i); [|done].
    simpl. by rewrite Hid, Z.eqb_refl.
  - rewrite Hid. destruct (Z.eqb_spec (id x) i); [done|].
    simpl. destruct (Z.eqb_spec (id x) i); [done|]. by apply IH.
Qed.

Lemma get_sighting_delete i rows : get_sighting i (delete_row i rows) = None.
Proof.
  induction rows as [|x rows IH]; simpl; [done|].
  destruct (Z.eqb_spec (id x) i); simpl; [done|].
  destruct (Z.eqb_spec (id x) i); done.
Qed.

Lemma elem_of_delete_row i rows (r : Sighting) :
  r ∈ delete_row i rows <-> r ∈ rows /\ id r <> i.
Proof.
  unfold delete_row. rewrite !list_elem_of_In, filter_In.
  destruct (Z.eqb_spec (id r) i); simpl; intuition congruence.
Qed.

End Table.

(** ** The sighting service *)

Section Service.

Variable secure_filename : string -> string.

Lemma has_required_items form :
  has_required form = true ->
  exists st plate make model col,
    form !! "state" = Some st /\ form !! "license_plate" = Some plate /\
    form !! "car_make" = Some make /\ form !! "car_model" = Some model /\
    form !! "color" = Some col.
Proof.
  unfold has_required, required_fields, has_field. simpl.
  destruct (form !! "state") as [st|]; [|done].
  destruct (form !! "license_plate") as [plate|]; [|done].
  destruct (form !! "car_make") as [make|]; [|done].
  destruct (form !! "car_model") as [model|]; [|done].
  destruct (form !! "color") as [col|]; [|done].
  intros _. by exists st, plate, make, model, col.
Qed.

Lemma form_time_missing form now :
  time_missing form = true -> form_time form now = Ok now.
Proof.
  unfold time_missing, form_time.
  destruct (form !! "sighting_time") as [s|]; [|done].
  intros ->%String.eqb_eq. done.
Qed.

Lemma form_time_parses form now :
  time_parses form = true ->
  exists s t, form !! "sighting_time" = Some s /\ strptime s fmt_form = Some t /\
              form_time form now = Ok t.
Proof.
  unfold time_parses, form_time, parse_time.
  destruct (form !! "sighting_time") as [s|]; [|done].
  destruct (strptime s fmt_form) as [t|] eqn:Hs; [|done].
  intros _. exists s, t. split; [done|]. split; [done|].
  destruct s; [done|]. simpl. by rewrite Hs.
Qed.

Lemma form_time_unparseable form now :
  time_unparseable form = true -> form_time form now = Raise ValueError.
Proof.
  unfold time_unparseable, form_time, parse_time.
  destruct (form !! "sighting_time") as [s|]; [|done].
  destruct s; [done|]. simpl.
  by destruct (strptime _ _).
Qed.

Lemma valid_form_time form now :
  valid_form form = true -> exists t, form_time form now = Ok t.
Proof.
  unfold valid_form. intros [_ [H|H]%orb_true_iff]%andb_true_iff.
  - exists now. by apply form_time_missing.
  - destruct (form_time_parses form now H) as (s & t & _ & _ & Ht). by exists t.
Qed.

Lemma add_sighting_try_ok form files now w t st plate make model col :
  form_time form now = Ok t ->
  form !! "state" = Some st -> form !! "license_plate" = Some plate ->
  form !! "car_make" = Some make -> form !! "car_model" = Some model ->
  form !! "color" = Some col ->
  exists w' img added,
    add_sighting_try secure_filename form files now w = Ok w' /\
    db w' = db w ++ [created_row form (db w) st plate make model col t img] /\
    trace w' = trace w ++ added /\
    (file_saves added <= 1)%nat /\ file_removes added = 0%nat /\
    (row_effects added <= 1 + file_saves added)%nat.
Proof.
  intros Ht Hst Hplate Hmake Hmodel Hcol.
  unfold add_sighting_try. fold (form_time form now).
  rewrite Ht. unfold form_item. rewrite Hst, Hplate, Hmake, Hmodel, Hcol.
  simpl bind. cbv zeta.
  set (s0 := mk_sighting _ _ _ _ _ _ _ _ _ None).
  assert (Hs0 : forall img, created_row form (db w) st plate make model col t img
                            = set_image s0 img) by done.
  assert (Hnoimg : forall w1 : world,
            commit_row s0 s0 w1 = w1).
  { intros w1. unfold commit_row. by destruct (decide (s0 = s0)). }
  destruct (files !! "image") as [file|]; cycle 1.
  { eexists _, None, [RowInsert _]. rewrite Hnoimg.
    split; [reflexivity|]. simpl. repeat split; try done; vm_compute; lia. }
  destruct (Py.truthy (filename file)) eqn:Hname; cycle 1.
  { eexists _, None, [RowInsert _]. rewrite Hnoimg.
    split; [reflexivity|]. simpl. repeat split; try done; vm_compute; lia. }
  destruct (allowed_file (filename file)) eqn:Hallowed; cycle 1.
  { eexists _, None, [RowInsert _]. rewrite Hnoimg.
    split; [reflexivity|]. simpl. repeat split; try done; vm_compute; lia. }
  unfold save_image. rewrite Hname, Hallowed. simpl andb. cbv iota.
  simpl Py.truthy_opt.
  match goal with |- context [Py.truthy ?n] => set (name := n) end.
  assert (Hn : Py.truthy name = true) by done.
  rewrite Hn. unfold commit_row.
  destruct (decide (s0 = set_image s0 (Some name))) as [Heq|_]; [done|].
  eexists _, (Some name), [RowInsert _; FileSave name; RowUpdate _].
  simpl. rewrite (update_row_new s0); [|done..].
  split; [reflexivity|]. simpl. split; [done|].
  split; [by rewrite <- !app_assoc|].
  repeat split; vm_compute; lia.
Qed.

Lemma form_time_edit_valid form old :
  valid_form form = true -> exists t, form_time_edit form old = Ok t.
Proof.
  unfold valid_form, time_missing, time_parses, form_time_edit, parse_time.
  intros [_ H]%andb_true_iff.
  destruct (form !! "sighting_time") as [s|]; [|by eexists].
  destruct s as [|c s]; [by eexists|]. simpl in *.
  destruct (strptime _ _); [by eexists | done].
Qed.

Ltac effects_done :=
  first [ by rewrite <- ?app_assoc | symmetry; apply app_nil_r ].

Lemma edit_sighting_try_ok old form files w t st plate make model col :
  form_time_edit form old = Ok t ->
  form !! "state" = Some st -> form !! "license_plate" = Some plate ->
  form !! "car_make" = Some make -> form !! "car_model" = Some model ->
  form !! "color" = Some col ->
  get_sighting (id old) (db w) = Some old ->
  exists w' img added,
    edit_sighting_try secure_filename old form files w = Ok w' /\
    get_sighting (id old) (db w') =
      Some (mk_sighting (id old) (Py.upper st) (Py.upper plate) make model col
              (form !! "location") t (form !! "notes") img) /\
    trace w' = trace w ++ added /\
    (file_saves added <= 1)%nat /\ (file_removes added <= 1)%nat /\
    (row_effects added <= 1)%nat.
Proof.
  intros Ht Hst Hplate Hmake Hmodel Hcol Hget.
  unfold edit_sighting_try. fold (form_time_edit form old).
  rewrite Ht. unfold form_item. rewrite Hst, Hplate, Hmake, Hmodel, Hcol.
  simpl bind. cbv zeta.
  unfold save_image, delete_image, commit_row.
  repeat match goal with
  | |- context [bool_decide ?P] => destruct (bool_decide P)
  | |- context [files !! ?k] => destruct (files !! k) as [file|]
  | |- context [Py.truthy_opt (image_filename old)] =>
      let H := fresh in
      destruct (image_filename old) as [f|] eqn:H; simpl Py.truthy_opt;
      simpl Py.or_empty
  | |- context [Py.truthy ?n] =>
      let H := fresh in destruct (Py.truthy n) eqn:H; simpl
  | |- context [allowed_file ?n] =>
      let H := fresh in destruct (allowed_file n) eqn:H; simpl
  | |- context [uploads ?w !! ?k] =>
      let H := fresh in destruct (uploads w !! k) eqn:H; simpl
  | |- context [decide (?a = ?b)] =>
      let H := fresh "Hsame" in destruct (decide (a = b)) as [H|?]
  end;
  try (exfalso; congruence);
  (eexists _, _, _; split; [reflexivity|]; simpl;
   split;
   [first [ by eapply get_sighting_update
          | rewrite Hget; f_equal; simpl in *; eassumption ]|];
   split; [effects_done|]; repeat split; vm_compute; lia).
Qed.

End Service.

Section ServiceClaims.

Lemma capital_of_upper_char c : capital_of c (Py.upper_char c).
Proof. destruct c as [[] [] [] [] [] [] [] []]; reflexivity. Qed.

Lemma upper_cased_upper s : upper_cased s (Py.upper s).
Proof.
  unfold upper_cased. induction s as [|c s IH]; cbn; constructor; [|done].
  apply capital_of_upper_char.
Qed.

Lemma small_letter_upper_char c : small_letter (Py.upper_char c) = false.
Proof. destruct c as [[] [] [] [] [] [] [] []]; reflexivity. Qed.

Lemma has_small_letter_upper s : has_small_letter (Py.upper s) = false.
Proof.
  unfold has_small_letter. induction s as [|c s IH]; cbn; [done|].
  by rewrite small_letter_upper_char, IH.
Qed.

(** C7: for a valid form whose state and licence plate are ASCII text, a
    create request stores a row whose state and licence plate are those of
    the form in upper case, every small letter replaced by its capital and
    every other character kept, so that no small letter is left in them; and
    so does an update request: the row fetched afterwards carries them. *)
Theorem stored_state_and_plate_are_upper_cased
    (secure_filename : string -> string) (form : gmap string string)
    (files : gmap string upload) (now : datetime) (w w2 : world)
    (i : Z) (old : Sighting) (st plate : string) :
  valid_form form = true ->
  form !! "state" = Some st -> form !! "license_plate" = Some plate ->
  ascii_text st = true -> ascii_text plate = true ->
  get_sighting i (db w2) = Some old ->
  (exists w' r,
     add_sighting secure_filename POST form files now w = (Redirect "index", w') /\
     db w' = db w ++ [r] /\
     upper_cased st (state r) /\ upper_cased plate (license_plate r) /\
     has_small_letter (state r) = false /\
     has_small_letter (license_plate r) = false) /\
  (exists w' r,
     edit_sighting secure_filename POST i form files w2 = (Redirect "index", w') /\
     get_sighting i (db w') = Some r /\
     upper_cased st (state r) /\ upper_cased plate (license_plate r) /\
     has_small_letter (state r) = false /\
     has_small_letter (license_plate r) = false).
Proof.
  intros Hform Hst Hplate _ _ Hget.
  assert (Hreq : has_required form = true).
  { unfold valid_form in Hform. by apply andb_true_iff in Hform as [? _]. }
  destruct (has_required_items form Hreq)
    as (st' & plate' & make & model & col & Hst' & Hplate' & Hmake & Hmodel & Hcol).
  assert (st' = st) as -> by congruence.
  assert (plate' = plate) as -> by congruence.
  split.
  - destruct (valid_form_time form now Hform) as [t Ht].
    destruct (add_sighting_try_ok secure_filename form files now w t
                st plate make model col Ht Hst Hplate Hmake Hmodel Hcol)
      as (w' & img & added & Hrun & Hdb & _).
    exists w', (created_row form (db w) st plate make model col t img).
    unfold add_sighting. rewrite Hrun. cbn [created_row state license_plate].
    repeat split; try done;
      first [apply upper_cased_upper | apply has_small_letter_upper].
  - destruct (form_time_edit_valid form old Hform) as [t Ht].
    pose proof (get_sighting_id _ _ _ Hget) as Hid. subst i.
    destruct (edit_sighting_try_ok secure_filename old form files w2 t
                st plate make model col Ht Hst Hplate Hmake Hmodel Hcol Hget)
      as (w' & img & added & Hrun & Hrow & _).
    exists w'. eexists. unfold edit_sighting. rewrite Hget, Hrun.
    split; [done|]. split; [exact Hrow|]. cbn [state license_plate].
    repeat split; try done;
      first [apply upper_cased_upper | apply has_small_letter_upper].
Qed.

Lemma stored_state_and_plate_are_upper_cased_witness :
  ((exists w' r,
      add_sighting keep_name POST form_ca with_photo noon empty_world
        = (Redirect "index", w') /\
      db w' = db empty_world ++ [r] /\
      upper_cased "ca" (state r) /\ upper_cased "abc1234" (license_plate r) /\
      has_small_letter (state r) = false /\
      has_small_letter (license_plate r) = false) /\
   (exists w' r,
      edit_sighting keep_name POST 6 form_ca with_photo world56
        = (Redirect "index", w') /\
      get_sighting 6 (db w') = Some r /\
      upper_cased "ca" (state r) /\ upper_cased "abc1234" (license_plate r) /\
      has_small_letter (state r) = false /\
      has_small_letter (license_plate r) = false)) /\
  (exists w' r,
     add_sighting keep_name POST form_ca with_photo noon empty_world
       = (Redirect "index", w') /\
     db w' = [r] /\ state r = "CA" /\ license_plate r = "ABC1234") /\
  (exists w' r,
     edit_sighting keep_name POST 6 form_ca with_photo world56
       = (Redirect "index", w') /\
     get_sighting 6 (db w') = Some r /\
     state r = "CA" /\ license_plate r = "ABC1234").
Proof.
  split.
  - apply (stored_state_and_plate_are_upper_cased keep_name form_ca with_photo
             noon empty_world world56 6 row6 "ca" "abc1234"); reflexivity.
  - split; eexists _, _; (split; [vm_compute; reflexivity|]);
      repeat split; reflexivity.
Defined.

(** C3, as the code has it: with the required fields present and a
    date-time field that is absent or empty, the sighting is created with the
    current server time; with a date-time text that is not in the format, no
    row is created, the form is shown again and the failure is flashed as the
    general error of the create operation. *)
Theorem create_time_missing_or_unparseable
    (secure_filename : string -> string) (form : gmap string string)
    (files : gmap string upload) (now : datetime) (w : world) :
  has_required form = true ->
  time_parses form = false ->
  (time_missing form = true /\
   exists w' r,
     add_sighting secure_filename POST form files now w = (Redirect "index", w') /\
     db w' = db w ++ [r] /\ timestamp r = Some now) \/
  (time_missing form = false /\
   add_sighting secure_filename POST form files now w
     = (Render "add_sighting.html", flash (ErrorAdding ValueError) "error" w)).
Proof.
  intros Hreq Hparse.
  destruct (time_missing form) eqn:Hmiss; [left | right]; (split; [done|]).
  - destruct (has_required_items form Hreq)
      as (st & plate & make & model & col & Hst & Hplate & Hmake & Hmodel & Hcol).
    destruct (add_sighting_try_ok secure_filename form files now w now
                st plate make model col (form_time_missing form now Hmiss)
                Hst Hplate Hmake Hmodel Hcol)
      as (w' & img & added & Hrun & Hdb & _).
    exists w', (created_row form (db w) st plate make model col now img).
    unfold add_sighting. by rewrite Hrun.
  - assert (Hbad : time_unparseable form = true).
    { unfold time_unparseable, time_missing, time_parses in *.
      destruct (form !! "sighting_time") as [s|]; [|done].
      rewrite Hmiss. by destruct (strptime s fmt_form). }
    unfold add_sighting, add_sighting_try. fold (form_time form now).
    by rewrite (form_time_unparseable form now Hbad).
Qed.

Lemma create_time_missing_or_unparseable_witness :
  (time_missing form_bad_time = true /\
   exists w' r,
     add_sighting keep_name POST form_bad_time with_photo noon empty_world
       = (Redirect "index", w') /\
     db w' = db empty_world ++ [r] /\ timestamp r = Some noon) \/
  (time_missing form_bad_time = false /\
   add_sighting keep_name POST form_bad_time with_photo noon empty_world
     = (Render "add_sighting.html",
        flash (ErrorAdding ValueError) "error" empty_world)).
Proof.
  apply (create_time_missing_or_unparseable keep_name form_bad_time with_photo
           noon empty_world); reflexivity.
Defined.

(** C3 as stated fails: a form whose date-time is the text "tomorrow" has
    every required field, and yet the create request leaves the table empty
    instead of storing a row stamped with the server time. *)
Lemma unparseable_time_creates_no_record :
  has_required form_bad_time = true /\
  time_parses form_bad_time = false /\
  db (snd (add_sighting keep_name POST form_bad_time ∅ noon empty_world)) = [] /\
  ~ (exists r,
       r ∈ db (snd (add_sighting keep_name POST form_bad_time ∅ noon empty_world))
       /\ timestamp r = Some noon).
Proof.
  assert (Hdb : db (snd (add_sighting keep_name POST form_bad_time ∅ noon
                           empty_world)) = []) by reflexivity.
  repeat split; try reflexivity.
  rewrite Hdb. intros (r & Hr & _). by apply elem_of_nil in Hr.
Qed.

Lemma add_sighting_effects secure_filename m form files now w :
  exists added,
    added_effects w (snd (add_sighting secure_filename m form files now w)) added /\
    (file_saves added <= 1)%nat /\ file_removes added = 0%nat /\
    (row_effects added <= 1 + file_saves added)%nat.
Proof.
  assert (Hnone : exists added,
            added_effects w w added /\
            (file_saves added <= 1)%nat /\ file_removes added = 0%nat /\
            (row_effects added <= 1 + file_saves added)%nat).
  { exists []. unfold added_effects. rewrite app_nil_r.
    repeat split; vm_compute; lia. }
  unfold add_sighting. destruct m; [done|].
  destruct (add_sighting_try secure_filename form files now w) as [w'|e] eqn:Hrun;
    [|done].
  revert Hrun. unfold add_sighting_try. fold (form_time form now).
  destruct (form_time form now) as [t|] eqn:Ht; [|done].
  unfold form_item.
  destruct (form !! "state") as [st|] eqn:Hst; [|done].
  destruct (form !! "license_plate") as [plate|] eqn:Hplate; [|done].
  destruct (form !! "car_make") as [make|] eqn:Hmake; [|done].
  destruct (form !! "car_model") as [model|] eqn:Hmodel; [|done].
  destruct (form !! "color") as [col|] eqn:Hcol; [|done].
  intros Hrun.
  destruct (add_sighting_try_ok secure_filename form files now w t
              st plate make model col Ht Hst Hplate Hmake Hmodel Hcol)
    as (w'' & img & added & Hrun' & _ & Htrace & Hbounds).
  unfold add_sighting_try, form_item in Hrun'. fold (form_time form now) in Hrun'.
  rewrite Ht, Hst, Hplate, Hmake, Hmodel, Hcol in Hrun'.
  rewrite Hrun in Hrun'. injection Hrun' as <-.
  by exists added.
Qed.

Lemma edit_sighting_effects secure_filename m i form files w :
  exists added,
    added_effects w (snd (edit_sighting secure_filename m i form files w)) added /\
    (file_saves added <= 1)%nat /\ (file_removes added <= 1)%nat /\
    (row_effects added <= 1)%nat.
Proof.
  assert (Hnone : exists added,
            added_effects w w added /\
            (file_saves added <= 1)%nat /\ (file_removes added <= 1)%nat /\
            (row_effects added <= 1)%nat).
  { exists []. unfold added_effects. rewrite app_nil_r.
    repeat split; vm_compute; lia. }
  unfold edit_sighting.
  destruct (get_sighting i (db w)) as [old|] eqn:Hget; [|done].
  destruct m; [done|].
  destruct (edit_sighting_try secure_filename old form files w) as [w'|e] eqn:Hrun;
    [|done].
  revert Hrun. unfold edit_sighting_try. fold (form_time_edit form old).
  destruct (form_time_edit form old) as [t|] eqn:Ht; [|done].
  unfold form_item.
  destruct (form !! "state") as [st|] eqn:Hst; [|done].
  destruct (form !! "license_plate") as [plate|] eqn:Hplate; [|done].
  destruct (form !! "car_make") as [make|] eqn:Hmake; [|done].
  destruct (form !! "car_model") as [model|] eqn:Hmodel; [|done].
  destruct (form !! "color") as [col|] eqn:Hcol; [|done].
  intros Hrun.
  pose proof (get_sighting_id _ _ _ Hget) as Hid. subst i.
  destruct (edit_sighting_try_ok secure_filename old form files w t
              st plate make model col Ht Hst Hplate Hmake Hmodel Hcol Hget)
    as (w'' & img & added & Hrun' & _ & Htrace & Hbounds).
  unfold edit_sighting_try, form_item in Hrun'.
  fold (form_time_edit form old) in Hrun'.
  rewrite Ht, Hst, Hplate, Hmake, Hmodel, Hcol in Hrun'.
  rewrite Hrun in Hrun'. injection Hrun' as <-.
  by exists added.
Qed.

(** The upload directory after [delete_image] *)
Lemma delete_image_uploads (name : string) (w : world) :
  uploads w !! "" = None ->
  uploads (snd (delete_image (Some name) w)) = delete name (uploads w).
Proof.
  intros Hempty. unfold delete_image. simpl.
  destruct name as [|c name]; simpl.
  - by rewrite delete_id.
  - destruct (uploads w !! String c name) eqn:Hf; simpl; [done|].
    by rewrite delete_id.
Qed.

Lemma delete_image_db (name : option string) (w : world) :
  db (snd (delete_image name w)) = db w.
Proof.
  unfold delete_image. destruct (Py.truthy_opt name); [|done].
  by destruct (uploads w !! _).
Qed.

Lemma delete_sighting_effects i w :
  exists added,
    added_effects w (snd (delete_sighting i w)) added /\
    file_saves added = 0%nat /\ (file_removes added <= 1)%nat /\
    (row_effects added <= 1)%nat.
Proof.
  unfold delete_sighting, delete_image, added_effects.
  destruct (get_sighting i (db w)) as [r|]; cycle 1.
  { exists []. simpl. rewrite app_nil_r. repeat split; vm_compute; lia. }
  destruct (Py.truthy_opt (image_filename r)); cycle 1.
  { exists [RowDelete (id r)]. simpl. repeat split; vm_compute; lia. }
  destruct (uploads w !! Py.or_empty (image_filename r)); simpl.
  - eexists [FileRemove _; RowDelete (id r)].
    split; [by rewrite <- app_assoc|]. repeat split; vm_compute; lia.
  - exists [RowDelete (id r)]. repeat split; vm_compute; lia.
Qed.

(** C4, as the code has it: a create request writes at most one file,
    removes none, and sends one insert plus, only when an image was written,
    one update of the new row; an update request removes at most one file,
    writes at most one file and sends at most one update; a delete request
    writes no file, removes at most one and deletes at most one row. *)
Theorem service_effects_are_bounded
    (secure_filename : string -> string) (m : method) (i : Z)
    (form : gmap string string) (files : gmap string upload) (now : datetime)
    (w : world) :
  (exists added,
     trace (snd (add_sighting secure_filename m form files now w))
       = trace w ++ added /\
     (file_saves added <= 1)%nat /\ file_removes added = 0%nat /\
     (row_effects added <= 1 + file_saves added)%nat) /\
  (exists added,
     trace (snd (edit_sighting secure_filename m i form files w))
       = trace w ++ added /\
     (file_saves added <= 1)%nat /\ (file_removes added <= 1)%nat /\
     (row_effects added <= 1)%nat) /\
  (exists added,
     trace (snd (delete_sighting i w)) = trace w ++ added /\
     file_saves added = 0%nat /\ (file_removes added <= 1)%nat /\
     (row_effects added <= 1)%nat).
Proof.
  split; [apply add_sighting_effects|].
  split; [apply edit_sighting_effects | apply delete_sighting_effects].
Qed.

(** C4 as stated fails: replacing the image of a sighting removes the old
    file and writes the new one, two file effects in one update request; and
    a create request with an image sends two row statements. *)
Lemma replacing_an_image_is_two_file_effects :
  trace (snd (edit_sighting keep_name POST 5 form_ca with_new_photo world56))
    = [FileRemove "sighting_5_photo.jpg"; FileSave "sighting_5_new.png";
       RowUpdate 5] /\
  file_effects [FileRemove "sighting_5_photo.jpg"; FileSave "sighting_5_new.png";
                RowUpdate 5] = 2%nat /\
  trace (snd (add_sighting keep_name POST form_ca with_photo noon empty_world))
    = [RowInsert 1; FileSave "sighting_1_photo.jpg"; RowUpdate 1] /\
  row_effects [RowInsert 1; FileSave "sighting_1_photo.jpg"; RowUpdate 1]
    = 2%nat.
Proof. repeat split; reflexivity. Qed.

(** C8: deleting a sighting that names an image leaves the upload directory
    without that file (and as it was when the file was already absent),
    removes the row and no other, and a later fetch of the id finds
    nothing. *)
Theorem delete_removes_image_and_record
    (secure_filename : string -> string) (m : method)
    (form : gmap string string) (files : gmap string upload)
    (i : Z) (w : world) (r : Sighting) (f : string) :
  get_sighting i (db w) = Some r ->
  image_filename r = Some f ->
  uploads w !! "" = None ->
  exists w',
    delete_sighting i w = (Redirect "index", w') /\
    uploads w' = delete f (uploads w) /\
    uploads w' !! f = None /\
    (uploads w !! f = None -> uploads w' = uploads w) /\
    (forall x, x ∈ db w' <-> x ∈ db w /\ id x <> i) /\
    get_sighting i (db w') = None /\
    edit_sighting secure_filename m i form files w'
      = (Redirect "index", flash (Text "Sighting not found.") "error" w').
Proof.
  intros Hget Himg Hempty.
  pose proof (get_sighting_id _ _ _ Hget) as Hid.
  unfold delete_sighting. rewrite Hget, Himg.
  set (w1 := if Py.truthy_opt (Some f) then snd (delete_image (Some f) w) else w).
  assert (Hup : uploads w1 = delete f (uploads w)).
  { subst w1. destruct (Py.truthy_opt (Some f)) eqn:Hf.
    - by apply delete_image_uploads.
    - destruct f; [|done]. by rewrite delete_id. }
  assert (Hdb : db w1 = db w).
  { subst w1. destruct (Py.truthy_opt (Some f)); [|done]. apply delete_image_db. }
  clearbody w1.
  eexists. split; [reflexivity|].
  simpl. rewrite Hup, Hdb, Hid.
  split; [done|]. split; [apply lookup_delete_eq|].
  split; [intros Hf; by apply delete_id|].
  split; [apply elem_of_delete_row|].
  split; [apply get_sighting_delete|].
  unfold edit_sighting. simpl.
  by rewrite get_sighting_delete.
Qed.

Lemma delete_removes_image_and_record_witness :
  exists w',
    delete_sighting 5 world56 = (Redirect "index", w') /\
    uploads w' = delete "sighting_5_photo.jpg" (uploads world56) /\
    uploads w' !! "sighting_5_photo.jpg" = None /\
    (uploads world56 !! "sighting_5_photo.jpg" = None ->
     uploads w' = uploads world56) /\
    (forall x, x ∈ db w' <-> x ∈ db world56 /\ id x <> 5) /\
    get_sighting 5 (db w') = None /\
    edit_sighting keep_name GET 5 ∅ ∅ w'
      = (Redirect "index", flash (Text "Sighting not found.") "error" w').
Proof.
  apply (delete_removes_image_and_record keep_name GET ∅ ∅ 5 world56 row5
           "sighting_5_photo.jpg"); reflexivity.
Defined.

End ServiceClaims.

#[local] Arguments String.append !_ _ / : simpl nomatch.

(** ** Strings *)

Section Strings.

Lemma string_app_assoc (a b c : string) : (a +:+ b) +:+ c = a +:+ (b +:+ c).
Proof. induction a as [|x a IH]; simpl; [done|]. by rewrite IH. Qed.

Lemma string_app_nil_r (a : string) : a +:+ "" = a.
Proof. induction a as [|x a IH]; simpl; [done|]. by rewrite IH. Qed.

Lemma endswith_iff (s suffix : string) :
  Py.endswith s suffix = true <-> exists p, s = p +:+ suffix.
Proof.
  induction s as [|c s IH].
  - change (Py.endswith "" suffix) with (String.eqb "" suffix || false).
    rewrite orb_false_r, String.eqb_eq. split.
    + intros <-. by exists "".
    + intros [p Hp]. destruct p; [done|discriminate].
  - change (Py.endswith (String c s) suffix)
      with (String.eqb (String c s) suffix || Py.endswith s suffix).
    rewrite orb_true_iff, String.eqb_eq, IH. split.
    + intros [<- | [p ->]]; [by exists "" | by exists (String c p)].
    + intros [[|x p] Hp]; simpl in Hp; [by left|].
      right. exists p. congruence.
Qed.

End Strings.

(** ** The bulk importer *)

Section Bulk.

Lemma first_with_image_find name rows :
  first_with_image name rows = List.find (names_file name) rows.
Proof.
  induction rows as [|r rows IH]; [done|].
  cbn [first_with_image List.find]. rewrite IH. unfold names_file.
  destruct (decide (image_filename r = Some name)) as [H|H].
  - by rewrite bool_decide_eq_true_2.
  - by rewrite bool_decide_eq_false_2.
Qed.

Lemma scan_suffix_find name rows :
  scan_suffix name (with_image rows) =
  option_map (fun r => (r, Py.or_empty (image_filename r)))
             (List.find (names_file_ending name) rows).
Proof.
  unfold names_file_ending. induction rows as [|r rows IH]; simpl; [done|].
  destruct (image_filename r) as [f|] eqn:Hf; simpl; [|done].
  destruct (Py.endswith f _); [|done]. simpl. by rewrite Hf.
Qed.

(** C1: a file of the batch with an allowed extension is matched first
    against the rows that name exactly the uploaded file name and, if there is
    none, against the first row whose file name ends with an underscore and
    the uploaded name; it is then stored under the file name of the matched
    row, over whatever was there.  With no such row it is counted as an error
    with the reason that no matching sighting was found. *)
Theorem bulk_file_is_matched_by_name (file : upload) (t : tally) (w : world) :
  allowed_file (filename file) = true ->
  bulk_file file (t, w) =
    match List.find (names_file (filename file)) (db w) with
    | Some r => stored (Py.or_empty (image_filename r)) file (t, w)
    | None =>
        match List.find (names_file_ending (filename file)) (db w) with
        | Some r => stored (Py.or_empty (image_filename r)) file (t, w)
        | None => refused "No matching sighting found in database" file (t, w)
        end
    end /\
  (forall r, names_file (filename file) r = true <->
             image_filename r = Some (filename file)) /\
  (forall r, names_file_ending (filename file) r = true <->
             exists p, image_filename r = Some (p +:+ "_" +:+ filename file)).
Proof.
  intros Hallowed. split; [|split].
  - unfold bulk_file. rewrite Hallowed. simpl negb. cbv iota.
    destruct (String.eqb_spec (filename file) "") as [Hempty|_].
    { rewrite Hempty in Hallowed. discriminate. }
    rewrite first_with_image_find, scan_suffix_find.
    destruct (List.find (names_file (filename file)) (db w)) as [r|] eqn:Hexact.
    + apply find_some in Hexact as [_ Hr]. unfold names_file in Hr.
      apply bool_decide_eq_true in Hr. rewrite Hr. reflexivity.
    + destruct (List.find (names_file_ending (filename file)) (db w)); reflexivity.
  - intros r. unfold names_file. apply bool_decide_eq_true.
  - intros r. unfold names_file_ending.
    destruct (image_filename r) as [f|].
    + rewrite endswith_iff. split; intros [p Hp]; exists p; congruence.
    + split; [done | by intros [p Hp]].
Qed.

Lemma bulk_file_is_matched_by_name_witness :
  bulk_file photo (mk_tally 0 0 [], world56) =
    match List.find (names_file (filename photo)) (db world56) with
    | Some r => stored (Py.or_empty (image_filename r)) photo
                  (mk_tally 0 0 [], world56)
    | None =>
        match List.find (names_file_ending (filename photo)) (db world56) with
        | Some r => stored (Py.or_empty (image_filename r)) photo
                      (mk_tally 0 0 [], world56)
        | None => refused "No matching sighting found in database" photo
                    (mk_tally 0 0 [], world56)
        end
    end /\
  (forall r, names_file (filename photo) r = true <->
             image_filename r = Some (filename photo)) /\
  (forall r, names_file_ending (filename photo) r = true <->
             exists p, image_filename r = Some (p +:+ "_" +:+ filename photo)).
Proof.
  apply (bulk_file_is_matched_by_name photo (mk_tally 0 0 []) world56).
  reflexivity.
Defined.

(** The example of the specification: [photo.jpg] is stored over the file
    of sighting 5, [unrelated.png] is refused. *)
Example bulk_upload_photo_and_unrelated :
  bulk_loop [photo; unrelated] (mk_tally 0 0 [], world56) =
  (mk_tally 1 1 ["unrelated.png: No matching sighting found in database"],
   mk_world [row5; row6] {["sighting_5_photo.jpg" := content photo]} []
     [FileSave "sighting_5_photo.jpg"]).
Proof. reflexivity. Qed.

Lemma bulk_file_counts file st :
  success_count (fst (bulk_file file st)) + error_count (fst (bulk_file file st))
    = success_count (fst st) + error_count (fst st)
      + (if nonempty_name file then 1 else 0) /\
  Z.of_nat (length (errors (fst (bulk_file file st)))) - error_count (fst (bulk_file file st))
    = Z.of_nat (length (errors (fst st))) - error_count (fst st).
Proof.
  destruct st as [t w]. unfold bulk_file, nonempty_name.
  destruct (String.eqb (filename file) ""); simpl; [lia|].
  destruct (allowed_file (filename file)); simpl.
  - destruct (match first_with_image _ _ with Some _ => _ | None => _ end)
      as [[? ?]|]; simpl; rewrite ?length_app; simpl; lia.
  - rewrite length_app. simpl. lia.
Qed.

Lemma bulk_loop_counts files st :
  success_count (fst (bulk_loop files st)) + error_count (fst (bulk_loop files st))
    = success_count (fst st) + error_count (fst st)
      + Z.of_nat (length (List.filter nonempty_name files)) /\
  Z.of_nat (length (errors (fst (bulk_loop files st)))) - error_count (fst (bulk_loop files st))
    = Z.of_nat (length (errors (fst st))) - error_count (fst st).
Proof.
  unfold bulk_loop. revert st.
  induction files as [|file files IH]; intros st; simpl; [lia|].
  destruct (IH (bulk_file file st)) as [IH1 IH2].
  destruct (bulk_file_counts file st) as [H1 H2].
  rewrite IH1, IH2, H1, H2.
  destruct (nonempty_name file); simpl length; lia.
Qed.

(** C10: a file with an empty name leaves the counters, the error list and
    the world as they are; so after any batch the successes and the errors
    add up to the number of files with a name that is not empty, and every
    error has its message. *)
Theorem bulk_counts_files_with_a_name (files : list upload) (w : world) :
  (forall file st, filename file = "" -> bulk_file file st = st) /\
  success_count (fst (bulk_loop files (mk_tally 0 0 [], w)))
    + error_count (fst (bulk_loop files (mk_tally 0 0 [], w)))
    = Z.of_nat (length (List.filter nonempty_name files)) /\
  Z.of_nat (length (errors (fst (bulk_loop files (mk_tally 0 0 [], w)))))
    = error_count (fst (bulk_loop files (mk_tally 0 0 [], w))).
Proof.
  split.
  - intros file [t w'] Hname. unfold bulk_file. by rewrite Hname.
  - destruct (bulk_loop_counts files (mk_tally 0 0 [], w)) as [H1 H2].
    simpl in *. lia.
Qed.

End Bulk.

(** ** Dates and times *)

Section Dates.

Ltac lia_div := Z.to_euclidean_division_equations; lia.

(** A property checked on every integer of a range holds on the range *)
Lemma range_check (P : Z -> bool) (lo : Z) (len : nat) :
  forallb P (seqZ lo (Z.of_nat len)) = true ->
  forall n, lo <= n < lo + Z.of_nat len -> P n = true.
Proof.
  intros Hall n Hn. rewrite forallb_forall in Hall. apply Hall.
  apply list_elem_of_In, elem_of_seqZ. lia.
Qed.

Lemma digit_val_digit k : 0 <= k <= 9 -> digit_val (digit k) = Some k.
Proof.
  intros Hk.
  pose proof (range_check (fun k => bool_decide (digit_val (digit k) = Some k))
                0 10 eq_refl k) as H.
  eapply bool_decide_eq_true_1, H. lia.
Qed.

Lemma is_space_digit k : 0 <= k <= 9 -> is_space (digit k) = false.
Proof.
  intros Hk.
  pose proof (range_check (fun k => negb (is_space (digit k))) 0 10 eq_refl k) as H.
  apply negb_true_iff. apply H. lia.
Qed.

Lemma parse_Y_pad4 y rest :
  0 <= y <= 9999 -> parse_Y (pad4 y +:+ rest) = Some (y, rest).
Proof.
  intros Hy. unfold pad4, parse_Y. simpl.
  rewrite !digit_val_digit by lia_div. f_equal. f_equal. lia_div.
Qed.

Lemma two_or_one_pad2 ok2 ok1 n rest :
  0 <= n <= 99 -> ok2 (n / 10) (n mod 10) = true ->
  two_or_one ok2 ok1 (pad2 n +:+ rest) = Some (n, rest).
Proof.
  intros Hn Hok. unfold pad2, two_or_one. simpl.
  rewrite !digit_val_digit by lia_div. rewrite Hok. f_equal. f_equal. lia_div.
Qed.

Lemma parse_m_pad2 m rest :
  1 <= m <= 12 -> parse_m (pad2 m +:+ rest) = Some (m, rest).
Proof.
  intros Hm. apply two_or_one_pad2; [lia|].
  apply (range_check
           (fun m => ((m / 10 =? 1) && (m mod 10 <=? 2))
                     || ((m / 10 =? 0) && (1 <=? m mod 10))) 1 12);
    [reflexivity | lia].
Qed.

Lemma parse_d_pad2 d rest :
  1 <= d <= 31 -> parse_d (pad2 d +:+ rest) = Some (d, rest).
Proof.
  intros Hd. unfold parse_d. rewrite two_or_one_pad2; [done | lia |].
  apply (range_check
           (fun d => ((d / 10 =? 3) && (d mod 10 <=? 1)) || (d / 10 =? 1)
                     || (d / 10 =? 2) || ((d / 10 =? 0) && (1 <=? d mod 10)))
           1 31);
    [reflexivity | lia].
Qed.

Lemma parse_H_pad2 h rest :
  0 <= h <= 23 -> parse_H (pad2 h +:+ rest) = Some (h, rest).
Proof.
  intros Hh. apply two_or_one_pad2; [lia|].
  apply (range_check
           (fun h => ((h / 10 =? 2) && (h mod 10 <=? 3)) || (h / 10 <=? 1)) 0 24);
    [reflexivity | lia].
Qed.

Lemma parse_M_pad2 n rest :
  0 <= n <= 59 -> parse_M (pad2 n +:+ rest) = Some (n, rest).
Proof.
  intros Hn. apply two_or_one_pad2; [lia|].
  apply (range_check (fun n => n / 10 <=? 5) 0 60); [reflexivity | lia].
Qed.

Lemma parse_S_pad2 n rest :
  0 <= n <= 59 -> parse_S (pad2 n +:+ rest) = Some (n, rest).
Proof.
  intros Hn. apply two_or_one_pad2; [lia|].
  apply (range_check
           (fun n => ((n / 10 =? 6) && (n mod 10 <=? 1)) || (n / 10 <=? 5)) 0 60);
    [reflexivity | lia].
Qed.

Lemma days_in_month_bounds y m : 28 <= days_in_month y m <= 31.
Proof.
  unfold days_in_month.
  destruct (m =? 2); [destruct (is_leap y); lia|].
  destruct ((m =? 4) || (m =? 6) || (m =? 9) || (m =? 11)); lia.
Qed.

Lemma valid_date_bounds y m d :
  valid_date y m d = true ->
  1 <= y <= 9999 /\ 1 <= m <= 12 /\ 1 <= d <= days_in_month y m.
Proof.
  unfold valid_date. rewrite !andb_true_iff, !Z.leb_le. lia.
Qed.

Lemma valid_bounds t :
  valid t = true ->
  (1 <= year t <= 9999 /\ 1 <= month t <= 12 /\
   1 <= day t <= days_in_month (year t) (month t)) /\
  0 <= hour t <= 23 /\ 0 <= minute t <= 59 /\ 0 <= second t <= 59 /\
  0 <= microsecond t <= 999999.
Proof.
  unfold valid. intros [Hd Ht]%andb_true_iff.
  split; [by apply valid_date_bounds|].
  unfold valid_time in Ht. rewrite !andb_true_iff, !Z.leb_le in Ht. lia.
Qed.

#[local] Arguments pad2 : simpl never.
#[local] Arguments pad4 : simpl never.
#[local] Arguments parse_Y : simpl never.
#[local] Arguments parse_m : simpl never.
#[local] Arguments parse_d : simpl never.
#[local] Arguments parse_H : simpl never.
#[local] Arguments parse_M : simpl never.
#[local] Arguments parse_S : simpl never.

Lemma parse_lit_same c rest : parse_lit c (String c rest) = Some rest.
Proof. unfold parse_lit. by rewrite Ascii.eqb_refl. Qed.


Lemma strftime_chars t :
  strftime t =
  pad4 (year t) +:+ String "-" (pad2 (month t) +:+ String "-" (pad2 (day t) +:+
  String " " (pad2 (hour t) +:+ String ":" (pad2 (minute t) +:+
  String ":" (pad2 (second t) +:+ ""))))).
Proof. unfold strftime. by rewrite string_app_nil_r. Qed.


(** The text of a timestamp is read back as the timestamp cut to the second *)
Lemma strptime_strftime t :
  valid t = true -> strptime (strftime t) fmt_seed = Some (to_second t).
Proof.
  intros Hv. pose proof (valid_bounds t Hv) as ((Hy & Hm & Hd) & Hh & Hmi & Hs & Hus).
  pose proof (days_in_month_bounds (year t) (month t)).
  rewrite strftime_chars.
  unfold strptime, fmt_seed, match_format, parse_num.
  rewrite parse_Y_pad4 by lia. cbv beta iota. rewrite parse_lit_same.
  rewrite parse_m_pad2 by lia. cbv beta iota. rewrite parse_lit_same.
  rewrite parse_d_pad2 by lia. cbv beta iota.
  assert (Hskip : forall rest, parse_blank (String " " (pad2 (hour t) +:+ rest))
                               = Some (pad2 (hour t) +:+ rest)).
  { intros rest. unfold pad2. simpl. rewrite is_space_digit; [done | lia_div]. }
  rewrite Hskip, parse_H_pad2 by lia. cbv beta iota. rewrite parse_lit_same.
  rewrite parse_M_pad2 by lia. cbv beta iota. rewrite parse_lit_same.
  rewrite parse_S_pad2 by lia. cbv beta iota.
  unfold to_second. simpl.
  assert (Hv' : valid (mk_datetime (year t) (month t) (day t) (hour t)
                         (minute t) (second t) 0) = true).
  { unfold valid, valid_time in *. cbn [year month day hour minute second microsecond].
    rewrite !andb_true_iff, !Z.leb_le in *. destruct Hv as [Hvd _].
    repeat split; first [ exact Hvd | lia ]. }
  by rewrite Hv'.
Qed.








End Dates.

(** ** The listing *)

Section Listing.

Lemma elem_of_order_by le rows (r : Sighting) :
  r ∈ order_by le rows <-> r ∈ rows.
Proof. unfold order_by. by rewrite merge_sort_Permutation. Qed.

Lemma length_order_by le rows : length (order_by le rows) = length rows.
Proof. unfold order_by. by rewrite merge_sort_Permutation. Qed.

Lemma elem_of_list_filter (p : Sighting -> bool) rows r :
  r ∈ List.filter p rows <-> r ∈ rows /\ p r = true.
Proof. by rewrite !list_elem_of_In, filter_In. Qed.





(** The last day of the calendar as the end day: the day after it does not
    exist, and the handler does not catch the overflow. *)
Example end_date_on_the_last_day :
  index (<["end_date" := "9999-12-31"]> ∅) world56 = Raise OverflowError.
Proof. reflexivity. Qed.

End Listing.

(** ** The exports *)

Section Exports.








Lemma writerow_csv_row b s :
  writerow (csv_fieldnames b) (csv_row b s) = csv_cells b s.
Proof. destruct b; reflexivity. Qed.

Lemma csv_document_rows b rows :
  csv_document b rows = csv_fieldnames b :: map (csv_cells b) rows.
Proof.
  unfold csv_document. f_equal. apply map_ext. intros s. apply writerow_csv_row.
Qed.


(** Whatever is staged for the archive is a file of the upload directory *)
Lemma stage_images_from_store sightings store images_dir :
  (forall f data, images_dir !! f = Some data -> store !! f = Some data) ->
  forall f data,
    stage_images sightings store images_dir !! f = Some data ->
    store !! f = Some data.
Proof.
  revert images_dir.
  induction sightings as [|s sightings IH]; intros images_dir Hdir; [done|].
  cbn [stage_images]. apply IH.
  destruct (Py.truthy_opt (image_filename s)); [|done].
  destruct (store !! Py.or_empty (image_filename s)) as [d|] eqn:Hs; [|done].
  intros f data. rewrite lookup_insert.
  case_decide as Hf; [|by apply Hdir]. subst f. by intros [= <-].
Qed.

(** C6: the archive has no [images/] member for a sighting whose image
    file is missing from the upload directory, every image member is a file
    of that directory, and the CSV file of the archive has one row under its
    header for each row of the table. *)
Theorem archive_leaves_out_missing_images
    (args : gmap string string) (w : world) :
  (forall r f,
     r ∈ db w -> image_filename r = Some f -> uploads w !! f = None ->
     ("images/" +:+ f) ∉ map fst (export_zip args w)) /\
  (exists header rows images,
     export_zip args w
       = ("license_plates_export.csv", CsvFile (header :: rows)) :: images /\
     length rows = length (db w) /\
     Forall (fun e => exists f data,
                e = ("images/" +:+ f, ImageFile data) /\
                uploads w !! f = Some data) images).
Proof.
  assert (Himages : Forall (fun e => exists f data,
              e = ("images/" +:+ f, ImageFile data) /\
              uploads w !! f = Some data)
            (map (fun '(f, data) => ("images/" +:+ f, ImageFile data))
               (map_to_list (stage_images (all_newest_first w) (uploads w) ∅)))).
  { apply Forall_forall. intros e He. apply list_elem_of_In in He.
    apply in_map_iff in He as ([f data] & <- & Hin).
    exists f, data. split; [done|].
    apply list_elem_of_In, elem_of_map_to_list in Hin.
    by eapply stage_images_from_store; [|exact Hin]. }
  split.
  - intros r f _ _ Hmissing Hin.
    unfold export_zip in Hin. cbn [map fst] in Hin.
    apply elem_of_cons in Hin as [Hcsv|Hin]; [discriminate Hcsv|].
    apply list_elem_of_In, in_map_iff in Hin as ([name member] & Hname & Hin).
    rewrite Forall_forall in Himages.
    apply list_elem_of_In in Hin.
    destruct (Himages _ Hin) as (g & data & [= -> ->] & Hg).
    cbn in Hname. injection Hname as Heq. congruence.
  - eexists _, _, _. split; [reflexivity|].
    split; [|exact Himages].
    rewrite length_map. apply length_order_by.
Qed.

Lemma archive_leaves_out_missing_images_witness :
  (forall r f,
     r ∈ db world56_no_file -> image_filename r = Some f ->
     uploads world56_no_file !! f = None ->
     ("images/" +:+ f) ∉ map fst (export_zip ∅ world56_no_file)) /\
  (exists header rows images,
     export_zip ∅ world56_no_file
       = ("license_plates_export.csv", CsvFile (header :: rows)) :: images /\
     length rows = length (db world56_no_file) /\
     Forall (fun e => exists f data,
                e = ("images/" +:+ f, ImageFile data) /\
                uploads world56_no_file !! f = Some data) images).
Proof. exact (archive_leaves_out_missing_images ∅ world56_no_file). Defined.

(** The archive of the sample table without the image file *)
Example archive_of_world56_no_file :
  map fst (export_zip ∅ world56_no_file) = ["license_plates_export.csv"] /\
  map fst (export_zip ∅ world56)
    = ["license_plates_export.csv"; "images/sighting_5_photo.jpg"].
Proof. split; reflexivity. Qed.

End Exports.

(** ** Reading the literal export *)

Section Reading.
Import PyLiteral.

Lemma reads_nil st : reads st "" st [].
Proof. intros rest. simpl. by destruct (run st rest) as [[? ?]|]. Qed.

Lemma reads_app st a st1 t1 b st2 t2 :
  reads st a st1 t1 -> reads st1 b st2 t2 -> reads st (a +:+ b) st2 (t1 ++ t2).
Proof.
  intros Ha Hb rest. rewrite string_app_assoc, Ha, Hb.
  destruct (run st2 rest) as [[? ?]|]; [|done]. by rewrite app_assoc.
Qed.

Lemma reads_char st c st' toks :
  step st c = Some (st', toks) -> reads st (String c "") st' toks.
Proof.
  intros Hstep rest. change (String c "" +:+ rest) with (String c rest).
  cbn [run]. rewrite Hstep. by destruct (run st' rest) as [[? ?]|].
Qed.

Lemma reads_run st a st' toks :
  reads st a st' toks -> run st a = Some (st', toks).
Proof.
  intros Ha. specialize (Ha ""). rewrite string_app_nil_r in Ha.
  rewrite Ha. simpl. by rewrite app_nil_r.
Qed.

Lemma snoc_app acc c v : snoc acc c +:+ v = acc +:+ String c v.
Proof. unfold snoc. by rewrite string_app_assoc. Qed.

(** A plain text inside a literal is collected as it is *)
Lemma reads_plain v acc :
  plain v = true -> reads (Str acc) v (Str (acc +:+ v)) [].
Proof.
  revert acc. induction v as [|c v IH]; intros acc Hv.
  - rewrite string_app_nil_r. apply reads_nil.
  - simpl in Hv. apply andb_true_iff in Hv as [Hc Hv].
    intros rest. change (String c v +:+ rest) with (String c (v +:+ rest)).
    cbn [run].
    assert (Hstep : step (Str acc) c = Some (Str (snoc acc c), [])).
    { unfold step. unfold plain_char in Hc. cbv zeta in Hc.
      rewrite !negb_true_iff, !orb_false_iff in Hc.
      destruct Hc as ((((Hq & Hb) & Hn) & Hr) & Hz).
      rewrite Hq, Hb. unfold plain_char. cbv zeta.
      by rewrite Hq, Hb, Hn, Hr, Hz. }
    rewrite Hstep. rewrite (IH (snoc acc c) Hv rest), snoc_app.
    by destruct (run _ rest) as [[? ?]|].
Qed.

Lemma reads_quoted v :
  plain v = true -> reads Code (dquote +:+ v +:+ dquote) Code [TString v].
Proof.
  intros Hv.
  change [TString v] with (([] ++ []) ++ [TString v]).
  rewrite <- string_app_assoc.
  eapply reads_app; [eapply reads_app|].
  - by apply reads_char.
  - by apply reads_plain.
  - by apply reads_char.
Qed.

Lemma reads_item kv :
  plain_item kv = true ->
  reads Code (format_item kv) Code [TString (fst kv); TColon; TString (snd kv)].
Proof.
  intros [Hk Hv]%andb_true_iff. unfold format_item.
  change [TString (fst kv); TColon; TString (snd kv)]
    with ([TString (fst kv)] ++ [TColon] ++ [TString (snd kv)]).
  rewrite <- (string_app_assoc dquote (fst kv)).
  rewrite <- (string_app_assoc (dquote +:+ fst kv)).
  rewrite (string_app_assoc dquote (fst kv)).
  apply (reads_app _ _ Code); [by apply reads_quoted|].
  apply (reads_app _ _ Code); [|by apply reads_quoted].
  intros rest. simpl. by destruct (run Code rest) as [[? ?]|].
Qed.

Lemma reads_items items :
  forallb plain_item items = true ->
  reads Code (Py.join ", " (map format_item items)) Code (items_tokens items).
Proof.
  induction items as [|kv items IH]; intros Hall; [apply reads_nil|].
  simpl in Hall. apply andb_true_iff in Hall as [Hkv Hall].
  destruct items as [|kv' items]; [by apply reads_item|].
  change (Py.join ", " (map format_item (kv :: kv' :: items)))
    with (format_item kv +:+ ", " +:+ Py.join ", " (map format_item (kv' :: items))).
  change (items_tokens (kv :: kv' :: items))
    with ([TString (fst kv); TColon; TString (snd kv)] ++ [TComma]
          ++ items_tokens (kv' :: items)).
  apply (reads_app _ _ Code); [by apply reads_item|].
  apply (reads_app _ _ Code); [|by apply IH].
  intros rest. simpl. by destruct (run Code rest) as [[? ?]|].
Qed.

Lemma reads_dict items :
  forallb plain_item items = true ->
  reads Code (format_dict items) Code (dict_tokens items).
Proof.
  intros Hall. unfold format_dict, dict_tokens.
  apply (reads_app _ _ Code);
    [|apply (reads_app _ _ Code); [by apply reads_items|]];
    intros rest; simpl; by destruct (run Code rest) as [[? ?]|].
Qed.

Lemma join_lines_closing first lines :
  Py.join newline (first :: lines ++ ["]"])
  = first +:+ newline +:+ lines_text lines +:+ "]".
Proof.
  revert first. induction lines as [|l lines IH]; intros first; [done|].
  change (Py.join newline (first :: (l :: lines) ++ ["]"]))
    with (first +:+ newline +:+ Py.join newline (l :: lines ++ ["]"])).
  rewrite IH. cbn [lines_text]. by rewrite !string_app_assoc.
Qed.

Lemma export_text lines :
  Py.join newline (python_head ++ lines ++ ["]"])
  = head_text +:+ lines_text lines +:+ "]".
Proof.
  unfold python_head.
  change (Py.join newline (_ ++ lines ++ ["]"]))
    with ("# Generated export from License Plate Tracker" +:+ newline +:+
          "# Copy the plates_data list into your seed_data.py file" +:+ newline +:+
          "" +:+ newline +:+
          Py.join newline ("plates_data = [" :: lines ++ ["]"])).
  rewrite join_lines_closing.
  rewrite <- !string_app_assoc. reflexivity.
Qed.

Lemma reads_head :
  reads Code head_text Code [TName "plates_data"; TAssign; TLBracket].
Proof.
  intros rest. unfold head_text. simpl.
  by destruct (run Code rest) as [[? ?]|].
Qed.

Lemma reads_lines (dicts : list (list (string * string))) :
  Forall (fun items => forallb plain_item items = true) dicts ->
  reads Code (lines_text (map format_dict dicts)) Code
    (concat (map dict_tokens dicts)).
Proof.
  induction 1 as [|items dicts Hitems _ IH]; [apply reads_nil|].
  cbn [map lines_text concat].
  apply (reads_app _ _ Code); [by apply reads_dict|].
  change (concat (map dict_tokens dicts))
    with ([] ++ concat (map dict_tokens dicts)).
  apply (reads_app _ _ Code); [|exact IH].
  intros rest. simpl. by destruct (run Code rest) as [[? ?]|].
Qed.

(** The tokens of the exported text *)
Lemma lex_export (dicts : list (list (string * string))) :
  Forall (fun items => forallb plain_item items = true) dicts ->
  lex (Py.join newline (python_head ++ map format_dict dicts ++ ["]"]))
  = Some ([TName "plates_data"; TAssign; TLBracket]
          ++ concat (map dict_tokens dicts) ++ [TRBracket]).
Proof.
  intros Hdicts. rewrite export_text. unfold lex.
  assert (Hrun : reads Code (head_text +:+ lines_text (map format_dict dicts) +:+ "]")
                   Code ([TName "plates_data"; TAssign; TLBracket]
                         ++ concat (map dict_tokens dicts) ++ [TRBracket])).
  { apply (reads_app _ _ Code); [apply reads_head|].
    apply (reads_app _ _ Code); [by apply reads_lines|].
    by apply reads_char. }
  rewrite (reads_run _ _ _ _ Hrun). cbn [finish]. by rewrite app_nil_r.
Qed.

Lemma parse_run_app st a b :
  parse_run st (a ++ b) =
  match parse_run st a with
  | Some st' => parse_run st' b
  | None => None
  end.
Proof.
  revert st. induction a as [|t a IH]; intros st; [done|].
  cbn [parse_run app]. destruct (parse_step st t); [apply IH | done].
Qed.

(** The entries of a dictionary display, read after the first key *)
Lemma parse_items items done cur :
  items <> [] ->
  parse_run (InDict done cur) (items_tokens items ++ [TRBrace; TComma])
  = Some (InList (done ++ [fold_left (fun m kv => <[fst kv := snd kv]> m)
                             items cur])).
Proof.
  revert cur. induction items as [|kv items IH]; intros cur Hne; [done|].
  destruct items as [|kv' items]; [done|].
  change (items_tokens (kv :: kv' :: items))
    with ([TString (fst kv); TColon; TString (snd kv); TComma]
          ++ items_tokens (kv' :: items)).
  rewrite <- app_assoc, parse_run_app. cbn [parse_run parse_step].
  by rewrite IH.
Qed.

Lemma parse_dicts (dicts : list (list (string * string))) done :
  Forall (fun items => items <> []) dicts ->
  parse_run (InList done) (concat (map dict_tokens dicts))
  = Some (InList (done ++ map Seed.py_dict dicts)).
Proof.
  intros Hdicts. revert done.
  induction Hdicts as [|items dicts Hne _ IH]; intros done.
  { cbn. by rewrite app_nil_r. }
  cbn [map concat]. rewrite parse_run_app. unfold dict_tokens at 1.
  cbn [app parse_run parse_step].
  rewrite parse_items by done. rewrite IH, <- app_assoc. reflexivity.
Qed.

(** The exported text is read back as the dictionaries that were written *)
Lemma read_export (dicts : list (list (string * string))) :
  Forall (fun items => forallb plain_item items = true) dicts ->
  Forall (fun items => items <> []) dicts ->
  read_plates_data (Py.join newline (python_head ++ map format_dict dicts ++ ["]"]))
  = Some (map Seed.py_dict dicts).
Proof.
  intros Hplain Hne. unfold read_plates_data. rewrite lex_export by done.
  unfold parse. cbn [app parse_run parse_step String.eqb Ascii.eqb Bool.eqb].
  rewrite parse_run_app, parse_dicts by done. reflexivity.
Qed.

End Reading.

(** ** The round trip through the seed loader *)

Section RoundTrip.
Import PyLiteral Seed.

Lemma plain_app a b : plain (a +:+ b) = plain a && plain b.
Proof.
  induction a as [|c a IH]; [done|].
  change (String c a +:+ b) with (String c (a +:+ b)). cbn [plain].
  by rewrite IH, andb_assoc.
Qed.

Lemma plain_digit k : 0 <= k <= 9 -> plain_char (digit k) = true.
Proof.
  intros Hk. apply (range_check (fun k => plain_char (digit k)) 0 10 eq_refl k).
  lia.
Qed.

Lemma plain_pad2 n : 0 <= n <= 99 -> plain (pad2 n) = true.
Proof.
  intros Hn. unfold pad2. cbn [plain].
  rewrite !plain_digit; [done | |];
    Z.to_euclidean_division_equations; lia.
Qed.

Lemma plain_pad4 n : 0 <= n <= 9999 -> plain (pad4 n) = true.
Proof.
  intros Hn. unfold pad4. cbn [plain].
  rewrite !plain_digit; [done | | | |];
    Z.to_euclidean_division_equations; lia.
Qed.

Lemma plain_strftime t : valid t = true -> plain (strftime t) = true.
Proof.
  intros Hv. pose proof (valid_bounds t Hv) as ((Hy & Hm & Hd) & Hh & Hmi & Hs & _).
  pose proof (days_in_month_bounds (year t) (month t)).
  unfold strftime. rewrite !plain_app.
  rewrite plain_pad4, !plain_pad2 by lia. reflexivity.
Qed.

Lemma exportable_items b s :
  exportable b s = true -> forallb plain_item (data_dict b s) = true.
Proof.
  unfold exportable. rewrite !andb_true_iff.
  intros ((((((((Ht & Hst) & Hpl) & Hmk) & Hmd) & Hcol) & Hloc) & Himg) & Hnotes).
  destruct (timestamp s) as [t|] eqn:Hts; [|done].
  apply andb_true_iff in Ht as [Hv _].
  pose proof (plain_strftime t Hv) as Htext.
  unfold data_dict, plain_item. rewrite Hts.
  cbn [forallb app fst snd Py.or_empty format_timestamp].
  destruct b; cbn [forallb app fst snd];
    rewrite ?Hst, ?Hpl, ?Hmk, ?Hmd, ?Hcol, ?Hloc, ?Himg, ?Hnotes, ?Htext;
    reflexivity.
Qed.

Lemma seed_sighting_exported b s i :
  exportable b s = true ->
  seed_sighting (py_dict (data_dict b s)) i = Ok (reloaded b i s).
Proof.
  unfold exportable. rewrite !andb_true_iff.
  intros ((((((((Ht & _) & _) & _) & _) & _) & _) & _) & _).
  destruct (timestamp s) as [t|] eqn:Hts; [|done].
  apply andb_true_iff in Ht as [Hv _].
  unfold seed_sighting, form_item, reloaded. rewrite Hts.
  assert (Hget : forall k v, py_dict (data_dict b s) !! k = v ->
                 py_dict (data_dict b s) !! k = v) by done.
  rewrite (Hget "state" (Some (state s))) by (destruct b; reflexivity).
  rewrite (Hget "plate" (Some (license_plate s))) by (destruct b; reflexivity).
  rewrite (Hget "make" (Some (car_make s))) by (destruct b; reflexivity).
  rewrite (Hget "model" (Some (car_model s))) by (destruct b; reflexivity).
  rewrite (Hget "color" (Some (color s))) by (destruct b; reflexivity).
  rewrite (Hget "location" (Some (Py.or_empty (location s))))
    by (destruct b; reflexivity).
  rewrite (Hget "timestamp" (Some (format_timestamp (timestamp s))))
    by (destruct b; reflexivity).
  rewrite (Hget "notes" (if b then Some (Py.or_empty (notes s)) else None))
    by (destruct b; reflexivity).
  rewrite Hts. cbn [bind format_timestamp]. unfold parse_time.
  rewrite strptime_strftime by done. reflexivity.
Qed.

Lemma seed_rows_exported b rows acc :
  forallb (exportable b) rows = true ->
  seed_rows (map (fun s => py_dict (data_dict b s)) rows) acc
  = Ok (reload_rows b rows acc).
Proof.
  revert acc. induction rows as [|r rows IH]; intros acc Hall; [done|].
  cbn [forallb] in Hall. apply andb_true_iff in Hall as [Hr Hall].
  cbn [map seed_rows reload_rows].
  rewrite seed_sighting_exported by done. cbn [bind]. by apply IH.
Qed.

Lemma reload_rows_app b rows acc :
  exists added,
    reload_rows b rows acc = acc ++ added /\
    Forall2 (fun r r' => r' = reloaded b (id r') r) rows added /\
    map vehicle added = map vehicle rows.
Proof.
  revert acc. induction rows as [|r rows IH]; intros acc.
  - exists []. cbn. by rewrite app_nil_r.
  - cbn [reload_rows].
    destruct (IH (acc ++ [reloaded b (next_id acc) r])) as (added & -> & Hall & Hmap).
    exists (reloaded b (next_id acc) r :: added).
    rewrite <- app_assoc. split; [done|]. split.
    + by constructor.
    + cbn [map]. by rewrite Hmap.
Qed.

(** C2, as the code has it: when every row has a timestamp that exists
    and every text written into the literal is plain, the list exported is
    read back, the loader commits one row for each row exported, in the
    order of the export, with the same state, plate, make, model and colour;
    the timestamp comes back cut to the second, the notes come back when
    [include_notes] holds (an absent note as the empty text) and are absent
    otherwise, the location comes back with the empty text for an absent one,
    and no row has an image. *)
Theorem export_then_seed_round_trip (args : gmap string string) (w : world) :
  let include_notes := include_notes_of args in
  forallb (exportable include_notes) (db w) = true ->
  exists w',
    reload args w = Some (Ok w') /\
    db w' = reload_rows include_notes (all_newest_first w) [] /\
    Forall2 (fun r r' => r' = reloaded include_notes (id r') r)
            (all_newest_first w) (db w') /\
    map vehicle (db w') ≡ₚ map vehicle (db w).
Proof.
  cbv zeta. intros Hall.
  set (b := include_notes_of args) in *.
  assert (Hsorted : forallb (exportable b) (all_newest_first w) = true).
  { rewrite forallb_forall in *. intros r Hr. apply Hall.
    apply list_elem_of_In. apply list_elem_of_In in Hr.
    unfold all_newest_first in Hr. by apply elem_of_order_by in Hr. }
  assert (Hread : read_plates_data (export_python args w)
                  = Some (map (fun s => py_dict (data_dict b s))
                              (all_newest_first w))).
  { unfold export_python. fold b. cbv zeta.
    rewrite <- (map_map (data_dict b) format_dict).
    rewrite read_export; [by rewrite map_map | |].
    - apply Forall_map, Forall_forall. intros r Hr. apply exportable_items.
      rewrite forallb_forall in Hsorted. by apply Hsorted, list_elem_of_In.
    - apply Forall_map, Forall_forall. intros r _. by destruct b. }
  unfold reload. rewrite Hread.
  unfold seed_database. rewrite seed_rows_exported by done. cbn [bind].
  eexists. split; [reflexivity|]. cbn [db set_db]. split; [reflexivity|].
  destruct (reload_rows_app b (all_newest_first w) []) as (added & -> & Hrel & Hmap).
  cbn [app]. split; [done|].
  rewrite Hmap. unfold all_newest_first, order_by.
  by rewrite merge_sort_Permutation.
Qed.

Lemma export_then_seed_round_trip_witness :
  exists w',
    reload ∅ world56 = Some (Ok w') /\
    db w' = reload_rows (include_notes_of ∅) (all_newest_first world56) [] /\
    Forall2 (fun r r' => r' = reloaded (include_notes_of ∅) (id r') r)
            (all_newest_first world56) (db w') /\
    map vehicle (db w') ≡ₚ map vehicle (db world56).
Proof. apply (export_then_seed_round_trip ∅ world56). reflexivity. Defined.

(** C2 as stated fails.  A row without a timestamp is exported with an
    empty timestamp text, on which the loader stops with [ValueError] and
    commits nothing; and a timestamp with microseconds comes back without
    them. *)
Lemma reload_fails_without_timestamp_and_drops_microseconds :
  reload ∅ world_no_time = Some (Raise ValueError) /\
  (exists w',
     reload ∅ world_micro = Some (Ok w') /\
     map timestamp (db world_micro)
       = [Some (mk_datetime 2025 10 8 18 45 0 250000)] /\
     map timestamp (db w') = [Some (mk_datetime 2025 10 8 18 45 0 0)]).
Proof.
  split; [vm_compute; reflexivity|].
  eexists. split; [vm_compute; reflexivity|]. split; reflexivity.
Qed.

(** A double quote in a field: the text exported is not read back at all *)
Example quote_in_a_field_is_not_read_back :
  reload ∅ world_quote = None.
Proof. vm_compute. reflexivity. Qed.

(** The loader run on the list of the script itself *)
Example seed_database_demo :
  exists w', seed_database plates_data empty_world = Ok w' /\
             length (db w') = 9%nat /\
             map id (db w') = [1; 2; 3; 4; 5; 6; 7; 8; 9].
Proof. eexists. split; [vm_compute; reflexivity|]. split; reflexivity. Qed.

End RoundTrip.

(** ** File names and configuration *)

Section Names.

Lemma contains_rsplit1 sep s :
  Py.contains sep s = true <-> exists a b, Py.rsplit1 sep s = Some (a, b).
Proof.
  induction s as [|c s IH]; cbn [Py.contains Py.rsplit1].
  - split; [done | by intros (a & b & ?)].
  - rewrite orb_true_iff, IH. split.
    + intros [Hc | (a & b & Hs)].
      * destruct (Py.rsplit1 sep s) as [[a b]|]; [by eexists _, _|].
        rewrite Hc. by eexists _, _.
      * rewrite Hs. by eexists _, _.
    + intros (a & b & Hs).
      destruct (Py.rsplit1 sep s) as [[a' b']|]; [right; by eexists _, _|].
      left. by destruct (Ascii.eqb c sep).
Qed.

Lemma rsplit1_none sep s :
  Py.contains sep s = false -> Py.rsplit1 sep s = None.
Proof.
  intros Hc. destruct (Py.rsplit1 sep s) as [[a b]|] eqn:Hs; [|done].
  assert (Py.contains sep s = true) by (apply contains_rsplit1; by eexists _, _).
  congruence.
Qed.

Lemma rsplit1_sound sep s a b :
  Py.rsplit1 sep s = Some (a, b) ->
  s = a +:+ String sep b /\ Py.contains sep b = false.
Proof.
  revert a. induction s as [|c s IH]; intros a; cbn [Py.rsplit1]; [done|].
  destruct (Py.rsplit1 sep s) as [[a' b']|] eqn:Hs.
  - intros [= <- <-]. destruct (IH a' eq_refl) as [-> Hb]. done.
  - destruct (Ascii.eqb_spec c sep) as [->|Hne]; [|done].
    intros [= <- <-]. split; [done|].
    destruct (Py.contains sep s) eqn:Hc; [|done].
    apply contains_rsplit1 in Hc as (? & ? & ?). congruence.
Qed.

Lemma rsplit1_complete sep a b :
  Py.contains sep b = false ->
  Py.rsplit1 sep (a +:+ String sep b) = Some (a, b).
Proof.
  intros Hb. induction a as [|x a IH].
  - cbn [String.append Py.rsplit1]. rewrite (rsplit1_none _ _ Hb).
    by rewrite Ascii.eqb_refl.
  - change (String x a +:+ String sep b) with (String x (a +:+ String sep b)).
    cbn [Py.rsplit1]. by rewrite IH.
Qed.

(** [rsplit] cuts at the last separator: the text after it holds none *)
Lemma rsplit1_spec sep s a b :
  Py.rsplit1 sep s = Some (a, b) <->
  s = a +:+ String sep b /\ Py.contains sep b = false.
Proof.
  split; [apply rsplit1_sound|]. intros [-> Hb]. by apply rsplit1_complete.
Qed.

Lemma allowed_extension_iff (ext : string) :
  ext ∈ ALLOWED_EXTENSIONS <-> ext ∈ ["png"; "jpg"; "jpeg"; "gif"; "webp"].
Proof.
  unfold ALLOWED_EXTENSIONS.
  rewrite !elem_of_union, !elem_of_singleton, !elem_of_cons, elem_of_nil.
  tauto.
Qed.

(** X1: a file name is allowed exactly when it has a dot and the text after
    its last dot is, in lower case, one of png, jpg, jpeg, gif, webp. *)
Theorem allowed_file_iff (name : string) :
  allowed_file name = true <->
  exists stem ext,
    name = stem +:+ "." +:+ ext /\ Py.contains "." ext = false /\
    Py.lower ext ∈ ["png"; "jpg"; "jpeg"; "gif"; "webp"].
Proof.
  unfold allowed_file. rewrite andb_true_iff. split.
  - intros [_ Hext].
    destruct (Py.rsplit1 "." name) as [[stem ext]|] eqn:Hs; [|done].
    apply rsplit1_spec in Hs as [-> Hdot].
    exists stem, ext. split; [done|]. split; [done|].
    apply bool_decide_eq_true in Hext. by apply allowed_extension_iff.
  - intros (stem & ext & -> & Hdot & Hext).
    assert (Hs : Py.rsplit1 "." (stem +:+ "." +:+ ext) = Some (stem, ext))
      by (by apply rsplit1_spec).
    split.
    + apply contains_rsplit1. by eexists _, _.
    + rewrite Hs. apply bool_decide_eq_true. by apply allowed_extension_iff.
Qed.

Lemma startswith_app prefix rest : PyText.startswith (prefix +:+ rest) prefix = true.
Proof.
  induction prefix as [|c p IH]; [done|].
  change (String c p +:+ rest) with (String c (p +:+ rest)).
  cbn [PyText.startswith]. by rewrite Ascii.eqb_refl, IH.
Qed.

Lemma drop_chars_app prefix rest :
  PyText.drop_chars (String.length prefix) (prefix +:+ rest) = rest.
Proof.
  induction prefix as [|c p IH]; [by destruct rest|].
  change (String c p +:+ rest) with (String c (p +:+ rest)).
  cbn [String.length PyText.drop_chars]. exact IH.
Qed.

Lemma replace_first_prefix old new rest :
  PyText.replace_first old new (old +:+ rest) = new +:+ rest.
Proof.
  destruct old as [|c old].
  - cbn [String.append]. destruct rest; reflexivity.
  - cbn [PyText.replace_first String.append].
    change (String c (old +:+ rest)) with (String c old +:+ rest).
    by rewrite startswith_app, drop_chars_app.
Qed.

Lemma startswith_iff s prefix :
  PyText.startswith s prefix = true <-> exists rest, s = prefix +:+ rest.
Proof.
  revert s. induction prefix as [|c p IH]; intros s; cbn [PyText.startswith].
  - split; [by exists s | done].
  - destruct s as [|d s].
    + split; [done | by intros [rest ?]].
    + rewrite andb_true_iff, IH. split.
      * intros [->%Ascii.eqb_eq [rest ->]]. by exists rest.
      * intros [rest [= -> ->]]. split; [apply Ascii.eqb_refl | by exists rest].
Qed.

(** X2: the database address.  An address that starts with [postgres://]
    is given the scheme [postgresql://] and keeps the rest; any other
    address that is not empty is kept as it is; without an address, or with
    the empty one, the SQLite file is used; and the result never starts with
    [postgres://]. *)
Theorem database_uri_scheme (database_url : option string) :
  (forall rest, database_url = Some ("postgres://" +:+ rest) ->
     database_uri database_url = "postgresql://" +:+ rest) /\
  (forall url, database_url = Some url -> url <> "" ->
     PyText.startswith url "postgres://" = false ->
     database_uri database_url = url) /\
  (database_url = None \/ database_url = Some "" ->
     database_uri database_url = "sqlite:///license_plates.db") /\
  PyText.startswith (database_uri database_url) "postgres://" = false.
Proof.
  assert (Hpg : forall rest, database_uri (Some ("postgres://" +:+ rest))
                             = "postgresql://" +:+ rest).
  { intros rest. unfold database_uri.
    cbn [Py.truthy_opt Py.or_empty].
    change (Py.truthy ("postgres://" +:+ rest)) with true. cbv iota.
    by rewrite startswith_app, replace_first_prefix. }
  split; [by intros rest ->|].
  split.
  { intros url -> Hne Hstart. unfold database_uri. cbn [Py.truthy_opt Py.or_empty].
    rewrite Hstart. destruct url; [done|reflexivity]. }
  split; [by intros [-> | ->]|].
  destruct database_url as [url|]; [|reflexivity].
  destruct (PyText.startswith url "postgres://") eqn:Hstart.
  - apply startswith_iff in Hstart as [rest ->]. rewrite Hpg. reflexivity.
  - unfold database_uri. cbn [Py.truthy_opt Py.or_empty]. rewrite Hstart.
    destruct url; [reflexivity | exact Hstart].
Qed.


End Names.

(** ** More on the sighting service *)

Section ServiceMore.

Lemma allowed_file_named name : allowed_file name = true -> Py.truthy name = true.
Proof. by destruct name. Qed.

Lemma valid_form_required form : valid_form form = true -> has_required form = true.
Proof. unfold valid_form. by intros [? _]%andb_true_iff. Qed.

(** The name under which the image of a sighting is stored *)
Lemma save_image_allowed (secure_filename : string -> string) file i w :
  allowed_file (filename file) = true ->
  save_image secure_filename file i w =
  (Some (stored_name secure_filename i file),
   log (FileSave (stored_name secure_filename i file))
     (set_uploads (<[stored_name secure_filename i file := content file]> (uploads w)) w)).
Proof.
  intros Hallowed. unfold save_image.
  by rewrite Hallowed, (allowed_file_named _ Hallowed).
Qed.

Lemma truthy_stored_name (secure_filename : string -> string) i file :
  Py.truthy (stored_name secure_filename i file) = true.
Proof. done. Qed.

Lemma commit_row_same r w : commit_row r r w = w.
Proof. unfold commit_row. by destruct (decide (r = r)). Qed.

(** X3: a create request with a valid form and an image of an allowed
    type adds one row, whose image is stored under
    [sighting_<id>_<secured name>] and is served back as it was sent; no
    other file of the upload directory changes. *)
Theorem create_stores_the_image (secure_filename : string -> string)
    (form : gmap string string) (files : gmap string upload) (now : datetime)
    (w : world) (file : upload) :
  valid_form form = true ->
  files !! "image" = Some file ->
  allowed_file (filename file) = true ->
  exists w' r,
    add_sighting secure_filename POST form files now w = (Redirect "index", w') /\
    db w' = db w ++ [r] /\
    id r = next_id (db w) /\
    image_filename r = Some (stored_name secure_filename (id r) file) /\
    stored_name secure_filename (id r) file
      = "sighting_" +:+ Py.str (id r) +:+ "_" +:+ secure_filename (filename file) /\
    uploads w' = <[stored_name secure_filename (id r) file := content file]> (uploads w) /\
    serve_image (stored_name secure_filename (id r) file) w' = Some (content file) /\
    flashes w' = flashes w ++ [(Text "Sighting added successfully!", "success")].
Proof.
  intros Hform Hfile Hallowed.
  destruct (has_required_items form (valid_form_required form Hform))
    as (st & plate & make & model & col & Hst & Hplate & Hmake & Hmodel & Hcol).
  destruct (valid_form_time form now Hform) as [t Ht].
  unfold add_sighting, add_sighting_try. fold (form_time form now).
  rewrite Ht. unfold form_item. rewrite Hst, Hplate, Hmake, Hmodel, Hcol.
  cbn [bind]. cbv zeta. rewrite Hfile, Hallowed, (allowed_file_named _ Hallowed).
  cbn [id]. rewrite save_image_allowed by done.
  cbn [Py.truthy_opt]. rewrite truthy_stored_name.
  set (s0 := mk_sighting _ _ _ _ _ _ _ _ _ None).
  set (name := stored_name secure_filename (next_id (db w)) file).
  unfold commit_row.
  destruct (decide (s0 = set_image s0 (Some name))) as [Heq|_]; [done|].
  eexists _, (set_image s0 (Some name)). split; [reflexivity|].
  cbn [db uploads flashes flash log set_db set_uploads set_image id image_filename].
  rewrite (update_row_new s0) by done.
  repeat split; try done.
  unfold serve_image. cbn [uploads]. apply lookup_insert_eq.
Qed.

Lemma create_stores_the_image_witness :
  exists w' r,
    add_sighting keep_name POST form_ca with_photo noon world56
      = (Redirect "index", w') /\
    db w' = db world56 ++ [r] /\
    id r = next_id (db world56) /\
    image_filename r = Some (stored_name keep_name (id r) photo) /\
    stored_name keep_name (id r) photo
      = "sighting_" +:+ Py.str (id r) +:+ "_" +:+ keep_name (filename photo) /\
    uploads w' = <[stored_name keep_name (id r) photo := content photo]> (uploads world56) /\
    serve_image (stored_name keep_name (id r) photo) w' = Some (content photo) /\
    flashes w' = flashes world56
                 ++ [(Text "Sighting added successfully!", "success")].
Proof.
  apply (create_stores_the_image keep_name form_ca with_photo noon world56 photo);
    reflexivity.
Defined.


(** X4: a create request with a valid form but without a usable image (no
    file field, a file without a name, or a name of a type that is not
    allowed) adds the row without an image and writes no file; only the
    type that is not allowed is reported, as a warning before the success
    message. *)
Theorem create_without_usable_image (secure_filename : string -> string)
    (form : gmap string string) (files : gmap string upload) (now : datetime)
    (w : world) :
  valid_form form = true ->
  match files !! "image" with
  | Some file => allowed_file (filename file) = false
  | None => True
  end ->
  exists w' r,
    add_sighting secure_filename POST form files now w = (Redirect "index", w') /\
    db w' = db w ++ [r] /\ image_filename r = None /\
    uploads w' = uploads w /\
    trace w' = trace w ++ [RowInsert (id r)] /\
    flashes w' =
      flashes w ++
      match files !! "image" with
      | Some file =>
          if Py.truthy (filename file)
          then [(invalid_type_warning, "warning")]
          else []
      | None => []
      end ++ [(Text "Sighting added successfully!", "success")].
Proof.
  intros Hform Hfile.
  destruct (has_required_items form (valid_form_required form Hform))
    as (st & plate & make & model & col & Hst & Hplate & Hmake & Hmodel & Hcol).
  destruct (valid_form_time form now Hform) as [t Ht].
  unfold add_sighting, add_sighting_try. fold (form_time form now).
  rewrite Ht. unfold form_item. rewrite Hst, Hplate, Hmake, Hmodel, Hcol.
  cbn [bind]. cbv zeta.
  destruct (files !! "image") as [file|].
  - rewrite Hfile. destruct (Py.truthy (filename file));
      rewrite commit_row_same; eexists _, _; (split; [reflexivity|]);
      cbn [db uploads flashes trace flash log set_db set_uploads id image_filename];
      rewrite <- ?app_assoc; done.
  - rewrite commit_row_same. eexists _, _. split; [reflexivity|].
    cbn [db uploads flashes trace flash log set_db set_uploads id image_filename].
    done.
Qed.

Lemma create_without_usable_image_witness :
  exists w' r,
    add_sighting keep_name POST form_ca with_notes_file noon world56
      = (Redirect "index", w') /\
    db w' = db world56 ++ [r] /\ image_filename r = None /\
    uploads w' = uploads world56 /\
    trace w' = trace world56 ++ [RowInsert (id r)] /\
    flashes w' =
      flashes world56 ++
      match with_notes_file !! "image" with
      | Some file =>
          if Py.truthy (filename file)
          then [(invalid_type_warning, "warning")]
          else []
      | None => []
      end ++ [(Text "Sighting added successfully!", "success")].
Proof.
  apply (create_without_usable_image keep_name form_ca with_notes_file noon
           world56); reflexivity.
Defined.

(** The text a date-time input sends for a minute of a day *)
Lemma strptime_form_time y m d h mi :
  valid_date y m d = true -> 0 <= h <= 23 -> 0 <= mi <= 59 ->
  strptime (form_time_text y m d h mi) fmt_form = Some (mk_datetime y m d h mi 0 0).
Proof.
  intros Hv Hh Hmi. pose proof (valid_date_bounds y m d Hv) as (Hy & Hm & Hd).
  pose proof (days_in_month_bounds y m).
  assert (Htext : form_time_text y m d h mi
                  = pad4 y +:+ String "-" (pad2 m +:+ String "-" (pad2 d +:+
                    String "T" (pad2 h +:+ String ":" (pad2 mi +:+ ""))))).
  { unfold form_time_text, iso_date. rewrite string_app_nil_r.
    rewrite !string_app_assoc. reflexivity. }
  rewrite Htext.
  unfold strptime, fmt_form, match_format, parse_num.
  rewrite parse_Y_pad4 by lia. cbv beta iota. rewrite parse_lit_same.
  rewrite parse_m_pad2 by lia. cbv beta iota. rewrite parse_lit_same.
  rewrite parse_d_pad2 by lia. cbv beta iota. rewrite parse_lit_same.
  rewrite parse_H_pad2 by lia. cbv beta iota. rewrite parse_lit_same.
  rewrite parse_M_pad2 by lia. cbv beta iota.
  cbn [String.eqb set_field year month day hour minute second microsecond epoch].
  assert (Hvalid : valid (mk_datetime y m d h mi 0 0) = true).
  { unfold valid, valid_time. cbn [year month day hour minute second microsecond].
    rewrite Hv. rewrite !andb_true_iff, !Z.leb_le. lia. }
  by rewrite Hvalid.
Qed.

(** X5: the date and time of the form are stored as they were entered: a
    form whose date-time field is [YYYY-MM-DDTHH:MM] for a minute that exists
    gives the new row that minute as its timestamp, with no seconds. *)
Theorem create_stores_the_time_of_the_form (secure_filename : string -> string)
    (form : gmap string string) (files : gmap string upload) (now : datetime)
    (w : world) (y m d h mi : Z) :
  has_required form = true ->
  form !! "sighting_time" = Some (form_time_text y m d h mi) ->
  valid_date y m d = true -> 0 <= h <= 23 -> 0 <= mi <= 59 ->
  exists w' r,
    add_sighting secure_filename POST form files now w = (Redirect "index", w') /\
    db w' = db w ++ [r] /\
    timestamp r = Some (mk_datetime y m d h mi 0 0).
Proof.
  intros Hreq Htime Hv Hh Hmi.
  destruct (has_required_items form Hreq)
    as (st & plate & make & model & col & Hst & Hplate & Hmake & Hmodel & Hcol).
  assert (Ht : form_time form now = Ok (mk_datetime y m d h mi 0 0)).
  { unfold form_time, parse_time. rewrite Htime.
    cbn [Py.truthy_opt Py.or_empty].
    rewrite strptime_form_time by done. reflexivity. }
  destruct (add_sighting_try_ok secure_filename form files now w _
              st plate make model col Ht Hst Hplate Hmake Hmodel Hcol)
    as (w' & img & added & Hrun & Hdb & _).
  exists w', (created_row form (db w) st plate make model col
                (mk_datetime y m d h mi 0 0) img).
  unfold add_sighting. by rewrite Hrun.
Qed.

Lemma create_stores_the_time_of_the_form_witness :
  exists w' r,
    add_sighting keep_name POST form_evening ∅ noon world56 = (Redirect "index", w') /\
    db w' = db world56 ++ [r] /\
    timestamp r = Some (mk_datetime 2025 10 9 22 30 0 0).
Proof.
  apply (create_stores_the_time_of_the_form keep_name form_evening ∅ noon world56
           2025 10 9 22 30); first [ reflexivity | lia ].
Defined.


Lemma form_time_total form now :
  time_unparseable form = false -> exists t, form_time form now = Ok t.
Proof.
  unfold time_unparseable, form_time, parse_time.
  destruct (form !! "sighting_time") as [s|]; [|by eexists].
  destruct s as [|c s]; [by eexists|]. cbn [Py.truthy_opt Py.or_empty].
  change (Py.truthy (String c s)) with true. cbn [String.eqb negb andb].
  destruct (strptime (String c s) fmt_form); [by eexists | done].
Qed.

Lemma form_time_edit_total form old :
  time_unparseable form = false -> exists t, form_time_edit form old = Ok t.
Proof.
  unfold time_unparseable, form_time_edit, parse_time.
  destruct (form !! "sighting_time") as [s|]; [|by eexists].
  destruct s as [|c s]; [by eexists|]. cbn [Py.truthy_opt Py.or_empty].
  change (Py.truthy (String c s)) with true. cbn [String.eqb negb andb].
  destruct (strptime (String c s) fmt_form); [by eexists | done].
Qed.

(** X6: a form that lacks a required field is refused with the [KeyError]
    of the first field missing, in the order state, licence plate, make,
    model, colour: the create request and the update request of an existing
    sighting show the form again and change neither the table nor the
    upload directory, whatever file comes with the form. *)
Theorem missing_field_is_refused (secure_filename : string -> string)
    (form : gmap string string) (files : gmap string upload) (now : datetime)
    (w : world) (k : string) (i : Z) (old : Sighting) :
  time_unparseable form = false ->
  List.find (fun k => negb (has_field form k)) required_fields = Some k ->
  get_sighting i (db w) = Some old ->
  add_sighting secure_filename POST form files now w
    = (Render "add_sighting.html", flash (ErrorAdding (KeyError k)) "error" w) /\
  edit_sighting secure_filename POST i form files w
    = (Render "edit_sighting.html", flash (ErrorUpdating (KeyError k)) "error" w).
Proof.
  intros Htime Hfind Hget.
  destruct (form_time_total form now Htime) as [t Ht].
  destruct (form_time_edit_total form old Htime) as [t' Ht'].
  unfold add_sighting, add_sighting_try, edit_sighting, edit_sighting_try.
  rewrite Hget. fold (form_time form now). fold (form_time_edit form old).
  rewrite Ht, Ht'. unfold form_item. cbn [bind].
  revert Hfind. unfold required_fields, has_field. cbn [List.find].
  destruct (form !! "state"); cbn [negb bind]; [|by intros [= <-]].
  destruct (form !! "license_plate"); cbn [negb bind]; [|by intros [= <-]].
  destruct (form !! "car_make"); cbn [negb bind]; [|by intros [= <-]].
  destruct (form !! "car_model"); cbn [negb bind]; [|by intros [= <-]].
  destruct (form !! "color"); cbn [negb bind]; [done | by intros [= <-]].
Qed.

Lemma missing_field_is_refused_witness :
  add_sighting keep_name POST form_no_make with_photo noon world56
    = (Render "add_sighting.html",
       flash (ErrorAdding (KeyError "car_make")) "error" world56) /\
  edit_sighting keep_name POST 5 form_no_make with_photo world56
    = (Render "edit_sighting.html",
       flash (ErrorUpdating (KeyError "car_make")) "error" world56).
Proof.
  apply (missing_field_is_refused keep_name form_no_make with_photo noon world56
           "car_make" 5 row5); reflexivity.
Defined.


(** What a create request does to the table and to the upload directory *)
Lemma add_sighting_shape (secure_filename : string -> string) m form files now w :
  (db (snd (add_sighting secure_filename m form files now w)) = db w /\
   uploads (snd (add_sighting secure_filename m form files now w)) = uploads w) \/
  exists r,
    db (snd (add_sighting secure_filename m form files now w)) = db w ++ [r] /\
    id r = next_id (db w) /\
    ((image_filename r = None /\
      uploads (snd (add_sighting secure_filename m form files now w)) = uploads w) \/
     exists name data,
       image_filename r = Some name /\
       uploads (snd (add_sighting secure_filename m form files now w))
         = <[name := data]> (uploads w)).
Proof.
  unfold add_sighting. destruct m; [by left|].
  unfold add_sighting_try. fold (form_time form now).
  destruct (form_time form now) as [t|]; [|by left].
  unfold form_item.
  destruct (form !! "state") as [st|]; [|by left].
  destruct (form !! "license_plate") as [plate|]; [|by left].
  destruct (form !! "car_make") as [make|]; [|by left].
  destruct (form !! "car_model") as [model|]; [|by left].
  destruct (form !! "color") as [col|]; [|by left].
  cbn [bind]. cbv zeta.
  set (s0 := mk_sighting _ _ _ _ _ _ _ _ _ None).
  right.
  destruct (files !! "image") as [file|]; cycle 1.
  { exists s0. rewrite commit_row_same. cbn. split; [done|]. split; [done|].
    by left. }
  destruct (Py.truthy (filename file)) eqn:Hname; cycle 1.
  { exists s0. rewrite commit_row_same. cbn. split; [done|]. split; [done|].
    by left. }
  destruct (allowed_file (filename file)) eqn:Hallowed; cycle 1.
  { exists s0. rewrite commit_row_same. cbn. split; [done|]. split; [done|].
    by left. }
  cbn [id]. rewrite save_image_allowed by done.
  cbn [Py.truthy_opt]. rewrite truthy_stored_name.
  unfold commit_row.
  match goal with
  | |- context [decide (?a = ?b)] => destruct (decide (a = b)) as [Heq|_]; [done|]
  end.
  eexists (set_image s0 (Some _)).
  cbn [snd db uploads flash log set_db set_uploads set_image id image_filename].
  rewrite (update_row_new s0) by done.
  split; [reflexivity|]. split; [done|]. right. by eexists _, (content file).
Qed.

Lemma map_id_update_row (r : Sighting) rows :
  map id (update_row r rows) = map id rows.
Proof.
  unfold update_row. induction rows as [|x rows IH]; [done|].
  cbn [map]. rewrite IH. f_equal.
  destruct (Z.eqb_spec (id x) (id r)); congruence.
Qed.

Lemma length_update_row (r : Sighting) rows :
  length (update_row r rows) = length rows.
Proof. unfold update_row. apply length_map. Qed.

Lemma get_sighting_update_other (r : Sighting) rows j :
  j <> id r -> get_sighting j (update_row r rows) = get_sighting j rows.
Proof.
  intros Hj. unfold update_row. induction rows as [|x rows IH]; [done|].
  cbn [map get_sighting].
  destruct (Z.eqb_spec (id x) (id r)) as [Hx|Hx].
  - destruct (Z.eqb_spec (id r) j); [congruence|].
    destruct (Z.eqb_spec (id x) j); [congruence | exact IH].
  - destruct (Z.eqb_spec (id x) j); [done | exact IH].
Qed.

(** The row an update request leaves and the table around it *)
Lemma edit_sighting_try_rows (secure_filename : string -> string)
    old form files w t st plate make model col :
  form_time_edit form old = Ok t ->
  form !! "state" = Some st -> form !! "license_plate" = Some plate ->
  form !! "car_make" = Some make -> form !! "car_model" = Some model ->
  form !! "color" = Some col ->
  exists w' img,
    edit_sighting_try secure_filename old form files w = Ok w' /\
    ((db w' = db w /\
      old = mk_sighting (id old) (Py.upper st) (Py.upper plate) make model col
              (form !! "location") t (form !! "notes") img) \/
     db w' = update_row
               (mk_sighting (id old) (Py.upper st) (Py.upper plate) make model col
                  (form !! "location") t (form !! "notes") img) (db w)).
Proof.
  intros Ht Hst Hplate Hmake Hmodel Hcol.
  unfold edit_sighting_try. fold (form_time_edit form old).
  rewrite Ht. unfold form_item. rewrite Hst, Hplate, Hmake, Hmodel, Hcol.
  simpl bind. cbv zeta.
  unfold save_image, delete_image, commit_row.
  repeat match goal with
  | |- context [bool_decide ?P] => destruct (bool_decide P)
  | |- context [files !! ?k] => destruct (files !! k) as [file|]
  | |- context [Py.truthy_opt (image_filename old)] =>
      let H := fresh in
      destruct (image_filename old) as [f|] eqn:H; simpl Py.truthy_opt;
      simpl Py.or_empty
  | |- context [Py.truthy ?n] =>
      let H := fresh in destruct (Py.truthy n) eqn:H; simpl
  | |- context [allowed_file ?n] =>
      let H := fresh in destruct (allowed_file n) eqn:H; simpl
  | |- context [uploads ?w !! ?k] =>
      let H := fresh in destruct (uploads w !! k) eqn:H; simpl
  | |- context [decide (?a = ?b)] =>
      let H := fresh "Hsame" in destruct (decide (a = b)) as [H|?]
  end;
  try (exfalso; congruence);
  (eexists _, _; split; [reflexivity|]; simpl;
   first [ by right | left; split; [done|]; simpl in *; eassumption ]).
Qed.

Lemma edit_sighting_ids (secure_filename : string -> string) m i form files w :
  map id (db (snd (edit_sighting secure_filename m i form files w)))
  = map id (db w) /\
  length (db (snd (edit_sighting secure_filename m i form files w)))
  = length (db w) /\
  forall j, j <> i ->
    get_sighting j (db (snd (edit_sighting secure_filename m i form files w)))
    = get_sighting j (db w).
Proof.
  unfold edit_sighting.
  destruct (get_sighting i (db w)) as [old|] eqn:Hget; [|done].
  destruct m; [done|].
  destruct (edit_sighting_try secure_filename old form files w) as [w'|e] eqn:Hrun;
    [|done].
  revert Hrun. unfold edit_sighting_try. fold (form_time_edit form old).
  destruct (form_time_edit form old) as [t|] eqn:Ht; [|done].
  unfold form_item.
  destruct (form !! "state") as [st|] eqn:Hst; [|done].
  destruct (form !! "license_plate") as [plate|] eqn:Hplate; [|done].
  destruct (form !! "car_make") as [make|] eqn:Hmake; [|done].
  destruct (form !! "car_model") as [model|] eqn:Hmodel; [|done].
  destruct (form !! "color") as [col|] eqn:Hcol; [|done].
  intros Hrun.
  destruct (edit_sighting_try_rows secure_filename old form files w t
              st plate make model col Ht Hst Hplate Hmake Hmodel Hcol)
    as (w'' & img & Hrun' & Hdb).
  unfold edit_sighting_try, form_item in Hrun'.
  fold (form_time_edit form old) in Hrun'.
  rewrite Ht, Hst, Hplate, Hmake, Hmodel, Hcol in Hrun'.
  rewrite Hrun in Hrun'. injection Hrun' as <-.
  pose proof (get_sighting_id _ _ _ Hget) as Hid.
  cbn [snd]. destruct Hdb as [[-> _] | ->]; [done|].
  split; [apply map_id_update_row|]. split; [apply length_update_row|].
  intros j Hj. apply get_sighting_update_other. cbn [id]. congruence.
Qed.

Lemma map_id_delete_row i rows :
  map id (delete_row i rows) = List.filter (fun j => negb (j =? i)) (map id rows).
Proof.
  unfold delete_row. induction rows as [|x rows IH]; [done|].
  cbn [List.filter map]. destruct (id x =? i); cbn [negb map]; by rewrite IH.
Qed.

(** X7: the keys of the table stay distinct.  Whatever the request, a
    table with distinct keys has distinct keys after a create, an update or
    a delete request; a create request that adds a row gives it a key larger
    than every key present, and an update request keeps every key in its
    place. *)
Theorem keys_stay_distinct (secure_filename : string -> string) (m : method)
    (i : Z) (form : gmap string string) (files : gmap string upload)
    (now : datetime) (w : world) :
  NoDup (map id (db w)) ->
  NoDup (map id (db (snd (add_sighting secure_filename m form files now w)))) /\
  NoDup (map id (db (snd (edit_sighting secure_filename m i form files w)))) /\
  NoDup (map id (db (snd (delete_sighting i w)))) /\
  (forall r,
     r ∈ db (snd (add_sighting secure_filename m form files now w)) ->
     r ∈ db w \/ Forall (fun x => id x < id r) (db w)) /\
  map id (db (snd (edit_sighting secure_filename m i form files w)))
    = map id (db w).
Proof.
  intros Hnodup.
  pose proof (next_id_above (db w)) as Hfresh.
  split; [|split; [|split; [|split]]].
  - destruct (add_sighting_shape secure_filename m form files now w)
      as [[-> _] | (r & -> & Hid & _)]; [done|].
    rewrite map_app. cbn [map]. apply NoDup_app. split; [done|].
    split; [|apply NoDup_singleton].
    intros j Hj Hj'. apply list_elem_of_singleton in Hj'. subst j.
    apply list_elem_of_fmap in Hj as (x & Hx & Hin).
    rewrite Forall_forall in Hfresh. specialize (Hfresh x Hin). lia.
  - by rewrite (proj1 (edit_sighting_ids secure_filename m i form files w)).
  - unfold delete_sighting.
    destruct (get_sighting i (db w)) as [r|]; [|done].
    cbn [snd db flash log set_db].
    assert (Hdb : db (if Py.truthy_opt (image_filename r)
                      then snd (delete_image (image_filename r) w) else w) = db w).
    { destruct (Py.truthy_opt (image_filename r)); [apply delete_image_db | done]. }
    rewrite Hdb, map_id_delete_row.
    apply NoDup_ListNoDup, List.NoDup_filter, NoDup_ListNoDup, Hnodup.
  - intros r.
    destruct (add_sighting_shape secure_filename m form files now w)
      as [[-> _] | (r' & -> & Hid & _)]; [by left|].
    rewrite elem_of_app, list_elem_of_singleton. intros [Hr | ->]; [by left|].
    right. by rewrite Hid.
  - apply edit_sighting_ids.
Qed.

Lemma keys_stay_distinct_witness :
  NoDup (map id (db (snd (add_sighting keep_name POST form_ca with_photo noon world56)))) /\
  NoDup (map id (db (snd (edit_sighting keep_name POST 5 form_ca with_photo world56)))) /\
  NoDup (map id (db (snd (delete_sighting 5 world56)))) /\
  (forall r,
     r ∈ db (snd (add_sighting keep_name POST form_ca with_photo noon world56)) ->
     r ∈ db world56 \/ Forall (fun x => id x < id r) (db world56)) /\
  map id (db (snd (edit_sighting keep_name POST 5 form_ca with_photo world56)))
    = map id (db world56).
Proof.
  apply (keys_stay_distinct keep_name POST 5 form_ca with_photo noon world56).
  cbn. apply NoDup_cons. split; [|apply NoDup_singleton].
  rewrite list_elem_of_singleton. discriminate.
Defined.


Lemma form_time_edit_missing form old :
  time_missing form = true -> form_time_edit form old = Ok (timestamp old).
Proof.
  unfold time_missing, form_time_edit.
  destruct (form !! "sighting_time") as [s|]; [|done].
  by intros ->%String.eqb_eq.
Qed.

(** X8: an update request with a valid form overwrites the fields of the
    one row with the values of the form, an optional field that the form
    lacks becoming null, keeps the key and, when the form has no date-time,
    the timestamp; the table keeps its size and every row under another key
    is fetched as before. *)
Theorem update_overwrites_one_row (secure_filename : string -> string)
    (form : gmap string string) (files : gmap string upload) (w : world)
    (i : Z) (old : Sighting) :
  valid_form form = true ->
  get_sighting i (db w) = Some old ->
  exists w' r,
    edit_sighting secure_filename POST i form files w = (Redirect "index", w') /\
    get_sighting i (db w') = Some r /\ id r = i /\
    form !! "car_make" = Some (car_make r) /\
    form !! "car_model" = Some (car_model r) /\
    form !! "color" = Some (color r) /\
    location r = form !! "location" /\ notes r = form !! "notes" /\
    (time_missing form = true -> timestamp r = timestamp old) /\
    length (db w') = length (db w) /\
    (forall j, j <> i -> get_sighting j (db w') = get_sighting j (db w)).
Proof.
  intros Hform Hget.
  destruct (has_required_items form (valid_form_required form Hform))
    as (st & plate & make & model & col & Hst & Hplate & Hmake & Hmodel & Hcol).
  destruct (form_time_edit_valid form old Hform) as [t Ht].
  pose proof (get_sighting_id _ _ _ Hget) as Hid. subst i.
  destruct (edit_sighting_try_ok secure_filename old form files w t
              st plate make model col Ht Hst Hplate Hmake Hmodel Hcol Hget)
    as (w' & img & added & Hrun & Hrow & _).
  pose proof (edit_sighting_ids secure_filename POST (id old) form files w)
    as (_ & Hlen & Hother).
  unfold edit_sighting in *. rewrite Hget, Hrun in *. cbn [snd] in *.
  eexists w', _. split; [done|]. split; [exact Hrow|].
  cbn [id car_make car_model color location notes timestamp].
  repeat split; try done.
  intros Hmissing. rewrite (form_time_edit_missing form old Hmissing) in Ht.
  congruence.
Qed.

Lemma update_overwrites_one_row_witness :
  exists w' r,
    edit_sighting keep_name POST 5 form_ca ∅ world56 = (Redirect "index", w') /\
    get_sighting 5 (db w') = Some r /\ id r = 5 /\
    form_ca !! "car_make" = Some (car_make r) /\
    form_ca !! "car_model" = Some (car_model r) /\
    form_ca !! "color" = Some (color r) /\
    location r = form_ca !! "location" /\ notes r = form_ca !! "notes" /\
    (time_missing form_ca = true -> timestamp r = timestamp row5) /\
    length (db w') = length (db world56) /\
    (forall j, j <> 5 -> get_sighting j (db w') = get_sighting j (db world56)).
Proof.
  apply (update_overwrites_one_row keep_name form_ca ∅ world56 5 row5);
    reflexivity.
Defined.

(** The upload directory after the image of a row, if any, was deleted *)
Lemma maybe_delete_image f (w : world) :
  uploads w !! "" = None ->
  uploads (if Py.truthy_opt (Some f) then snd (delete_image (Some f) w) else w)
    = delete f (uploads w) /\
  db (if Py.truthy_opt (Some f) then snd (delete_image (Some f) w) else w) = db w /\
  flashes (if Py.truthy_opt (Some f) then snd (delete_image (Some f) w) else w)
    = flashes w.
Proof.
  intros Hempty. destruct f as [|c f].
  - cbn. by rewrite delete_id.
  - cbn [Py.truthy_opt]. change (Py.truthy (String c f)) with true. cbv iota.
    split; [by apply delete_image_uploads|].
    unfold delete_image. cbn [Py.truthy_opt Py.or_empty].
    change (Py.truthy (String c f)) with true. cbv iota.
    by destruct (uploads w !! String c f).
Qed.

(** X9: an update request that asks to remove the image and brings no new
    file leaves the row without an image, and the upload directory without
    the file the row named. *)
Theorem update_removes_the_image (secure_filename : string -> string)
    (form : gmap string string) (files : gmap string upload) (w : world)
    (i : Z) (old : Sighting) (f : string) :
  valid_form form = true ->
  form !! "remove_image" = Some "true" ->
  files !! "image" = None ->
  get_sighting i (db w) = Some old ->
  image_filename old = Some f ->
  f <> "" ->
  exists w' r,
    edit_sighting secure_filename POST i form files w = (Redirect "index", w') /\
    get_sighting i (db w') = Some r /\ image_filename r = None /\
    uploads w' = delete f (uploads w) /\
    serve_image f w' = None.
Proof.
  intros Hform Hflag Hfile Hget Himg Hf.
  destruct (has_required_items form (valid_form_required form Hform))
    as (st & plate & make & model & col & Hst & Hplate & Hmake & Hmodel & Hcol).
  destruct (form_time_edit_valid form old Hform) as [t Ht].
  pose proof (get_sighting_id _ _ _ Hget) as Hid. subst i.
  unfold edit_sighting, edit_sighting_try. rewrite Hget.
  fold (form_time_edit form old). rewrite Ht.
  unfold form_item. rewrite Hst, Hplate, Hmake, Hmodel, Hcol.
  cbn [bind]. cbv zeta. rewrite Hflag, Hfile, Himg.
  rewrite bool_decide_eq_true_2 by done.
  cbn [image_filename Py.truthy_opt].
  assert (Htruthy : Py.truthy f = true) by (by destruct f).
  rewrite Htruthy.
  assert (Hdel : uploads (snd (delete_image (Some f) w)) = delete f (uploads w)
                 /\ db (snd (delete_image (Some f) w)) = db w).
  { unfold delete_image. cbn [Py.truthy_opt Py.or_empty]. rewrite Htruthy.
    destruct (uploads w !! f) eqn:Hup; cbn; [done|]. by rewrite delete_id. }
  destruct Hdel as [Hup Hdb].
  set (w1 := snd (delete_image (Some f) w)) in *. clearbody w1.
  set (r := set_image _ None).
  unfold commit_row.
  destruct (decide (old = r)) as [Heq|_].
  { exfalso. rewrite Heq in Himg. discriminate Himg. }
  exists (flash (Text "Sighting updated successfully!") "success"
            (log (RowUpdate (id r)) (set_db (update_row r (db w1)) w1))), r.
  split; [reflexivity|].
  cbn [db uploads flash log set_db].
  split; [rewrite Hdb; by eapply get_sighting_update|].
  split; [done|]. split; [exact Hup|].
  unfold serve_image. cbn [uploads flash log set_db]. rewrite Hup.
  apply lookup_delete_eq.
Qed.

Lemma update_removes_the_image_witness :
  exists w' r,
    edit_sighting keep_name POST 5 form_remove ∅ world56 = (Redirect "index", w') /\
    get_sighting 5 (db w') = Some r /\ image_filename r = None /\
    uploads w' = delete "sighting_5_photo.jpg" (uploads world56) /\
    serve_image "sighting_5_photo.jpg" w' = None.
Proof.
  apply (update_removes_the_image keep_name form_remove ∅ world56 5 row5
           "sighting_5_photo.jpg"); first [ reflexivity | discriminate ].
Defined.

(** X10: an update request that brings an image of an allowed type
    replaces the image of the row, whether or not the form asks to remove the
    old one: the file the row named is deleted, the new file is stored under
    the name built from the key of the row, and the row names it. *)
Theorem update_replaces_the_image (secure_filename : string -> string)
    (form : gmap string string) (files : gmap string upload) (w : world)
    (i : Z) (old : Sighting) (f : string) (file : upload) :
  valid_form form = true ->
  files !! "image" = Some file ->
  allowed_file (filename file) = true ->
  get_sighting i (db w) = Some old ->
  image_filename old = Some f ->
  uploads w !! "" = None ->
  exists w' r,
    edit_sighting secure_filename POST i form files w = (Redirect "index", w') /\
    get_sighting i (db w') = Some r /\
    image_filename r = Some (stored_name secure_filename i file) /\
    uploads w' = <[stored_name secure_filename i file := content file]>
                   (delete f (uploads w)) /\
    serve_image (stored_name secure_filename i file) w' = Some (content file).
Proof.
  intros Hform Hfile Hallowed Hget Himg Hempty.
  destruct (has_required_items form (valid_form_required form Hform))
    as (st & plate & make & model & col & Hst & Hplate & Hmake & Hmodel & Hcol).
  destruct (form_time_edit_valid form old Hform) as [t Ht].
  pose proof (get_sighting_id _ _ _ Hget) as Hid. subst i.
  destruct (maybe_delete_image f w Hempty) as (Hup & Hdb & _).
  unfold edit_sighting, edit_sighting_try. rewrite Hget.
  fold (form_time_edit form old). rewrite Ht.
  unfold form_item. rewrite Hst, Hplate, Hmake, Hmodel, Hcol.
  cbn [bind]. cbv zeta. rewrite Hfile, Himg, Hallowed.
  rewrite (allowed_file_named _ Hallowed).
  cbn [image_filename].
  set (s1 := mk_sighting _ _ _ _ _ _ _ _ _ (Some f)).
  set (wd := if Py.truthy_opt (Some f) then snd (delete_image (Some f) w) else w)
    in *.
  assert (Hstate : exists s2 w1,
            (if bool_decide (form !! "remove_image" = Some "true")
             then if Py.truthy_opt (Some f)
                  then (set_image s1 None, snd (delete_image (Some f) w))
                  else (s1, w)
             else (s1, w)) = (s2, w1) /\
            id s2 = id old /\
            (if Py.truthy_opt (image_filename s2)
             then snd (delete_image (image_filename s2) w1) else w1) = wd /\
            set_image s2 (Some (stored_name secure_filename (id old) file))
            = set_image s1 (Some (stored_name secure_filename (id old) file))).
  { subst wd. destruct (bool_decide (form !! "remove_image" = Some "true")).
    - destruct (Py.truthy_opt (Some f)) eqn:Hf.
      + eexists _, _. split; [reflexivity|]. cbn [set_image image_filename id].
        done.
      + eexists _, _. split; [reflexivity|]. cbn [image_filename id s1].
        by rewrite Hf.
    - eexists _, _. split; [reflexivity|]. done. }
  destruct Hstate as (s2 & w1 & -> & Hid2 & Hwd & Hset).
  rewrite Hid2, Hwd, save_image_allowed by done.
  cbn [Py.truthy_opt]. rewrite truthy_stored_name, Hset.
  set (name := stored_name secure_filename (id old) file).
  set (r := set_image s1 (Some name)).
  unfold commit_row.
  destruct (decide (old = r)) as [Heq|Hne].
  - eexists _, r. split; [reflexivity|].
    cbn [db uploads flash log set_db set_uploads]. rewrite Hdb, Hup.
    split; [by rewrite Hget, Heq|]. split; [done|]. split; [done|].
    unfold serve_image. cbn [uploads]. apply lookup_insert_eq.
  - eexists _, r. split; [reflexivity|].
    cbn [db uploads flash log set_db set_uploads]. rewrite Hdb, Hup.
    split; [by eapply get_sighting_update|]. split; [done|]. split; [done|].
    unfold serve_image. cbn [uploads]. apply lookup_insert_eq.
Qed.

Lemma update_replaces_the_image_witness :
  exists w' r,
    edit_sighting keep_name POST 5 form_ca with_new_photo world56
      = (Redirect "index", w') /\
    get_sighting 5 (db w') = Some r /\
    image_filename r = Some (stored_name keep_name 5 new_photo) /\
    uploads w' = <[stored_name keep_name 5 new_photo := content new_photo]>
                   (delete "sighting_5_photo.jpg" (uploads world56)) /\
    serve_image (stored_name keep_name 5 new_photo) w' = Some (content new_photo).
Proof.
  apply (update_replaces_the_image keep_name form_ca with_new_photo world56 5
           row5 "sighting_5_photo.jpg" new_photo); reflexivity.
Defined.

End ServiceMore.

(** ** More on the bulk importer *)

Section BulkMore.

(** What one file of the batch does to the world: nothing, or one file
    stored under the name some row gives its image. *)
Lemma bulk_file_frame file t w :
  snd (bulk_file file (t, w)) = w \/
  exists r target,
    r ∈ db w /\ image_filename r = Some target /\
    snd (bulk_file file (t, w)) = save_as target file w.
Proof.
  unfold bulk_file.
  destruct (String.eqb (filename file) ""); [by left|].
  destruct (allowed_file (filename file)); cbn [negb]; [|by left].
  rewrite first_with_image_find, scan_suffix_find.
  destruct (List.find (names_file (filename file)) (db w)) as [r|] eqn:Hexact.
  - apply find_some in Hexact as [Hin Hr]. unfold names_file in Hr.
    apply bool_decide_eq_true in Hr.
    right. exists r, (filename file). by rewrite list_elem_of_In.
  - destruct (List.find (names_file_ending (filename file)) (db w)) as [r|] eqn:Hsuffix;
      [|by left].
    apply find_some in Hsuffix as [Hin Hr]. unfold names_file_ending in Hr.
    destruct (image_filename r) as [f|] eqn:Hf; [|done].
    right. exists r, f. cbn [option_map]. rewrite Hf. cbn [Py.or_empty snd].
    by rewrite list_elem_of_In.
Qed.

Lemma only_saves_counts added :
  only_saves added -> file_removes added = 0%nat /\ row_effects added = 0%nat.
Proof.
  unfold only_saves, file_removes, row_effects, count.
  induction 1 as [|e added He _ IH]; [done|].
  destruct e; try discriminate He. exact IH.
Qed.

Lemma bulk_loop_frame files t w :
  db (snd (bulk_loop files (t, w))) = db w /\
  flashes (snd (bulk_loop files (t, w))) = flashes w /\
  (exists added, trace (snd (bulk_loop files (t, w))) = trace w ++ added /\
                 only_saves added) /\
  forall g,
    uploads (snd (bulk_loop files (t, w))) !! g = uploads w !! g \/
    exists r file,
      r ∈ db w /\ image_filename r = Some g /\ file ∈ files /\
      uploads (snd (bulk_loop files (t, w))) !! g = Some (content file).
Proof.
  unfold bulk_loop. revert t w.
  induction files as [|file files IH]; intros t w.
  { cbn. split; [done|]. split; [done|]. split; [|by left].
    exists []. split; [by rewrite app_nil_r | constructor]. }
  cbn [fold_left].
  destruct (bulk_file file (t, w)) as [t1 w1] eqn:Hstep.
  destruct (IH t1 w1) as (Hdb & Hfl & (added & Htr & Hsaves) & Hup).
  pose proof (bulk_file_frame file t w) as Hframe.
  rewrite Hstep in Hframe. cbn [snd] in Hframe.
  destruct Hframe as [-> | (r & target & Hr & Himg & ->)].
  - split; [done|]. split; [done|]. split; [by exists added|].
    intros g. destruct (Hup g) as [Hg | (r & f' & ? & ? & ? & ?)]; [by left|].
    right. exists r, f'. repeat split; try done. by apply elem_of_cons; right.
  - cbn [db flashes trace uploads save_as log set_uploads] in *.
    split; [done|]. split; [done|]. split.
    { exists (FileSave target :: added). split.
      - by rewrite Htr, <- app_assoc.
      - by constructor. }
    intros g. destruct (Hup g) as [Hg | (r' & f' & ? & ? & ? & ?)].
    + rewrite Hg. destruct (decide (target = g)) as [->|Hne].
      * rewrite lookup_insert_eq. right. exists r, file.
        repeat split; try done. apply elem_of_cons; by left.
      * rewrite lookup_insert_ne by done. by left.
    + right. exists r', f'. repeat split; try done. by apply elem_of_cons; right.
Qed.

Lemma flash_all_frame msgs category w :
  db (flash_all msgs category w) = db w /\
  uploads (flash_all msgs category w) = uploads w /\
  trace (flash_all msgs category w) = trace w /\
  flashes (flash_all msgs category w)
    = flashes w ++ map (fun m => (Text m, category)) msgs.
Proof.
  unfold flash_all. revert w. induction msgs as [|m msgs IH]; intros w.
  { cbn. by rewrite app_nil_r. }
  cbn [fold_left map]. destruct (IH (flash (Text m) category w)) as (-> & -> & -> & ->).
  cbn [db uploads trace flashes flash]. by rewrite <- app_assoc.
Qed.

(** The messages that report a tally *)
Lemma bulk_report_frame t w :
  db (bulk_report t w) = db w /\
  uploads (bulk_report t w) = uploads w /\
  trace (bulk_report t w) = trace w /\
  flashes (bulk_report t w) = flashes w ++ report_messages t.
Proof.
  unfold bulk_report, report_messages.
  destruct (0 <? success_count t); destruct (0 <? error_count t);
    rewrite ?(proj1 (flash_all_frame _ _ _)),
            ?(proj1 (proj2 (flash_all_frame _ _ _))),
            ?(proj1 (proj2 (proj2 (flash_all_frame _ _ _)))),
            ?(proj2 (proj2 (proj2 (flash_all_frame _ _ _))));
    cbn [db uploads trace flashes flash app]; rewrite <- ?app_assoc;
    by rewrite ?app_nil_r.
Qed.

(** What a bulk import leaves alone *)
Lemma bulk_upload_frame (m : method) (files : list upload) (w : world) :
  db (snd (bulk_upload m files w)) = db w /\
  (forall g, is_Some (uploads w !! g) ->
             is_Some (uploads (snd (bulk_upload m files w)) !! g)) /\
  (forall g,
     uploads (snd (bulk_upload m files w)) !! g <> uploads w !! g ->
     exists r file,
       r ∈ db w /\ image_filename r = Some g /\ file ∈ files /\
       uploads (snd (bulk_upload m files w)) !! g = Some (content file)) /\
  (exists added,
     trace (snd (bulk_upload m files w)) = trace w ++ added /\
     file_removes added = 0%nat /\ row_effects added = 0%nat).
Proof.
  assert (Hnone : exists added, trace w = trace w ++ added /\
            file_removes added = 0%nat /\ row_effects added = 0%nat).
  { exists []. by rewrite app_nil_r. }
  unfold bulk_upload. destruct m; [by repeat split|].
  destruct (bool_decide (files = []) ||
            forallb (fun f => String.eqb (filename f) "") files);
    [by repeat split|].
  pose proof (bulk_loop_frame files (mk_tally 0 0 []) w)
    as (Hdb & _ & (added & Htr & Hsaves) & Hup).
  destruct (bulk_loop files (mk_tally 0 0 [], w)) as [t w1].
  cbn [snd] in *.
  destruct (bulk_report_frame t w1) as (-> & -> & -> & _).
  split; [done|]. split; [|split].
  - intros g Hg. destruct (Hup g) as [-> | (r & file & _ & _ & _ & ->)]; eauto.
  - intros g Hg. destruct (Hup g) as [? | (r & file & ? & ? & ? & ?)]; [done|].
    by exists r, file.
  - exists added. split; [done|]. by apply only_saves_counts.
Qed.

(** X11: the bulk import never changes the table and never removes a
    file: every file of the upload directory is still there afterwards, the
    effects are file writes only, and a file name that is new or has new
    content is the image name of some row and holds the content of a file of
    the batch. *)
Theorem bulk_import_writes_only_named_images
    (m : method) (files : list upload) (w : world) :
  db (snd (bulk_upload m files w)) = db w /\
  (forall g, is_Some (uploads w !! g) ->
             is_Some (uploads (snd (bulk_upload m files w)) !! g)) /\
  (forall g,
     uploads (snd (bulk_upload m files w)) !! g <> uploads w !! g ->
     exists r file,
       r ∈ db w /\ image_filename r = Some g /\ file ∈ files /\
       uploads (snd (bulk_upload m files w)) !! g = Some (content file)) /\
  (exists added,
     trace (snd (bulk_upload m files w)) = trace w ++ added /\
     file_removes added = 0%nat /\ row_effects added = 0%nat).
Proof. apply bulk_upload_frame. Qed.


Lemma no_named_file files :
  bool_decide (files = []) || forallb (fun f => String.eqb (filename f) "") files
  = negb (existsb nonempty_name files).
Proof.
  destruct files as [|file files]; [done|]. cbn [bool_decide orb].
  rewrite bool_decide_eq_false_2 by done. cbn [orb].
  induction (file :: files) as [|x l IH]; [done|].
  cbn [forallb existsb]. rewrite IH. unfold nonempty_name.
  by destruct (String.eqb (filename x) ""), (existsb _ l).
Qed.

(** X12: the report of a batch.  When no file of the batch has a name the
    importer answers that no files were selected and goes back to its form;
    otherwise it reports the successes, if any, and the failures, if any,
    with their count and at most ten of their messages, the first ten,
    however many failures were counted. *)
Theorem bulk_report_shows_ten_errors (files : list upload) (w : world) :
  exists t,
    t = fst (bulk_loop files (mk_tally 0 0 [], w)) /\
    (existsb nonempty_name files = false ->
     bulk_upload POST files w
       = (Redirect "bulk_upload", flash (Text "No files selected") "error" w)) /\
    (existsb nonempty_name files = true ->
     fst (bulk_upload POST files w) = Redirect "index" /\
     flashes (snd (bulk_upload POST files w)) = flashes w ++ report_messages t) /\
    (length (List.filter (fun f => String.eqb (snd f) "error") (report_messages t))
       <= 10)%nat /\
    (forall msg, (Text msg, "error") ∈ report_messages t -> msg ∈ errors t) /\
    Z.of_nat (length (errors t)) = error_count t.
Proof.
  eexists. split; [reflexivity|].
  set (t := fst (bulk_loop files (mk_tally 0 0 [], w))).
  split; [|split; [|split; [|split]]].
  - intros Hnone. unfold bulk_upload. by rewrite no_named_file, Hnone.
  - intros Hsome. unfold bulk_upload. rewrite no_named_file, Hsome. cbn [negb].
    pose proof (bulk_loop_frame files (mk_tally 0 0 []) w) as (_ & Hfl & _).
    subst t. destruct (bulk_loop files (mk_tally 0 0 [], w)) as [t w1].
    cbn [fst snd] in *. split; [done|].
    destruct (bulk_report_frame t w1) as (_ & _ & _ & ->). by rewrite Hfl.
  - unfold report_messages.
    assert (Herr : forall l : list string,
              List.filter (fun f : message * string => String.eqb (snd f) "error")
                (map (fun m => (Text m, "error")) l)
              = map (fun m => (Text m, "error")) l).
    { induction l as [|x l IH]; [done|]. cbn. by rewrite IH. }
    destruct (0 <? success_count t); destruct (0 <? error_count t);
      cbn [app List.filter snd String.eqb Ascii.eqb Bool.eqb]; rewrite ?Herr;
      rewrite ?length_map, ?length_take; cbn [length]; lia.
  - intros msg. unfold report_messages.
    rewrite elem_of_app. intros [Hin | Hin].
    + destruct (0 <? success_count t); [|by apply elem_of_nil in Hin].
      apply list_elem_of_singleton in Hin. discriminate Hin.
    + destruct (0 <? error_count t); [|by apply elem_of_nil in Hin].
      apply elem_of_cons in Hin as [Hin | Hin]; [discriminate Hin|].
      apply list_elem_of_fmap in Hin as (m & [= ->] & Hm).
      apply elem_of_take in Hm as (k & Hk & _). by eapply list_elem_of_lookup_2.
  - apply (bulk_counts_files_with_a_name files w).
Qed.


(** X13: the references to images stay good under create and bulk import.
    If every row that names an image names a file of the upload directory,
    this is still so after a create request and after a bulk import,
    whatever they are given. *)
Theorem images_stay_present (secure_filename : string -> string) (m : method)
    (form : gmap string string) (files : gmap string upload) (now : datetime)
    (batch : list upload) (w : world) :
  images_present w ->
  images_present (snd (add_sighting secure_filename m form files now w)) /\
  images_present (snd (bulk_upload m batch w)).
Proof.
  intros Hw. split.
  - intros r f Hr Himg.
    destruct (add_sighting_shape secure_filename m form files now w)
      as [[Hdb Hup] | (r' & Hdb & _ & [[Hnone Hup] | (name & data & Hname & Hup)])];
      rewrite Hdb in Hr; rewrite Hup.
    + by eapply Hw.
    + apply elem_of_app in Hr as [Hr | Hr]; [by eapply Hw|].
      apply list_elem_of_singleton in Hr. congruence.
    + apply elem_of_app in Hr as [Hr | Hr].
      * rewrite lookup_insert. case_decide; [by eexists | by eapply Hw].
      * apply list_elem_of_singleton in Hr. subst r'.
        assert (f = name) as -> by congruence. rewrite lookup_insert_eq. by eexists.
  - intros r f Hr Himg.
    destruct (bulk_upload_frame m batch w) as (Hdb & Hkeep & _).
    rewrite Hdb in Hr. apply Hkeep. by eapply Hw.
Qed.

Lemma images_stay_present_witness :
  images_present (snd (add_sighting keep_name POST form_ca with_photo noon world56)) /\
  images_present (snd (bulk_upload POST [photo; unrelated] world56)).
Proof.
  apply (images_stay_present keep_name POST form_ca with_photo noon
           [photo; unrelated] world56).
  intros r f Hr Himg.
  apply elem_of_cons in Hr as [-> | Hr].
  - injection Himg as <-. by eexists.
  - apply list_elem_of_singleton in Hr. subst r. discriminate Himg.
Defined.

End BulkMore.

(** ** Orders *)

Section Orders.

Lemma lex_ltb_irrefl a : lex_ltb a a = false.
Proof.
  induction a as [|x a IH]; [done|]. cbn [lex_ltb].
  by rewrite Z.ltb_irrefl, Z.eqb_refl, IH.
Qed.

(** Of two tuples of the same length, if one is below the other then any
    third one is above the first or below the second. *)
Lemma lex_ltb_between a b c :
  length a = length b -> length b = length c ->
  lex_ltb a c = true -> lex_ltb a b = true \/ lex_ltb b c = true.
Proof.
  revert b c. induction a as [|x a IH]; intros [|y b] [|z c] Hab Hbc;
    try discriminate.
  cbn [lex_ltb]. rewrite !orb_true_iff, !andb_true_iff, !Z.ltb_lt, !Z.eqb_eq.
  injection Hab as Hab. injection Hbc as Hbc.
  intros [Hlt | [-> Hac]].
  - destruct (Z.lt_trichotomy x y) as [? | [-> | ?]]; [by left; left | |].
    + right. by left.
    + right. left. lia.
  - destruct (Z.lt_trichotomy z y) as [? | [-> | ?]]; [by left; left | |].
    + destruct (IH b c Hab Hbc Hac); [left | right]; by right.
    + right. by left.
Qed.

Lemma lex_ltb_asym a b : lex_ltb a b = true -> lex_ltb b a = false.
Proof.
  revert b. induction a as [|x a IH]; intros [|y b]; try done.
  cbn [lex_ltb]. rewrite orb_true_iff, andb_true_iff, Z.ltb_lt, Z.eqb_eq.
  intros [Hlt | [-> Hab]].
  - apply orb_false_iff. split; [by apply Z.ltb_ge; lia|].
    apply andb_false_iff. left. apply Z.eqb_neq. lia.
  - by rewrite Z.ltb_irrefl, Z.eqb_refl, (IH b Hab).
Qed.

Lemma leb_total (a b : datetime) :
  DateTime.leb a b = true \/ DateTime.leb b a = true.
Proof.
  unfold DateTime.leb, DateTime.ltb.
  destruct (lex_ltb (fields b) (fields a)) eqn:Hba; [|by left].
  right. by rewrite (lex_ltb_asym _ _ Hba).
Qed.

Lemma leb_trans (a b c : datetime) :
  DateTime.leb a b = true -> DateTime.leb b c = true -> DateTime.leb a c = true.
Proof.
  unfold DateTime.leb, DateTime.ltb. rewrite !negb_true_iff.
  intros Hba Hcb. destruct (lex_ltb (fields c) (fields a)) eqn:Hca; [|done].
  destruct (lex_ltb_between (fields c) (fields b) (fields a)) as [H | H];
    [done | done | done | congruence | congruence].
Qed.

Lemma opt_time_leb_total a b :
  opt_time_leb a b = true \/ opt_time_leb b a = true.
Proof. destruct a, b; cbn; auto using leb_total. Qed.

Lemma opt_time_leb_trans a b c :
  opt_time_leb a b = true -> opt_time_leb b c = true -> opt_time_leb a c = true.
Proof. destruct a, b, c; cbn; try done. apply leb_trans. Qed.

Lemma newest_first_total : Total (fun x y => newest_first x y = true).
Proof. intros x y. unfold newest_first. apply opt_time_leb_total. Qed.

Lemma newest_first_trans : Transitive (fun x y => newest_first x y = true).
Proof.
  intros x y z Hxy Hyz. unfold newest_first in *.
  by eapply opt_time_leb_trans.
Qed.

(** The rows of a query ordered newest first: every row is at least as
    recent as the rows after it, a row without timestamp counting as the
    oldest. *)
Lemma order_by_newest_first rows :
  StronglySorted (fun x y => newest_first x y = true) (order_by newest_first rows) /\
  order_by newest_first rows ≡ₚ rows.
Proof.
  unfold order_by. split.
  - apply (@StronglySorted_merge_sort _ _ _ newest_first_trans newest_first_total).
  - apply merge_sort_Permutation.
Qed.

Lemma string_ltb_total a b :
  String.ltb a b = true \/ a = b \/ String.ltb b a = true.
Proof.
  unfold String.ltb. rewrite (String.compare_antisym b a).
  destruct (String.compare a b) eqn:Hc; cbn; auto.
  right. left. by apply String.compare_eq_iff.
Qed.

Lemma pair_leb_total a1 a2 b1 b2 :
  pair_leb a1 a2 b1 b2 = true \/ pair_leb b1 b2 a1 a2 = true.
Proof.
  unfold pair_leb.
  destruct (string_ltb_total a1 b1) as [H | [-> | H]].
  - left. by rewrite H.
  - rewrite String.eqb_refl.
    destruct (String.leb_total a2 b2) as [H | H]; [left | right];
      rewrite H; apply orb_true_r.
  - right. by rewrite H.
Qed.

Lemma sort_order_total sort_by :
  Total (fun x y => sort_order sort_by x y = true).
Proof.
  intros x y. unfold sort_order.
  repeat match goal with
  | |- context [String.eqb sort_by ?k] => destruct (String.eqb sort_by k)
  end;
  first [ apply opt_time_leb_total | apply pair_leb_total | apply newest_first_total ].
Qed.

End Orders.

(** ** The listing, the search and the lookup of a vehicle *)

Section ListingMore.

Lemma list_filter_sublist (p : Sighting -> bool) rows :
  List.filter p rows `sublist_of` rows.
Proof.
  induction rows as [|r rows IH]; cbn; [constructor|].
  destruct (p r); by constructor.
Qed.

Lemma order_by_submseteq le (p : Sighting -> bool) rows :
  order_by le (List.filter p rows) ⊆+ rows.
Proof.
  unfold order_by. rewrite merge_sort_Permutation.
  apply sublist_submseteq, list_filter_sublist.
Qed.

Lemma order_by_sorted sort_by rows :
  Sorted (fun x y => sort_order sort_by x y = true)
         (order_by (sort_order sort_by) rows).
Proof.
  unfold order_by.
  apply (@Sorted_merge_sort _ _ _ (sort_order_total sort_by)).
Qed.

(** Whatever the query, a listing that is answered is sorted by the
    comparison that [index] passes to [order_by], holds rows of the table
    only, each at most as often as the table does, and leaves the table and
    the upload directory alone: all it adds are the messages for malformed
    dates. *)
Lemma index_sorted args w rows w' :
  index args w = Ok (rows, w') ->
  Sorted (fun x y =>
            sort_order (default "date_desc" (args !! "sort_by")) x y = true)
         rows /\
  rows ⊆+ db w /\
  db w' = db w /\ uploads w' = uploads w /\ trace w' = trace w /\
  flashes w' = flashes w ++ date_warnings args.
Proof.
  unfold index, date_warnings, malformed.
  destruct (args !! "start_date") as [s|]; cbn [default]; unfold Datatypes.id;
    destruct (args !! "end_date") as [e|]; cbn [default]; unfold Datatypes.id.
  all: repeat match goal with
       | |- context [Py.truthy ?x] =>
           is_var x; destruct (Py.truthy x); cbn [andb]
       | |- context [strptime ?x fmt_date] =>
           is_var x; destruct (strptime x fmt_date) as [?d|]
       | |- context [add_one_day ?d] => destruct (add_one_day d)
       end; cbn; try discriminate.
  all: intros [= <- <-]; cbn.
  all: rewrite ?app_nil_r; repeat split; try done; try apply order_by_sorted.
  all: try apply order_by_submseteq.
  all: try (unfold order_by; by rewrite merge_sort_Permutation).
  all: try (etrans; [apply order_by_submseteq|];
            apply sublist_submseteq, list_filter_sublist).
  all: try by rewrite <- app_assoc.
Qed.

(** X15: a start or end date that is absent, empty or not a date in the
    format YYYY-MM-DD filters nothing: with both dates so, the listing is
    answered and holds every row of the table exactly once. *)
Theorem malformed_dates_do_not_filter args w :
  blank (args !! "start_date") || malformed (args !! "start_date") = true ->
  blank (args !! "end_date") || malformed (args !! "end_date") = true ->
  exists rows w',
    index args w = Ok (rows, w') /\ rows ≡ₚ db w /\
    flashes w' = flashes w ++ date_warnings args.
Proof.
  unfold index, date_warnings, blank, malformed, Py.truthy_opt.
  destruct (args !! "start_date") as [s|]; cbn [default]; unfold Datatypes.id;
    destruct (args !! "end_date") as [e|]; cbn [default]; unfold Datatypes.id.
  all: repeat match goal with
       | |- context [Py.truthy ?x] =>
           is_var x; destruct (Py.truthy x); cbn [andb negb orb]
       | |- context [strptime ?x fmt_date] =>
           is_var x; destruct (strptime x fmt_date) as [?d|]
       end; cbn; try discriminate.
  all: intros _ _; eexists _, _; (split; [reflexivity|]); cbn.
  all: rewrite ?app_nil_r; split; try done.
  all: try (unfold order_by; by rewrite merge_sort_Permutation).
  all: by rewrite <- app_assoc.
Qed.

Lemma malformed_dates_do_not_filter_witness :
  exists rows w',
    index args_bad_start world56 = Ok (rows, w') /\ rows ≡ₚ db world56 /\
    flashes w' = flashes world56 ++ date_warnings args_bad_start.
Proof.
  apply (malformed_dates_do_not_filter args_bad_start world56); reflexivity.
Defined.

(** *** [LIKE] *)

Lemma like_percent_unfold rest s :
  like (String "%" rest) s =
  like rest s ||
  match s with
  | String _ s' => like (String "%" rest) s'
  | EmptyString => false
  end.
Proof. by destruct s. Qed.

Lemma like_literal_unfold p rest s :
  p <> "%"%char ->
  like (String p rest) s =
  match s with
  | String c s' => (Ascii.eqb p "_" || like_char p c) && like rest s'
  | EmptyString => false
  end.
Proof.
  intros Hp. cbn [like]. destruct (Ascii.eqb_spec p "%"); [done|]. by destruct s.
Qed.

Lemma like_percent_iff rest s :
  like (String "%" rest) s = true <->
  exists a b, s = a +:+ b /\ like rest b = true.
Proof.
  induction s as [|c s IH]; rewrite like_percent_unfold, orb_true_iff.
  - split.
    + intros [H | H]; [|done]. by exists "", "".
    + intros (a & b & Hab & H). left.
      destruct a; [|done]. cbn in Hab. by subst b.
  - rewrite IH. split.
    + intros [H | (a & b & -> & H)].
      * by exists "", (String c s).
      * by exists (String c a), b.
    + intros (a & b & Hab & H). destruct a as [|d a].
      * cbn in Hab. subst b. by left.
      * injection Hab as -> ->. right. by exists a, b.
Qed.

Lemma like_any s : like "%" s = true.
Proof. apply like_percent_iff. exists s, "". by rewrite string_app_nil_r. Qed.

Lemma lower_empty m : Py.lower m = "" -> m = "".
Proof. by destruct m. Qed.

Lemma like_plain term rest s :
  no_wildcard term = true ->
  like (term +:+ rest) s = true <->
  exists m s', s = m +:+ s' /\ Py.lower m = Py.lower term /\ like rest s' = true.
Proof.
  revert s. induction term as [|p term IH]; intros s Hw.
  - cbn [String.append]. split.
    + intros H. by exists "", s.
    + intros (m & s' & -> & ->%lower_empty & H). done.
  - assert (Hp : p <> "%"%char /\ p <> "_"%char /\ no_wildcard term = true).
    { unfold no_wildcard in *. cbn [Py.contains] in Hw.
      apply andb_true_iff in Hw as [H1 H2].
      rewrite negb_true_iff, orb_false_iff in H1, H2.
      destruct H1 as [H1 H1'], H2 as [H2 H2'].
      apply Ascii.eqb_neq in H1, H2. by rewrite H1', H2'. }
    destruct Hp as (Hp1 & Hp2 & Hterm).
    change (String p term +:+ rest) with (String p (term +:+ rest)).
    rewrite like_literal_unfold by done.
    destruct s as [|c s].
    + split; [done|]. intros (m & s' & Hs & Hm & _).
      destruct m; [done|]. done.
    + destruct (Ascii.eqb_spec p "_"); [done|]. cbn [orb].
      rewrite andb_true_iff, (IH s Hterm). unfold like_char.
      rewrite Ascii.eqb_eq. split.
      * intros (Hc & m & s' & -> & Hm & H). exists (String c m), s'.
        cbn [Py.lower]. by rewrite Hm, Hc.
      * intros (m & s' & Hs & Hm & H). destruct m as [|d m]; [done|].
        injection Hs as -> ->. cbn [Py.lower] in Hm. injection Hm as Hd Hm.
        split; [done|]. by exists m, s'.
Qed.

(** A pattern [%term%] whose term has no wildcard is matched by the texts
    in which the term occurs, the case of ASCII letters set aside. *)
Lemma like_infix term text :
  no_wildcard term = true ->
  like ("%" +:+ term +:+ "%") text = true <-> occurs_in term text.
Proof.
  intros Hw. change ("%" +:+ term +:+ "%") with (String "%" (term +:+ "%")).
  rewrite like_percent_iff. unfold occurs_in. split.
  - intros (a & b & -> & (m & s' & -> & Hm & _)%like_plain); [|done].
    by exists a, m, s'.
  - intros (a & m & b & -> & Hm). exists a, (m +:+ b). split; [done|].
    apply like_plain; [done|]. exists m, b. auto using like_any.
Qed.

Lemma truthy_false s : Py.truthy s = false <-> s = "".
Proof. unfold Py.truthy. rewrite negb_false_iff. apply String.eqb_eq. Qed.

Lemma occurs_in_empty text : occurs_in "" text.
Proof. by exists "", "", text. Qed.

Lemma newest_to_oldest_order_by rows : newest_to_oldest (order_by newest_first rows).
Proof. apply order_by_newest_first. Qed.

(** A search whose plate term, once normalised, has no wildcard: with both
    terms empty it redirects to the listing; otherwise it shows exactly the
    rows whose state is the state term, if one is given, and in whose plate
    the plate term occurs, from the most recent to the oldest. *)
Lemma search_rows args w :
  no_wildcard (search_term args "plate") = true ->
  if String.eqb (search_term args "state") "" &&
     String.eqb (search_term args "plate") ""
  then search args w = SearchRedirect "index"
  else
    exists rows,
      search args w
        = SearchPage (search_term args "state") (search_term args "plate") rows /\
      newest_to_oldest rows /\
      forall r,
        r ∈ rows <->
        r ∈ db w /\
        (search_term args "state" = "" \/ state r = search_term args "state") /\
        occurs_in (search_term args "plate") (license_plate r).
Proof.
  intros Hw. unfold search. fold (search_term args "state").
  fold (search_term args "plate").
  set (st := search_term args "state") in *.
  set (pl := search_term args "plate") in *. clearbody st pl.
  unfold Py.truthy. rewrite !negb_involutive.
  destruct (String.eqb_spec st "") as [-> | Hst];
    destruct (String.eqb_spec pl "") as [-> | Hpl]; cbn [andb negb]; [done| | |].
  all: eexists; (split; [reflexivity|]);
       (split; [apply newest_to_oldest_order_by|]).
  all: intros r; rewrite elem_of_order_by, ?elem_of_list_filter.
  - rewrite (like_infix _ _ Hw). tauto.
  - rewrite String.eqb_eq. pose proof (occurs_in_empty (license_plate r)). tauto.
  - rewrite String.eqb_eq, (like_infix _ _ Hw). tauto.
Qed.

Lemma newest_first_refl r : newest_first r r = true.
Proof. by destruct (newest_first_total r r). Qed.

(** The first of the rows ordered newest first is at least as recent as
    each of them. *)
Lemma order_by_head rows first rest :
  order_by newest_first rows = first :: rest ->
  first ∈ rows /\ forall r, r ∈ rows -> newest_first first r = true.
Proof.
  intros Heq. destruct (order_by_newest_first rows) as [Hsorted Hperm].
  rewrite Heq in Hsorted, Hperm. split.
  - rewrite <- Hperm. by left.
  - intros r Hr. rewrite <- Hperm in Hr.
    apply StronglySorted_inv in Hsorted as [_ Hall].
    apply elem_of_cons in Hr as [-> | Hr]; [apply newest_first_refl|].
    by eapply (proj1 (Forall_forall _ _)) in Hall.
Qed.

Lemma order_by_nil rows : order_by newest_first rows = [] -> rows = [].
Proof.
  intros Heq. destruct (order_by_newest_first rows) as [_ Hperm].
  rewrite Heq in Hperm. by apply Permutation_nil_l in Hperm.
Qed.

(** Either no row has the plate that [get_car_info] looks for and the
    answer is [found: false], or the answer is of a row with that plate that
    is at least as recent as every row with it. *)
Lemma car_info_latest plate w :
  ((forall r, r ∈ db w -> license_plate r <> Py.upper plate) /\
   get_car_info plate w = [("found", JBool false)]) \/
  (exists r,
     r ∈ db w /\ license_plate r = Py.upper plate /\
     (forall r', r' ∈ db w -> license_plate r' = Py.upper plate ->
                 opt_time_leb (timestamp r') (timestamp r) = true) /\
     get_car_info plate w =
       [("found", JBool true); ("car_make", JString (car_make r));
        ("car_model", JString (car_model r)); ("color", JString (color r))]).
Proof.
  unfold get_car_info.
  destruct (order_by newest_first _) as [|first rest] eqn:Heq.
  - left. split; [|done]. intros r Hr Hplate.
    apply order_by_nil in Heq.
    assert (Hin : r ∈ List.filter
                     (fun r => String.eqb (license_plate r) (Py.upper plate)) (db w)).
    { apply elem_of_list_filter. split; [done|]. by apply String.eqb_eq. }
    rewrite Heq in Hin. by apply elem_of_nil in Hin.
  - right. apply order_by_head in Heq as [Hin Hmax].
    apply elem_of_list_filter in Hin as [Hin Hplate].
    apply String.eqb_eq in Hplate.
    exists first. repeat split; try done.
    intros r' Hr' Hplate'. apply (Hmax r'), elem_of_list_filter.
    split; [done|]. by apply String.eqb_eq.
Qed.

(** X18: after a create that succeeds, the vehicle lookup of the plate of
    the form (in any case of its letters) answers with the make, model and
    colour of the form, provided every earlier row with that plate is
    older than the timestamp of the new row. *)
Theorem created_sighting_answers_the_lookup (secure_filename : string -> string)
    (form : gmap string string) (files : gmap string upload) (now t : datetime)
    (w : world) (st plate make model col asked : string) :
  form_time form now = Ok t ->
  form !! "state" = Some st -> form !! "license_plate" = Some plate ->
  form !! "car_make" = Some make -> form !! "car_model" = Some model ->
  form !! "color" = Some col ->
  Py.upper asked = Py.upper plate ->
  (forall r, r ∈ db w -> license_plate r = Py.upper plate ->
             older_than t r = true) ->
  exists w',
    add_sighting secure_filename POST form files now w = (Redirect "index", w') /\
    get_car_info asked w' =
      [("found", JBool true); ("car_make", JString make);
       ("car_model", JString model); ("color", JString col)].
Proof.
  intros Ht Hst Hplate Hmake Hmodel Hcol Hasked Holder.
  destruct (add_sighting_try_ok secure_filename form files now w t st plate make
              model col Ht Hst Hplate Hmake Hmodel Hcol)
    as (w' & img & added & Htry & Hdb & _).
  exists w'. unfold add_sighting. rewrite Htry. split; [done|].
  set (new := created_row form (db w) st plate make model col t img) in *.
  destruct (car_info_latest asked w') as [[Hnone _] | (r & Hr & Hp & Hmax & ->)].
  - exfalso. apply (Hnone new); [rewrite Hdb; set_solver|]. by rewrite Hasked.
  - rewrite Hdb in Hr. apply elem_of_app in Hr as [Hr | Hr%list_elem_of_singleton].
    + exfalso. rewrite Hasked in Hp. specialize (Holder r Hr Hp).
      assert (Hnew : new ∈ db w') by (rewrite Hdb; set_solver).
      specialize (Hmax new Hnew). rewrite Hasked in Hmax.
      specialize (Hmax eq_refl). unfold older_than in Holder.
      cbn [new created_row timestamp] in Hmax. rewrite Hmax in Holder. done.
    + by subst r.
Qed.

Lemma created_sighting_answers_the_lookup_witness :
  exists w',
    add_sighting keep_name POST form_ca ∅ noon world56 = (Redirect "index", w') /\
    get_car_info "Abc1234" w' =
      [("found", JBool true); ("car_make", JString "Honda");
       ("car_model", JString "Civic"); ("color", JString "Blue")].
Proof.
  apply (created_sighting_answers_the_lookup keep_name form_ca ∅ noon noon
           world56 "ca" "abc1234" "Honda" "Civic" "Blue" "Abc1234");
    try reflexivity.
  intros r Hr _. apply list_elem_of_In in Hr.
  destruct Hr as [<- | [<- | []]]; reflexivity.
Defined.

End ListingMore.

(** ** The seed loader *)

Section SeedMore.

Lemma next_id_map rows :
  next_id rows = 1 + fold_right Z.max 0 (map id rows).
Proof. unfold next_id. f_equal. induction rows as [|r rows IH]; cbn; congruence. Qed.

Lemma max_seqZ (n : nat) a :
  0 <= a -> fold_right Z.max 0 (seqZ a (Z.of_nat n)) = if n is O then 0 else a + Z.of_nat n - 1.
Proof.
  revert a. induction n as [|n IH]; intros a Ha; [done|].
  rewrite seqZ_cons by lia. cbn [fold_right].
  replace (Z.pred (Z.of_nat (S n))) with (Z.of_nat n) by lia.
  rewrite IH by lia. destruct n; lia.
Qed.

Lemma next_id_seq rows :
  map id rows = seqZ 1 (Z.of_nat (length rows)) ->
  next_id rows = Z.of_nat (length rows) + 1.
Proof.
  intros Hids. rewrite next_id_map, Hids, max_seqZ by lia.
  destruct (length rows); lia.
Qed.

Lemma seed_sighting_loadable data i :
  loadable data = true ->
  exists r, Seed.seed_sighting data i = Ok r /\ seeded data r /\ id r = i.
Proof.
  unfold loadable, Seed.seed_sighting, seeded, form_item, parse_time, has_field.
  cbn [forallb].
  destruct (data !! "state") as [st|]; [|done].
  destruct (data !! "plate") as [plate|]; [|done].
  destruct (data !! "make") as [make|]; [|done].
  destruct (data !! "model") as [model|]; [|done].
  destruct (data !! "color") as [col|]; [|done].
  destruct (data !! "timestamp") as [text|]; [|done].
  cbn [bind]. destruct (strptime text fmt_seed) as [t|] eqn:Ht; [|done].
  intros _. eexists. split; [reflexivity|]. cbn.
  repeat split; try done. by exists text.
Qed.

Lemma seed_sighting_unloadable data i :
  loadable data = false ->
  exists e, Seed.seed_sighting data i = Raise e /\
            (e = ValueError \/ exists key, data !! key = None /\ e = KeyError key).
Proof.
  unfold loadable, Seed.seed_sighting, form_item, parse_time, has_field.
  cbn [forallb].
  destruct (data !! "state") as [st|] eqn:?;
    [|intros _; eexists; split; [reflexivity|]; right; by eexists].
  destruct (data !! "plate") as [plate|] eqn:?;
    [|intros _; eexists; split; [reflexivity|]; right; by eexists].
  destruct (data !! "make") as [make|] eqn:?;
    [|intros _; eexists; split; [reflexivity|]; right; by eexists].
  destruct (data !! "model") as [model|] eqn:?;
    [|intros _; eexists; split; [reflexivity|]; right; by eexists].
  destruct (data !! "color") as [col|] eqn:?;
    [|intros _; eexists; split; [reflexivity|]; right; by eexists].
  destruct (data !! "timestamp") as [text|] eqn:?;
    [|intros _; eexists; split; [reflexivity|]; right; by eexists].
  cbn [bind]. destruct (strptime text fmt_seed) as [t|] eqn:Ht; [done|].
  intros _. eexists. split; [reflexivity|]. by left.
Qed.

Lemma seed_rows_loadable plates acc :
  forallb loadable plates = true ->
  map id acc = seqZ 1 (Z.of_nat (length acc)) ->
  exists rows,
    Seed.seed_rows plates acc = Ok (acc ++ rows) /\
    Forall2 seeded plates rows /\
    map id (acc ++ rows) = seqZ 1 (Z.of_nat (length acc + length plates)).
Proof.
  revert acc. induction plates as [|data plates IH]; intros acc Hall Hacc.
  - exists []. cbn. rewrite app_nil_r, Nat.add_0_r. by repeat split.
  - cbn [forallb] in Hall. apply andb_true_iff in Hall as [Hdata Hall].
    destruct (seed_sighting_loadable data (next_id acc) Hdata) as (r & Hr & Hseeded & Hid).
    cbn [Seed.seed_rows]. rewrite Hr. cbn [bind].
    destruct (IH (acc ++ [r]) Hall) as (rows & Hrows & Hfor & Hids).
    { rewrite map_app, Hacc, length_app. cbn [map length].
      rewrite Hid, (next_id_seq _ Hacc).
      replace (Z.of_nat (length acc + 1)) with (Z.of_nat (length acc) + 1) by lia.
      rewrite seqZ_app by lia. f_equal.
      rewrite seqZ_cons by lia. cbn. f_equal. lia. }
    exists (r :: rows). rewrite Hrows. rewrite <- app_assoc. cbn [app].
    split; [done|]. split; [by constructor|].
    rewrite <- app_assoc in Hids. cbn [app] in Hids. rewrite Hids.
    rewrite length_app. cbn [length]. do 2 f_equal. lia.
Qed.

Lemma seed_rows_unloadable plates acc :
  forallb loadable plates = false ->
  exists e,
    Seed.seed_rows plates acc = Raise e /\
    (e = ValueError \/
     exists key data, data ∈ plates /\ data !! key = None /\ e = KeyError key).
Proof.
  revert acc. induction plates as [|data plates IH]; intros acc Hall; [done|].
  cbn [forallb] in Hall. cbn [Seed.seed_rows].
  destruct (loadable data) eqn:Hdata.
  - destruct (seed_sighting_loadable data (next_id acc) Hdata) as (r & -> & _).
    cbn [bind]. destruct (IH (acc ++ [r]) Hall) as (e & -> & He).
    exists e. split; [done|]. destruct He as [-> | (key & d & Hd & Hkey & ->)];
      [by left|]. right. exists key, d. split; [by right|done].
  - destruct (seed_sighting_unloadable data (next_id acc) Hdata) as (e & -> & He).
    exists e. split; [done|]. destruct He as [-> | (key & Hkey & ->)]; [by left|].
    right. exists key, data. split; [by left|done].
Qed.

(** X19: the seed loader run on a list of dictionaries loads all of them
    or none.  When every dictionary has the keys state, plate, make, model,
    color and a timestamp in the format [%Y-%m-%d %H:%M:%S], the table is
    replaced by one row per dictionary, in the order of the list, numbered
    from 1, with the values of the dictionary, location and notes null
    when their key is missing, and no image; otherwise the script ends in
    an exception before the commit: a [ValueError], or the [KeyError] of a
    key that a dictionary of the list lacks. *)
Theorem seed_loads_every_dictionary_or_none plates w :
  if forallb loadable plates
  then exists rows,
         Seed.seed_database plates w = Ok (set_db rows w) /\
         Forall2 seeded plates rows /\
         map id rows = seqZ 1 (Z.of_nat (length plates))
  else exists e,
         Seed.seed_database plates w = Raise e /\
         (e = ValueError \/
          exists key data,
            data ∈ plates /\ data !! key = None /\ e = KeyError key).
Proof.
  unfold Seed.seed_database.
  destruct (forallb loadable plates) eqn:Hall.
  - destruct (seed_rows_loadable plates [] Hall eq_refl) as (rows & -> & Hfor & Hids).
    exists rows. cbn [bind app]. by repeat split.
  - destruct (seed_rows_unloadable plates [] Hall) as (e & -> & He).
    by exists e.
Qed.

End SeedMore.

(** ** The exports, once more *)

Section ExportsMore.

Lemma length_csv_cells b r : length (csv_cells b r) = length (csv_fieldnames b).
Proof. by destruct b. Qed.

(** X20: the CSV export and the literal export list every row of the
    table exactly once, from the most recent to the oldest, the rows
    without timestamp last; every record of the CSV has as many cells as
    the header has field names. *)
Theorem exports_list_every_row_newest_first args w :
  exists rows,
    rows ≡ₚ db w /\ newest_to_oldest rows /\
    export_csv args w
      = csv_fieldnames (include_notes_of args)
        :: map (csv_cells (include_notes_of args)) rows /\
    Forall (fun record =>
              length record = length (csv_fieldnames (include_notes_of args)))
           (export_csv args w) /\
    export_python args w
      = Py.join newline
          (python_head
           ++ map (fun s => format_dict (data_dict (include_notes_of args) s)) rows
           ++ ["]"]).
Proof.
  exists (all_newest_first w). unfold all_newest_first.
  destruct (order_by_newest_first (db w)) as [Hsorted Hperm].
  split; [done|]. split; [done|].
  unfold export_csv. rewrite csv_document_rows. split; [done|].
  split; [|done]. constructor; [done|].
  apply Forall_forall. intros record Hin. apply list_elem_of_In in Hin.
  apply in_map_iff in Hin as (r & <- & _). apply length_csv_cells.
Qed.

Lemma stage_images_keeps sightings store images_dir f data :
  images_dir !! f = Some data -> store !! f = Some data ->
  stage_images sightings store images_dir !! f = Some data.
Proof.
  revert images_dir.
  induction sightings as [|s sightings IH]; intros images_dir Hdir Hstore; [done|].
  cbn [stage_images]. apply IH; [|done].
  destruct (Py.truthy_opt (image_filename s)); [|done].
  destruct (store !! Py.or_empty (image_filename s)) as [d|] eqn:Hs; [|done].
  destruct (decide (Py.or_empty (image_filename s) = f)) as [Heq | Hne].
  - rewrite Heq in *. rewrite lookup_insert_eq. congruence.
  - by rewrite lookup_insert_ne.
Qed.

Lemma stage_images_complete sightings store images_dir r f data :
  r ∈ sightings -> image_filename r = Some f -> f <> "" ->
  store !! f = Some data ->
  stage_images sightings store images_dir !! f = Some data.
Proof.
  revert images_dir.
  induction sightings as [|s sightings IH]; intros images_dir Hin Himg Hf Hstore.
  - by apply elem_of_nil in Hin.
  - apply elem_of_cons in Hin as [<- | Hin]; [|by apply IH].
    cbn [stage_images]. rewrite Himg. cbn [Py.truthy_opt Py.or_empty].
    assert (Py.truthy f = true) as ->.
    { unfold Py.truthy. by destruct (String.eqb_spec f ""). }
    rewrite Hstore. apply stage_images_keeps; [|done]. apply lookup_insert_eq.
Qed.

(** X21: in the archive no two members have the same name, and every
    image that a row names (by a non-empty name) and that the upload
    directory holds is a member under [images/], with the content of the
    file: an image shared by several rows is packed once. *)
Theorem archive_holds_each_present_image_once args w :
  NoDup (map fst (export_zip args w)) /\
  forall r f data,
    r ∈ db w -> image_filename r = Some f -> f <> "" ->
    uploads w !! f = Some data ->
    ("images/" +:+ f, ImageFile data) ∈ export_zip args w.
Proof.
  unfold export_zip. cbv zeta.
  set (dir := stage_images (all_newest_first w) (uploads w) ∅).
  split.
  - cbn [map fst]. rewrite map_map.
    assert (Hnames :
      map (fun x : string * bytes =>
             fst (let '(f, data) := x in ("images/" +:+ f, ImageFile data)))
          (map_to_list dir)
      = map (String.append "images/") (map fst (map_to_list dir))).
    { rewrite map_map. apply map_ext. by intros [f data]. }
    rewrite Hnames. constructor.
    + intros Hin. apply list_elem_of_In, in_map_iff in Hin as (f & Hf & _).
      discriminate Hf.
    + apply (NoDup_fmap_2 (String.append "images/")), NoDup_fst_map_to_list.
  - intros r f data Hr Himg Hf Hstore. right.
    apply list_elem_of_In, in_map_iff. exists (f, data). split; [done|].
    apply list_elem_of_In, elem_of_map_to_list.
    apply (stage_images_complete _ _ _ r); try done.
    unfold all_newest_first. by apply elem_of_order_by.
Qed.

End ExportsMore.

(** ** References to images under update and delete *)

Section References.

Lemma elem_of_update_row (new r : Sighting) rows :
  r ∈ update_row new rows -> r = new \/ (r ∈ rows /\ id r <> id new).
Proof.
  unfold update_row. rewrite list_elem_of_fmap. intros (x & -> & Hx).
  destruct (Z.eqb_spec (id x) (id new)); [by left | by right].
Qed.

(** What an update that goes through does to the images: the row keeps its
    image and no file changes, or it loses its image, or it names a file
    just written; the one file that may be removed is the one the row
    named. *)
Lemma edit_sighting_try_images (secure_filename : string -> string)
    old form files w w' :
  edit_sighting_try secure_filename old form files w = Ok w' ->
  exists new,
    id new = id old /\
    ((db w' = db w /\ new = old) \/ db w' = update_row new (db w)) /\
    ((image_filename new = image_filename old /\ uploads w' = uploads w) \/
     (image_filename new = None /\
      (uploads w' = uploads w \/
       exists f, image_filename old = Some f /\ uploads w' = delete f (uploads w))) \/
     (exists name data,
        image_filename new = Some name /\
        (uploads w' = <[name := data]> (uploads w) \/
         exists f, image_filename old = Some f /\
                   uploads w' = <[name := data]> (delete f (uploads w))))).
Proof.
  unfold edit_sighting_try.
  destruct (if Py.truthy_opt (form !! "sighting_time") then _ else _) as [t|];
    [|done].
  unfold form_item.
  destruct (form !! "state") as [st|]; [|done].
  destruct (form !! "license_plate") as [plate|]; [|done].
  destruct (form !! "car_make") as [make|]; [|done].
  destruct (form !! "car_model") as [model|]; [|done].
  destruct (form !! "color") as [col|]; [|done].
  simpl bind. cbv zeta.
  unfold save_image, delete_image, commit_row.
  repeat match goal with
  | |- context [bool_decide ?P] => destruct (bool_decide P)
  | |- context [files !! ?k] => destruct (files !! k) as [file|]
  | |- context [Py.truthy_opt (image_filename old)] =>
      let H := fresh "Himg" in
      destruct (image_filename old) as [f|] eqn:H; simpl Py.truthy_opt;
      simpl Py.or_empty
  | |- context [Py.truthy ?n] =>
      let H := fresh in destruct (Py.truthy n) eqn:H; simpl
  | |- context [allowed_file ?n] =>
      let H := fresh in destruct (allowed_file n) eqn:H; simpl
  | |- context [uploads ?w !! ?k] =>
      let H := fresh in destruct (uploads w !! k) eqn:H; simpl
  | |- context [decide (?a = ?b)] =>
      let H := fresh "Hsame" in
      let H' := fresh "Hdiff" in
      destruct (decide (a = b)) as [H|H']
  end;
  try (exfalso; congruence).
  all: intros [= <-].
  all: match goal with
       | H : @eq Sighting _ ?b |- _ => exists b
       | H : ~ @eq Sighting _ ?b |- _ => exists b
       end.
  all: split; [done|]; simpl.
  all: split; [first [by right | left; split; [done|]; by symmetry]|].
  all: first
    [ left; split; [done|done]
    | right; left; split; [done|]; first [by left | right; by eexists]
    | right; right; eexists _, _; split; [done|];
      first [by left | right; by eexists] ].
Qed.

Lemma get_sighting_elem_of i rows r : get_sighting i rows = Some r -> r ∈ rows.
Proof.
  induction rows as [|x rows IH]; simpl; [done|].
  destruct (Z.eqb_spec (id x) i); [intros [= ->]; by left|].
  intros H. right. by apply IH.
Qed.

Lemma images_present_flash m c w : images_present (flash m c w) <-> images_present w.
Proof. done. Qed.

(** X22: the references to images stay good under update and delete, as
    long as no other row names the image of the row addressed.  If every
    row that names an image names a file of the upload directory, this is
    still so after an update request and after a delete request for that
    key, whatever the form and the file sent. *)
Theorem images_stay_present_when_unshared (secure_filename : string -> string)
    (m : method) (i : Z) (form : gmap string string)
    (files : gmap string upload) (w : world) :
  images_present w ->
  image_unshared i w ->
  images_present (snd (edit_sighting secure_filename m i form files w)) /\
  images_present (snd (delete_sighting i w)).
Proof.
  intros Hw Hun. split.
  - unfold edit_sighting.
    destruct (get_sighting i (db w)) as [old|] eqn:Hget; [|done].
    destruct m; [done|].
    destruct (edit_sighting_try secure_filename old form files w) as [w'|e] eqn:Htry;
      [|done].
    cbn [snd].
    pose proof (get_sighting_id _ _ _ Hget) as Hid.
    pose proof (get_sighting_elem_of _ _ _ Hget) as Hold.
    destruct (edit_sighting_try_images _ _ _ _ _ _ Htry)
      as (new & Hnew & Hdb & Himages).
    (* a file of another row is kept *)
    assert (Hkeep : forall g, image_filename old <> Some g ->
                              is_Some (uploads w !! g) -> is_Some (uploads w' !! g)).
    { intros g Hg Hsome.
      destruct Himages as [[_ ->] | [[_ [-> | (f & Hf & ->)]]
                          | (name & data & _ & [-> | (f & Hf & ->)])]];
        try done.
      - rewrite lookup_delete_ne; [done|]. congruence.
      - rewrite lookup_insert. by case_decide.
      - rewrite lookup_insert. case_decide; [done|].
        rewrite lookup_delete_ne; [done|]. congruence. }
    (* the file of the row is there *)
    assert (Hown : forall g, image_filename new = Some g -> is_Some (uploads w' !! g)).
    { intros g Hg.
      destruct Himages as [[Hsame ->] | [[Hnone _]
                          | (name & data & Hname & [-> | (f & Hf & ->)])]].
      - apply (Hw old); [done|congruence].
      - congruence.
      - assert (g = name) as -> by congruence. by rewrite lookup_insert_eq.
      - assert (g = name) as -> by congruence. by rewrite lookup_insert_eq. }
    intros r g Hr Hg.
    destruct Hdb as [[Hdb ->] | Hdb]; rewrite Hdb in Hr.
    + (* nothing was sent to the table: no file that is named is lost *)
      destruct (decide (image_filename old = Some g)) as [Hg' | Hg'];
        [by apply Hown|].
      apply Hkeep; [done|]. by apply (Hw r).
    + apply elem_of_update_row in Hr as [-> | [Hr Hne]]; [by apply Hown|].
      apply Hkeep; [|by apply (Hw r)].
      apply (Hun old r g); [done | done | congruence | done].
  - unfold delete_sighting.
    destruct (get_sighting i (db w)) as [old|] eqn:Hget; [|done].
    cbn [snd]. apply images_present_flash.
    pose proof (get_sighting_id _ _ _ Hget) as Hid.
    intros r g Hr Hg. cbn [db uploads log set_db] in *.
    apply elem_of_delete_row in Hr as [Hr Hne].
    assert (Hr' : r ∈ db w).
    { destruct (Py.truthy_opt (image_filename old)); [|done].
      by rewrite delete_image_db in Hr. }
    pose proof (Hw r g Hr' Hg) as Hsome.
    assert (Hother : image_filename old <> Some g).
    { apply (Hun old r g); [done | done | congruence | done]. }
    destruct (image_filename old) as [f|]; cbn [Py.truthy_opt]; [|done].
    destruct (Py.truthy f); [|done].
    unfold delete_image. cbn [Py.truthy_opt Py.or_empty].
    destruct (Py.truthy f); [|done].
    destruct (uploads w !! f); [|done].
    cbn [snd uploads log set_uploads]. rewrite lookup_delete_ne; [done|]. congruence.
Qed.

Lemma images_stay_present_when_unshared_witness :
  images_present (snd (edit_sighting keep_name POST 5 form_remove ∅ world56)) /\
  images_present (snd (delete_sighting 5 world56)).
Proof.
  apply (images_stay_present_when_unshared keep_name POST 5 form_remove ∅ world56).
  - intros r f Hr Himg.
    apply elem_of_cons in Hr as [-> | Hr].
    + injection Himg as <-. by eexists.
    + apply list_elem_of_singleton in Hr. subst r. discriminate Himg.
  - intros old r f _ Hr Hne Himg.
    apply elem_of_cons in Hr as [-> | Hr]; [by destruct Hne|].
    apply list_elem_of_singleton in Hr. subst r. discriminate Himg.
Defined.

End References.

(** ** Text as the queries normalise it *)

Section Trimming.

Lemma is_space_white_space c : is_space c = white_space c.
Proof. destruct c as [[] [] [] [] [] [] [] []]; reflexivity. Qed.

Lemma lstrip_spec s :
  exists before,
    s = before +:+ PyText.lstrip s /\ white_spaces before = true /\
    forall c rest, PyText.lstrip s = String c rest -> white_space c = false.
Proof.
  induction s as [|a s (before & Hs & Hbefore & Hfirst)].
  - by exists "".
  - cbn [PyText.lstrip]. destruct (is_space a) eqn:Ha.
    + exists (String a before). split; [cbn; by f_equal|].
      split; [|done]. unfold white_spaces in *. cbn [list_ascii_of_string forallb].
      by rewrite <- is_space_white_space, Ha.
    + exists "". split; [done|]. split; [done|].
      intros c rest [= <- <-]. by rewrite <- is_space_white_space.
Qed.

Lemma rstrip_spec s :
  exists after,
    s = PyText.rstrip s +:+ after /\ white_spaces after = true /\
    (forall rest c, PyText.rstrip s = rest +:+ String c "" -> white_space c = false) /\
    (forall c rest, s = String c rest -> white_space c = false ->
                    exists rest', PyText.rstrip s = String c rest').
Proof.
  induction s as [|a s (after & Hs & Hafter & Hlast & _)].
  - exists "". repeat split; try done. intros [|] ?; discriminate.
  - cbn [PyText.rstrip].
    destruct (String.eqb_spec (PyText.rstrip s) "") as [Hnil | Hnil];
      cbn [andb]; [destruct (is_space a) eqn:Ha|].
    + exists (String a after). rewrite Hnil in Hs. cbn in Hs.
      split; [cbn; by f_equal|]. split.
      { unfold white_spaces in *. cbn [list_ascii_of_string forallb].
        by rewrite <- is_space_white_space, Ha. }
      split; [intros [|] ?; discriminate|].
      intros c rest [= <- <-] Hc. rewrite <- is_space_white_space in Hc. congruence.
    + exists after. split; [cbn; by f_equal|]. split; [done|]. split.
      * intros rest c. rewrite Hnil. destruct rest as [|b rest]; cbn [String.append].
        -- intros [= <-]. by rewrite <- is_space_white_space.
        -- intros [= _ Hrest]. by destruct rest.
      * intros c rest [= <- <-] _. by eexists.
    + exists after. split; [cbn; by f_equal|]. split; [done|]. split.
      * intros rest c. destruct rest as [|b rest]; cbn [String.append].
        -- intros [= _ Hrest]. done.
        -- intros [= _ Hrest]. by eapply Hlast.
      * intros c rest [= <- <-] _. by eexists.
Qed.

(** [strip] removes the white space around a text and nothing else *)
Lemma strip_trimmed s : trimmed s (PyText.strip s).
Proof.
  unfold PyText.strip.
  destruct (lstrip_spec s) as (before & Hs & Hbefore & Hfirst).
  destruct (rstrip_spec (PyText.lstrip s)) as (after & Hl & Hafter & Hlast & Hkeep).
  exists before, after. split; [by rewrite <- Hl|].
  split; [done|]. split; [done|]. split; [|done].
  intros c rest Heq.
  destruct (PyText.lstrip s) as [|a l] eqn:Hlstrip; [done|].
  pose proof (Hfirst a l eq_refl) as Ha.
  destruct (Hkeep a l eq_refl Ha) as [rest' Hrest'].
  rewrite Hrest' in Heq. by injection Heq as <- _.
Qed.

Lemma normalised_strip_upper raw :
  normalised raw (PyText.strip (Py.upper raw)).
Proof. exists (Py.upper raw). split; [apply upper_cased_upper | apply strip_trimmed]. Qed.

Lemma wildcard_upper_char sep c :
  sep = "%"%char \/ sep = "_"%char ->
  Ascii.eqb (Py.upper_char c) sep = Ascii.eqb c sep.
Proof.
  intros [-> | ->]; destruct c as [[] [] [] [] [] [] [] []]; reflexivity.
Qed.

Lemma contains_upper sep s :
  sep = "%"%char \/ sep = "_"%char ->
  Py.contains sep (Py.upper s) = Py.contains sep s.
Proof.
  intros Hsep. induction s as [|c s IH]; cbn [Py.upper Py.contains]; [done|].
  by rewrite IH, wildcard_upper_char.
Qed.

Lemma contains_lstrip sep s :
  Py.contains sep s = false -> Py.contains sep (PyText.lstrip s) = false.
Proof.
  induction s as [|c s IH]; [done|]. cbn [PyText.lstrip].
  destruct (is_space c); [|done]. cbn [Py.contains].
  intros [_ H]%orb_false_iff. by apply IH.
Qed.

Lemma contains_rstrip sep s :
  Py.contains sep s = false -> Py.contains sep (PyText.rstrip s) = false.
Proof.
  induction s as [|c s IH]; [done|]. cbn [PyText.rstrip Py.contains].
  intros [Hc H]%orb_false_iff.
  destruct (String.eqb (PyText.rstrip s) "" && is_space c); [done|].
  cbn [Py.contains]. by rewrite Hc, IH.
Qed.

Lemma no_wildcard_normalised raw :
  no_wildcard raw = true -> no_wildcard (PyText.strip (Py.upper raw)) = true.
Proof.
  unfold no_wildcard, PyText.strip.
  rewrite !andb_true_iff, !negb_true_iff. intros [H1 H2].
  split; apply contains_rstrip, contains_lstrip; rewrite contains_upper; auto.
Qed.

(** X16: a search whose state and plate are ASCII text, the plate free of
    the wildcards [%] and [_].  Both are put in upper case and the white
    space around them is removed.  With both terms then empty the search
    redirects to the listing; otherwise it shows exactly the rows of the
    table whose state is the state term, if one is given, and in whose
    plate the plate term occurs, from the most recent to the oldest.
    [LIKE] is taken as SQLite has it, blind to the case of ASCII letters. *)
Theorem search_shows_the_matching_rows args w :
  ascii_text (default "" (args !! "state")) = true ->
  ascii_text (default "" (args !! "plate")) = true ->
  no_wildcard (default "" (args !! "plate")) = true ->
  exists state_term plate_term,
    normalised (default "" (args !! "state")) state_term /\
    normalised (default "" (args !! "plate")) plate_term /\
    if String.eqb state_term "" && String.eqb plate_term ""
    then search args w = SearchRedirect "index"
    else
      exists rows,
        search args w = SearchPage state_term plate_term rows /\
        newest_to_oldest rows /\
        forall r,
          r ∈ rows <->
          r ∈ db w /\
          (state_term = "" \/ state r = state_term) /\
          occurs_in plate_term (license_plate r).
Proof.
  intros _ _ Hw.
  exists (search_term args "state"), (search_term args "plate").
  split; [apply normalised_strip_upper|]. split; [apply normalised_strip_upper|].
  apply search_rows. by apply no_wildcard_normalised.
Qed.

Lemma search_shows_the_matching_rows_witness :
  (exists state_term plate_term,
     normalised (default "" (args_search !! "state")) state_term /\
     normalised (default "" (args_search !! "plate")) plate_term /\
     if String.eqb state_term "" && String.eqb plate_term ""
     then search args_search world56 = SearchRedirect "index"
     else
       exists rows,
         search args_search world56 = SearchPage state_term plate_term rows /\
         newest_to_oldest rows /\
         forall r,
           r ∈ rows <->
           r ∈ db world56 /\
           (state_term = "" \/ state r = state_term) /\
           occurs_in plate_term (license_plate r)) /\
  args_search !! "state" = Some " ca " /\ args_search !! "plate" = Some "abc" /\
  search args_search world56 = SearchPage "CA" "ABC" [row5].
Proof.
  split; [|by vm_compute].
  apply (search_shows_the_matching_rows args_search world56); reflexivity.
Defined.

(** X17: the vehicle lookup of a plate given as ASCII text looks for the
    plate in upper case.  Either no row of the table has that plate and the
    answer is [found: false], or the answer carries the make, model and
    colour of a row with that plate that is at least as recent as every
    row with that plate (a row without timestamp counts as the oldest). *)
Theorem car_info_is_of_the_latest_sighting plate w :
  ascii_text plate = true ->
  exists capitals,
    upper_cased plate capitals /\
    (((forall r, r ∈ db w -> license_plate r <> capitals) /\
      get_car_info plate w = [("found", JBool false)]) \/
     (exists r,
        r ∈ db w /\ license_plate r = capitals /\
        (forall r', r' ∈ db w -> license_plate r' = capitals ->
                    opt_time_leb (timestamp r') (timestamp r) = true) /\
        get_car_info plate w =
          [("found", JBool true); ("car_make", JString (car_make r));
           ("car_model", JString (car_model r)); ("color", JString (color r))])).
Proof.
  intros _. exists (Py.upper plate). split; [apply upper_cased_upper|].
  apply car_info_latest.
Qed.

Lemma car_info_is_of_the_latest_sighting_witness :
  (exists capitals,
     upper_cased "abc1234" capitals /\
     (((forall r, r ∈ db world56 -> license_plate r <> capitals) /\
       get_car_info "abc1234" world56 = [("found", JBool false)]) \/
      (exists r,
         r ∈ db world56 /\ license_plate r = capitals /\
         (forall r', r' ∈ db world56 -> license_plate r' = capitals ->
                     opt_time_leb (timestamp r') (timestamp r) = true) /\
         get_car_info "abc1234" world56 =
           [("found", JBool true); ("car_make", JString (car_make r));
            ("car_model", JString (car_model r)); ("color", JString (color r))]))) /\
  get_car_info "abc1234" world56 =
    [("found", JBool true); ("car_make", JString "Honda");
     ("car_model", JString "Civic"); ("color", JString "Blue")].
Proof.
  split; [|reflexivity].
  apply (car_info_is_of_the_latest_sighting "abc1234" world56). reflexivity.
Defined.

End Trimming.

(** ** The orders of the listing *)

Section SortOrders.

Lemma Sorted_weaken {A} (R R' : A -> A -> Prop) l :
  (forall x y, R x y -> R' x y) -> Sorted R l -> Sorted R' l.
Proof.
  intros HR. induction 1 as [|x l _ IH Hhd]; constructor; [done|].
  destruct Hhd; constructor. by apply HR.
Qed.

Lemma pair_leb_columns_le a1 a2 b1 b2 :
  pair_leb a1 a2 b1 b2 = true -> columns_le a1 a2 b1 b2.
Proof.
  unfold pair_leb, columns_le, String.ltb, String.leb.
  rewrite orb_true_iff, andb_true_iff, String.eqb_eq.
  intros [H | [-> H]]; [left | right].
  - by destruct (String.compare a1 b1).
  - split; [done|]. by destruct (String.compare a2 b2).
Qed.

Lemma sort_order_named sort_by :
  sort_by ∉ ["date_asc"; "plate_asc"; "plate_desc"; "make_asc"; "make_desc"] ->
  sort_order sort_by = newest_first.
Proof.
  intros Hnot. unfold sort_order.
  repeat match goal with
  | |- context [String.eqb sort_by ?k] =>
      destruct (String.eqb_spec sort_by k) as [-> | _]
  end; try done; exfalso; apply Hnot; set_solver.
Qed.

(** X14: the listing is sorted as [sort_by] asks: [date_asc] from the
    oldest to the most recent; [plate_asc] by state, then plate, from A to Z
    and [plate_desc] from Z to A; [make_asc] by make, then model, from A to Z
    and [make_desc] from Z to A; any other value, or none, from the most
    recent to the oldest.  Text is compared character code by character
    code, and a row without timestamp counts as the oldest.  Whatever the
    query, a listing that is answered holds rows of the table only, each at
    most as often as the table does, and leaves the table and the upload
    directory alone: all it adds are the messages for malformed dates. *)
Theorem listing_is_sorted_and_reads_only args w rows w' :
  index args w = Ok (rows, w') ->
  (args !! "sort_by" = Some "date_asc" -> Sorted oldest_first rows) /\
  (args !! "sort_by" = Some "plate_asc" -> Sorted plate_a_to_z rows) /\
  (args !! "sort_by" = Some "plate_desc" -> Sorted (flip plate_a_to_z) rows) /\
  (args !! "sort_by" = Some "make_asc" -> Sorted make_a_to_z rows) /\
  (args !! "sort_by" = Some "make_desc" -> Sorted (flip make_a_to_z) rows) /\
  (default "date_desc" (args !! "sort_by")
     ∉ ["date_asc"; "plate_asc"; "plate_desc"; "make_asc"; "make_desc"] ->
   Sorted (flip oldest_first) rows) /\
  rows ⊆+ db w /\
  db w' = db w /\ uploads w' = uploads w /\ trace w' = trace w /\
  flashes w' = flashes w ++ date_warnings args.
Proof.
  intros Hindex.
  destruct (index_sorted args w rows w' Hindex) as (Hsorted & Hrest).
  repeat split; try apply Hrest.
  1-5: intros Hby; rewrite Hby in Hsorted; cbn [default] in Hsorted;
       revert Hsorted; apply Sorted_weaken; intros x y;
       unfold sort_order; cbn [String.eqb Ascii.eqb Bool.eqb];
       first [done | apply pair_leb_columns_le].
  intros Hby. rewrite (sort_order_named _ Hby) in Hsorted.
  revert Hsorted. by apply Sorted_weaken.
Qed.

Lemma listing_is_sorted_and_reads_only_witness :
  (args_plate_desc !! "sort_by" = Some "date_asc" ->
   Sorted oldest_first [row6; row5]) /\
  (args_plate_desc !! "sort_by" = Some "plate_asc" ->
   Sorted plate_a_to_z [row6; row5]) /\
  (args_plate_desc !! "sort_by" = Some "plate_desc" ->
   Sorted (flip plate_a_to_z) [row6; row5]) /\
  (args_plate_desc !! "sort_by" = Some "make_asc" ->
   Sorted make_a_to_z [row6; row5]) /\
  (args_plate_desc !! "sort_by" = Some "make_desc" ->
   Sorted (flip make_a_to_z) [row6; row5]) /\
  (default "date_desc" (args_plate_desc !! "sort_by")
     ∉ ["date_asc"; "plate_asc"; "plate_desc"; "make_asc"; "make_desc"] ->
   Sorted (flip oldest_first) [row6; row5]) /\
  [row6; row5] ⊆+ db world56 /\
  db world56 = db world56 /\ uploads world56 = uploads world56 /\
  trace world56 = trace world56 /\
  flashes world56 = flashes world56 ++ date_warnings args_plate_desc.
Proof.
  apply (listing_is_sorted_and_reads_only args_plate_desc world56
           [row6; row5] world56).
  reflexivity.
Defined.

End SortOrders.
